(** * The [now dev] development server: routing, asset resolution, serving

    A shallow embedding of the two [DevServer] implementations of the
    repository: the earlier one ([DevServerV1]), which serves the built
    assets and invokes the functions, and the later one ([DevServer]),
    which adds the validation of the env sections, the build
    environment, the build matches and the shutdown, and whose serving
    of assets is disabled.  With them comes the small part of the
    JavaScript and Node.js runtime they rely on.

    An [async] method is a function from the state of the server, the
    request and the answers of the outside world (the content of
    [now.json], the random numbers, the answers of [listen], the modules
    that are not among the sources) to the new state and the response.
    Exceptions are a result type.  Logging is left out, as are the
    failures of [rawBody], of [getProjectFiles] and of [installBuilders],
    and the refusal of an ill-formed header by [setHeader]. *)

From Stdlib Require Import ZArith NArith Ascii String List Lia Bool DecimalString.
From Stdlib.Strings Require Import Byte.
From stdpp Require Import base strings list gmap fin_maps.
Import ListNotations.

Local Open Scope string_scope.

(** ** JavaScript strings and plain objects *)

Module JS.

Definition is_upper (c : ascii) : bool :=
  Nat.leb 65 (nat_of_ascii c) && Nat.leb (nat_of_ascii c) 90.

Definition is_lower (c : ascii) : bool :=
  Nat.leb 97 (nat_of_ascii c) && Nat.leb (nat_of_ascii c) 122.

Definition is_digit (c : ascii) : bool :=
  Nat.leb 48 (nat_of_ascii c) && Nat.leb (nat_of_ascii c) 57.

(** The regular-expression class [\w]: letters, digits and underscore. *)
Definition is_word_char (c : ascii) : bool :=
  is_upper c || is_lower c || is_digit c || Ascii.eqb c "_".

Definition lower_char (c : ascii) : ascii :=
  if is_upper c then ascii_of_nat (nat_of_ascii c + 32) else c.

(** [String.prototype.toLowerCase] on the ASCII range. *)
Fixpoint toLowerCase (s : string) : string :=
  match s with
  | EmptyString => EmptyString
  | String c r => String (lower_char c) (toLowerCase r)
  end.

(** [s.startsWith(p)], returning the remainder after the prefix. *)
Fixpoint strip_prefix (p s : string) : option string :=
  match p, s with
  | EmptyString, _ => Some s
  | String a p', String b s' =>
      if Ascii.eqb a b then strip_prefix p' s' else None
  | String _ _, EmptyString => None
  end.

Definition startsWith (s p : string) : bool :=
  match strip_prefix p s with Some _ => true | None => false end.

Fixpoint all_chars (f : ascii -> bool) (s : string) : bool :=
  match s with
  | EmptyString => true
  | String c r => f c && all_chars f r
  end.

(** [s.replace(/^\//, '')]: drop one leading slash. *)
Definition strip_leading_slash (s : string) : string :=
  match s with
  | String "/"%char r => r
  | _ => s
  end.

(** [s.replace(/\/$/, '')]: drop one trailing slash. *)
Fixpoint strip_trailing_slash (s : string) : string :=
  match s with
  | EmptyString => EmptyString
  | String c r =>
      match r with
      | EmptyString => if Ascii.eqb c "/" then EmptyString else s
      | String _ _ => String c (strip_trailing_slash r)
      end
  end.

(** [s.slice(-n)]: the last [n] characters, the whole string when it is
    shorter. *)
Definition slice_last (n : nat) (s : string) : string :=
  String.substring (String.length s - n) n s.

(** A plain object used as a dictionary, as the list of its entries in
    enumeration order ([Object.entries]); keys are unique. *)
Definition obj (V : Type) : Type := list (string * V).

Fixpoint obj_get {V} (o : obj V) (k : string) : option V :=
  match o with
  | [] => None
  | (k', v) :: o' => if String.eqb k' k then Some v else obj_get o' k
  end.

Definition hasOwnProperty {V} (o : obj V) (k : string) : bool :=
  match obj_get o k with Some _ => true | None => false end.

(** The names every plain object inherits from [Object.prototype]. *)
Definition prototype_names : list string :=
  ["constructor"; "__defineGetter__"; "__defineSetter__"; "hasOwnProperty";
   "__lookupGetter__"; "__lookupSetter__"; "isPrototypeOf"; "propertyIsEnumerable";
   "toString"; "valueOf"; "__proto__"; "toLocaleString"].

Definition is_prototype_name (k : string) : bool :=
  existsb (String.eqb k) prototype_names.

(** What a member of [Object.prototype] is when it is read where a value
    of type [V] is expected. *)
Class Inherited (V : Type) : Type := inherited : string -> V.

(** [o[k]] on a plain object: the own property, else the inherited
    one. *)
Definition obj_read {V} `{Inherited V} (o : obj V) (k : string) : option V :=
  match obj_get o k with
  | Some v => Some v
  | None => if is_prototype_name k then Some (inherited k) else None
  end.

(** [o[k] = v] for a key that is no array index and not [__proto__]: an
    existing key keeps its place, a new key goes last.  (JavaScript
    lists the keys that are array indices, such as [0] or [42], before
    the others, and an assignment under [__proto__] sets the prototype;
    a spread copies the keys in the order they are listed in.) *)
Fixpoint obj_set {V} (o : obj V) (k : string) (v : V) : obj V :=
  match o with
  | [] => [(k, v)]
  | (k', v') :: o' =>
      if String.eqb k' k then (k', v) :: o' else (k', v') :: obj_set o' k v
  end.

(** [Object.assign(target, src)] and the spread [{...target, ...src}]. *)
Definition obj_assign {V} (target src : obj V) : obj V :=
  fold_left (fun acc kv => obj_set acc (fst kv) (snd kv)) src target.

Definition obj_keys {V} (o : obj V) : list string := map fst o.
Definition obj_values {V} (o : obj V) : list V := map snd o.

(** The line feed of the template literals. *)
Definition nl : string := String (ascii_of_nat 10) EmptyString.

(** The double quote of Node's error messages. *)
Definition quote : string := String (ascii_of_nat 34) EmptyString.

(** [String(n)] for an integer, as template literals and [join] print it. *)
Definition string_of_Z (n : Z) : string := NilZero.string_of_int (Z.to_int n).

(** [s.split(sep)] for a one-character separator. *)
Fixpoint split_on (sep : ascii) (s : string) : list string :=
  match s with
  | EmptyString => [EmptyString]
  | String c r =>
      if Ascii.eqb c sep then EmptyString :: split_on sep r
      else match split_on sep r with
           | [] => [String c EmptyString]
           | w :: ws => String c w :: ws
           end
  end.

(** [parts.join(sep)]. *)
Fixpoint join (sep : string) (parts : list string) : string :=
  match parts with
  | [] => EmptyString
  | [p] => p
  | p :: ps => p ++ sep ++ join sep ps
  end.

(** A value produced by [JSON.parse]; numbers are kept to the integers,
    and [JNum n] stands for the number [n] where a double holds it
    exactly ([is_safe_integer]). *)
#[warnings="-register-all"] Inductive json : Type :=
| JNull
| JBool (b : bool)
| JNum (n : Z)
| JStr (s : string)
| JArr (items : list json)
| JObj (fields : list (string * json)).

(** The three results of reading [val[0]]: a [TypeError] on [null], the
    value [undefined], or a value. *)
Inductive indexed : Type :=
| IdxTypeError
| IdxUndefined
| IdxValue (v : json).

Definition index0 (v : json) : indexed :=
  match v with
  | JNull => IdxTypeError
  | JBool _ | JNum _ => IdxUndefined
  | JStr EmptyString => IdxUndefined
  | JStr (String c _) => IdxValue (JStr (String c EmptyString))
  | JArr [] => IdxUndefined
  | JArr (x :: _) => IdxValue x
  | JObj fields =>
      match obj_get fields "0" with
      | Some x => IdxValue x
      | None => IdxUndefined
      end
  end.



(** [String(v)], the text a value becomes when it is stored in
    [process.env], for a value of [exact_text]: a number beyond the safe
    integers is rounded to a double, and printed with an exponent from
    [1e21] on. *)
Fixpoint to_string (v : json) : string :=
  match v with
  | JNull => "null"
  | JBool true => "true"
  | JBool false => "false"
  | JNum n => string_of_Z n
  | JStr s => s
  | JArr items =>
      join "," (map (fun x => match x with JNull => EmptyString | _ => to_string x end)
                  items)
  | JObj _ => "[object Object]"
  end.

(** [typeof value === 'string' && value.startsWith(p)]. *)
Definition is_string_starting (p : string) (v : json) : bool :=
  match v with
  | JStr s => startsWith s p
  | _ => false
  end.

End JS.

(** ** Node.js buffers: hexadecimal and base64 *)

Module Buffer.

Definition byte_of_N (n : N) : byte :=
  match Byte.of_N (n mod 256) with
  | Some b => b
  | None => x00
  end.

Definition hex_digit (n : N) : ascii :=
  match String.get (N.to_nat n) "0123456789abcdef" with
  | Some c => c
  | None => "0"%char
  end.

(** [buf.toString('hex')]: two lower-case digits per byte. *)
Fixpoint toString_hex (buf : list byte) : string :=
  match buf with
  | [] => EmptyString
  | b :: r =>
      let n := Byte.to_N b in
      String (hex_digit (n / 16)) (String (hex_digit (n mod 16)) (toString_hex r))
  end.

(** The value of a character of the base64 alphabet; Node accepts the
    URL-safe [-] and [_] next to [+] and [/]. *)
Definition unbase64 (c : ascii) : option N :=
  let n := N_of_ascii c in
  if JS.is_upper c then Some (n - 65)%N
  else if JS.is_lower c then Some (n - 97 + 26)%N
  else if JS.is_digit c then Some (n - 48 + 52)%N
  else if Ascii.eqb c "+" || Ascii.eqb c "-" then Some 62%N
  else if Ascii.eqb c "/" || Ascii.eqb c "_" then Some 63%N
  else None.

(** Node's tolerant reader: characters outside the alphabet are skipped
    and reading stops at the first padding character. *)
Fixpoint sextets (s : string) : list N :=
  match s with
  | EmptyString => []
  | String c r =>
      if Ascii.eqb c "=" then []
      else match unbase64 c with
           | Some v => v :: sextets r
           | None => sextets r
           end
  end.

Fixpoint decode_groups (l : list N) : list byte :=
  match l with
  | a :: b :: c :: d :: r =>
      byte_of_N (a * 4 + b / 16)
      :: byte_of_N ((b mod 16) * 16 + c / 4)
      :: byte_of_N ((c mod 4) * 64 + d)
      :: decode_groups r
  | [a; b; c] =>
      [byte_of_N (a * 4 + b / 16); byte_of_N ((b mod 16) * 16 + c / 4)]
  | [a; b] => [byte_of_N (a * 4 + b / 16)]
  | _ => []
  end.

(** [Buffer.from(s, 'base64')]. *)
Definition from_base64 (s : string) : list byte := decode_groups (sextets s).

Definition base64_digit (n : N) : ascii :=
  match String.get (N.to_nat n)
          "ABCDEFGHIJKLMNOPQRSTUVWXYZabcdefghijklmnopqrstuvwxyz0123456789+/" with
  | Some c => c
  | None => "="%char
  end.

(** [buf.toString('base64')], with padding. *)
Fixpoint toString_base64 (buf : list byte) : string :=
  match buf with
  | x :: y :: z :: r =>
      let a := Byte.to_N x in
      let b := Byte.to_N y in
      let c := Byte.to_N z in
      String (base64_digit (a / 4))
        (String (base64_digit ((a mod 4) * 16 + b / 16))
           (String (base64_digit ((b mod 16) * 4 + c / 64))
              (String (base64_digit (c mod 64)) (toString_base64 r))))
  | [x; y] =>
      let a := Byte.to_N x in
      let b := Byte.to_N y in
      String (base64_digit (a / 4))
        (String (base64_digit ((a mod 4) * 16 + b / 16))
           (String (base64_digit ((b mod 16) * 4)) "="))
  | [x] =>
      let a := Byte.to_N x in
      String (base64_digit (a / 4)) (String (base64_digit ((a mod 4) * 16)) "==")
  | [] => EmptyString
  end.

End Buffer.

(** ** Exceptions *)

Inductive Exc (E A : Type) : Type :=
| Ok (a : A)
| Throw (e : E).
Arguments Ok {E A} a.
Arguments Throw {E A} e.

Definition bind {E A B} (m : Exc E A) (k : A -> Exc E B) : Exc E B :=
  match m with
  | Ok a => k a
  | Throw e => Throw e
  end.

(** ** The Node.js HTTP objects *)

Module Http.

Inductive HeaderValue : Type :=
| HStr (s : string)
| HNum (n : Z).

(** A header value inside a template literal; a missing one prints as
    [undefined]. *)
Definition render (v : option HeaderValue) : string :=
  match v with
  | None => "undefined"
  | Some (HStr s) => s
  | Some (HNum n) => JS.string_of_Z n
  end.

Inductive Body : Type :=
| BodyNone
| BodyText (s : string)
| BodyBytes (b : list byte).

(** [http.ServerResponse]: the header table is keyed by the lower-cased
    name and keeps the name as it was given. *)
Record ServerResponse : Type := mkResponse {
  statusCode : Z;
  headers : JS.obj (string * HeaderValue);
  finished : bool;
  body : Body
}.

Definition fresh : ServerResponse := mkResponse 200%Z [] false BodyNone.

Definition setStatusCode (res : ServerResponse) (code : Z) : ServerResponse :=
  mkResponse code (headers res) (finished res) (body res).

(** The characters of an HTTP token. *)
Definition is_token_char (c : ascii) : bool :=
  JS.is_word_char c
  || existsb (Ascii.eqb c)
       ["!"; "#"; "$"; "%"; "&"; "'"; "*"; "+"; "-"; "."; "^"; "`"; "|"; "~"]%char.

(** The names Node accepts for a header: the tokens. *)
Definition valid_name (name : string) : bool :=
  negb (String.eqb name EmptyString) && JS.all_chars is_token_char name.

(** The characters Node accepts in the content of a header: the tab,
    the printable ASCII range and the characters from 128 to 255 (a
    string of this development holds no character beyond 255). *)
Definition is_content_char (c : ascii) : bool :=
  Nat.eqb (nat_of_ascii c) 9
  || (Nat.leb 32 (nat_of_ascii c) && Nat.leb (nat_of_ascii c) 126)
  || Nat.leb 128 (nat_of_ascii c).

Definition valid_value (v : HeaderValue) : bool :=
  match v with
  | HStr s => JS.all_chars is_content_char s
  | HNum _ => true
  end.

(** The status codes with which Node writes the head of a response. *)
Definition valid_status (code : Z) : bool :=
  Z.leb 100 code && Z.leb code 999.

(** What Node throws on a response: [ERR_INVALID_HTTP_TOKEN] and
    [ERR_INVALID_CHAR] from [res.setHeader], and
    [ERR_HTTP_INVALID_STATUS_CODE] from [res.end], which writes the
    head. *)
Inductive Refusal : Type :=
| InvalidToken (name : string)
| InvalidChar (name : string)
| InvalidStatusCode (code : Z).

Definition refusal_code (e : Refusal) : string :=
  match e with
  | InvalidToken _ => "ERR_INVALID_HTTP_TOKEN"
  | InvalidChar _ => "ERR_INVALID_CHAR"
  | InvalidStatusCode _ => "ERR_HTTP_INVALID_STATUS_CODE"
  end.

Definition refusal_message (e : Refusal) : string :=
  match e with
  | InvalidToken name =>
      "Header name must be a valid HTTP token [" ++ JS.quote ++ name ++ JS.quote ++ "]"
  | InvalidChar name =>
      "Invalid character in header content [" ++ JS.quote ++ name ++ JS.quote ++ "]"
  | InvalidStatusCode code => "Invalid status code: " ++ JS.string_of_Z code
  end.

(** Whether [res.setHeader(name, value)] throws, and what: the name is
    looked at first. *)
Definition refuses (name : string) (value : HeaderValue) : option Refusal :=
  if negb (valid_name name) then Some (InvalidToken name)
  else if negb (valid_value value) then Some (InvalidChar name)
  else None.

(** [res.setHeader(name, value)] for a name and a value Node accepts
    ([refuses] tells which it does not): the entry goes under the
    lower-cased name.  Where a name or a value comes from the project, a
    rule of [now.json] or the answer of a function, the servers go
    through [trySetHeaders] below. *)
Definition setHeader (res : ServerResponse) (name : string) (value : HeaderValue)
  : ServerResponse :=
  mkResponse (statusCode res)
    (JS.obj_set (headers res) (JS.toLowerCase name) (name, value))
    (finished res) (body res).

Definition getHeader (res : ServerResponse) (name : string) : option HeaderValue :=
  match JS.obj_get (headers res) (JS.toLowerCase name) with
  | Some (_, v) => Some v
  | None => None
  end.

(** [res.end(b)] for a status code Node accepts ([valid_status]); where
    the status code is the one a function answered, the server tests it
    before. *)
Definition end_ (res : ServerResponse) (b : Body) : ServerResponse :=
  mkResponse (statusCode res) (headers res) true b.

(** [for (const [name, value] of Object.entries(hs)) res.setHeader(name, value)]. *)
Definition setHeaders (res : ServerResponse) (hs : JS.obj HeaderValue)
  : ServerResponse :=
  fold_left (fun r kv => setHeader r (fst kv) (snd kv)) hs res.

(** Node accepts every entry. *)
Definition accepted (hs : JS.obj HeaderValue) : bool :=
  forallb
    (fun kv => match refuses (fst kv) (snd kv) with None => true | Some _ => false end)
    hs.

(** The same loop over headers that come from the project: it stops at
    the first entry Node refuses, and the entries before it stay set on
    the response. *)
Fixpoint trySetHeaders (res : ServerResponse) (hs : JS.obj HeaderValue)
  : ServerResponse * option Refusal :=
  match hs with
  | [] => (res, None)
  | (name, value) :: rest =>
      match refuses name value with
      | Some e => (res, Some e)
      | None => trySetHeaders (setHeader res name value) rest
      end
  end.

(** [http.IncomingMessage]; header names arrive lower-cased. *)
Record IncomingMessage : Type := mkRequest {
  method : option string;
  url : string;
  req_headers : JS.obj string;
  remoteAddress : option string;
  rawBody : list byte
}.

(** How the handling of a request leaves the response: ended by the
    server itself, or handed over to [http-proxy] or to [serve-handler]. *)
Inductive Outcome : Type :=
| Ended (res : ServerResponse)
| ProxyPass (res : ServerResponse) (target : string)
| ServeStatic (res : ServerResponse) (req_url : string) (public : string).

Definition response_of (o : Outcome) : ServerResponse :=
  match o with
  | Ended res | ProxyPass res _ | ServeStatic res _ _ => res
  end.

End Http.

(** ** The declarations of [./types] the two servers use

    The file itself is not part of the sources at hand; the shapes below
    are the ones the servers read and write. *)

Module Types.

(** The handle of a built function: invoked with a payload, torn down
    with [destroy()]. *)
Definition FnHandle : Type := string.

Record BuildEntry : Type := mkBuildEntry { entry_fsPath : string }.

Inductive AssetBody : Type :=
| FileFsRef (fsPath : string)
| FileBlob (data : list byte)
| Lambda (fn : option FnHandle)
| OtherAsset (type : string).

Record BuilderOutput : Type := mkOutput {
  asset_body : AssetBody;
  buildEntry : option BuildEntry;
  buildTimestamp : option Z
}.

Definition BuilderOutputs : Type := JS.obj BuilderOutput.

(** A member of [Object.prototype] read as an asset: a function, or the
    prototype itself, whose [type], [buildEntry] and [fn] are undefined;
    the server prints its type as [undefined]. *)
#[global] Instance inherited_asset : JS.Inherited BuilderOutput :=
  fun _ => mkOutput (OtherAsset "undefined") None None.

Definition EnvConfig : Type := JS.obj JS.json.

Record BuildSection : Type := mkBuildSection { build_env : option EnvConfig }.

Record BuildConfig : Type := mkBuildConfig { build_src : string; build_use : string }.

Record NowConfig : Type := mkNowConfig {
  version : option JS.json;
  env : option EnvConfig;
  build : option BuildSection;
  builds : option (list BuildConfig);
  routes : option JS.json
}.

(** What [devRouter] answers. *)
Record RouteResult : Type := mkRouteResult {
  dest : string;
  status : option Z;
  route_headers : option (JS.obj string);
  uri_args : option (JS.obj string);
  matched_route : option JS.json
}.

Record InvokePayload : Type := mkPayload {
  payload_method : string;
  payload_path : string;
  payload_headers : JS.obj (option string);
  payload_encoding : string;
  payload_body : string
}.

Inductive ResultBody : Type :=
| ResultUndefined
| ResultString (s : string)
| ResultBuffer (b : list byte).

Record InvokeResult : Type := mkResult {
  result_statusCode : Z;
  result_headers : option (JS.obj Http.HeaderValue);
  result_encoding : option string;
  result_body : ResultBody
}.

Inductive FnOutcome : Type :=
| FnThrows
| FnReturns (result : InvokeResult).

(** What reading and parsing a file gives: the parsed content, or an
    error with its [code] (a syntax error has none). *)
Inductive ReadResult (A : Type) : Type :=
| ReadOk (content : A)
| ReadFails (code : option string) (message : string).
Arguments ReadOk {A} content.
Arguments ReadFails {A} code message.

End Types.

(** ** Functions that read the same in both server files *)

Module Shared.
Import Types.

(** Whether [s] is matched from its first character to its end by
    [index(\.\w+)?$]. *)
Definition index_tail (s : string) : bool :=
  match JS.strip_prefix "index" s with
  | Some EmptyString => true
  | Some (String "."%char w) =>
      negb (String.eqb w EmptyString) && JS.all_chars JS.is_word_char w
  | _ => false
  end.

(** Whether [s] is matched from its first character to its end by
    [\/?index(\.\w+)?$]. *)
Definition index_suffix (s : string) : bool :=
  match s with
  | String "/"%char r => index_tail r
  | _ => index_tail s
  end.

(** [name.replace(/\/?index(\.\w+)?$/, '')]: the match is looked for from
    each position in turn, left to right, and cut off where first found. *)
Fixpoint withoutIndex (name : string) : string :=
  if index_suffix name then EmptyString
  else match name with
       | EmptyString => EmptyString
       | String c r => String c (withoutIndex r)
       end.

(** Find the dest handler from assets.  The result is the pair of the
    fields [asset] and [assetKey]. *)
Definition resolveDest {V} `{JS.Inherited V} (assets : JS.obj V) (dest : string)
  : option V * string :=
  let assetKey := JS.strip_leading_slash dest in
  match JS.obj_read assets assetKey with
  | Some asset => (Some asset, assetKey)
  | None =>
      let indexKey :=
        List.find (fun name =>
                String.eqb (withoutIndex name) (JS.strip_trailing_slash assetKey))
             (JS.obj_keys assets) in
      match indexKey with
      | Some k =>
          if String.eqb k EmptyString then (None, assetKey)
          else (JS.obj_read assets k, k)
      | None => (None, assetKey)
      end
  end.

(** The three sources of a trace id: the text of
    [Math.random().toString(32)], the clock, and [randomBytes(16)]. *)
Record Entropy : Type := mkEntropy {
  random32 : string;
  now : Z;
  random_bytes : list byte
}.

(** Generates a (fake) Now tracing ID for an HTTP request. *)
Definition generateRequestId (e : Entropy) : string :=
  JS.join "-"
    [JS.slice_last 5 (random32 e);
     JS.string_of_Z (now e);
     Buffer.toString_hex (random_bytes e)].

Definition shouldRebuild (req : Http.IncomingMessage) : bool :=
  match JS.obj_get (Http.req_headers req) "pragma" with
  | Some v => String.eqb v "no-cache"
  | None => false
  end
  || match JS.obj_get (Http.req_headers req) "cache-control" with
     | Some v => String.eqb v "no-cache"
     | None => false
     end.

Definition getRequestIp (req : Http.IncomingMessage) : string :=
  match Http.remoteAddress req with
  | Some a => if String.eqb a EmptyString then "127.0.0.1" else a
  | None => "127.0.0.1"
  end.

(** The object [allHeaders] that [writeResponseHeaders] builds: the
    headers given, then the Now headers. *)
Definition allHeaders (nowRequestId : string)
  (headers : option (JS.obj Http.HeaderValue)) : JS.obj Http.HeaderValue :=
  let headers := match headers with Some h => h | None => [] end in
  JS.obj_assign (JS.obj_assign [] headers)
    [("x-now-trace", Http.HStr "dev1");
     ("x-now-id", Http.HStr nowRequestId);
     ("x-now-cache", Http.HStr "MISS")].

(** Sets the response [headers] including the Now headers to [res]
    ([writeResponseHeaders] in the earlier file, [setResponseHeaders] in
    the later one). *)
Definition writeResponseHeaders (res : Http.ServerResponse) (nowRequestId : string)
  (headers : option (JS.obj Http.HeaderValue)) : Http.ServerResponse :=
  Http.setHeaders res (allHeaders nowRequestId headers).

(** The same function on the headers a function answered: Node may
    refuse one of them. *)
Definition tryWriteResponseHeaders (res : Http.ServerResponse) (nowRequestId : string)
  (headers : option (JS.obj Http.HeaderValue))
  : Http.ServerResponse * option Http.Refusal :=
  Http.trySetHeaders res (allHeaders nowRequestId headers).

Definition sendError (res : Http.ServerResponse) (nowRequestId code message : string)
  (statusCode : Z) : Http.ServerResponse :=
  let res := Http.setStatusCode res statusCode in
  let res := writeResponseHeaders res nowRequestId None in
  Http.end_ res
    (Http.BodyText
       (JS.string_of_Z statusCode ++ ": " ++ message ++ JS.nl
        ++ "Code: " ++ code ++ JS.nl)).

Definition send404 (res : Http.ServerResponse) (nowRequestId : string)
  : Http.ServerResponse :=
  sendError res nowRequestId "FILE_NOT_FOUND" "The page could not be found" 404%Z.

(** What [listen(server, port)] of [async-listen] answers on one attempt. *)
Inductive ListenAnswer : Type :=
| Listening (address : string)
| ListenError (code : option string) (message : string).

Inductive ListenResult : Type :=
| Bound (port : Z) (address : string)
| ListenThrows (code : option string) (message : string)
| StillTrying (port : Z).

(** The loop [while (typeof address !== 'string')] of [start], run
    against the answers the system gives to the successive attempts;
    [StillTrying] when these answers are used up. *)
Fixpoint listenLoop (port : Z) (answers : list ListenAnswer) : ListenResult :=
  match answers with
  | [] => StillTrying port
  | Listening address :: _ => Bound port address
  | ListenError code message :: rest =>
      match code with
      | Some c =>
          if String.eqb c "EADDRINUSE" then listenLoop (port + 1)%Z rest
          else ListenThrows code message
      | None => ListenThrows code message
      end
  end.

End Shared.

(** ** The earlier server: routing, builds on hard refresh, serving *)

Module DevServerV1.
Import Types Shared.

Inductive DevServerStatus : Type := idle | busy | error.

Record DevServer : Type := mkServer {
  cwd : string;
  assets : BuilderOutputs;
  status : DevServerStatus;
  statusMessage : string
}.

(** The modules this file imports and that are not among the sources:
    the router, the URL test, the ignore list and the builder of
    [./dev-builder], and the libraries [mime-types], [url] and [path]. *)
Record Collaborators : Type := mkCollaborators {
  devRouter : string -> option JS.json -> RouteResult;
  isURL : string -> bool;
  ignores : string -> bool;
  executeBuild : NowConfig -> BuilderOutputs -> BuilderOutput -> Exc string BuilderOutputs;
  buildUserProject : NowConfig -> BuilderOutputs -> Exc string BuilderOutputs;
  lookupMimeType : string -> option string;
  invoke : FnHandle -> InvokePayload -> FnOutcome;
  formatPath : string -> option (JS.obj string) -> string;
  basename : string -> string;
  dirname : string -> string
}.

Definition constructor (cwd : string) : DevServer :=
  mkServer cwd [] busy EmptyString.

Definition setStatusIdle (srv : DevServer) : DevServer :=
  mkServer (cwd srv) (assets srv) idle EmptyString.

Definition setStatusError (srv : DevServer) (msg : string) : DevServer :=
  mkServer (cwd srv) (assets srv) error msg.

Definition setAssets (srv : DevServer) (a : BuilderOutputs) : DevServer :=
  mkServer (cwd srv) a (status srv) (statusMessage srv).

(** [vals.some(val => val[0] === '@')]. *)
Fixpoint hasSecretEnv (vals : list JS.json) : Exc string bool :=
  match vals with
  | [] => Ok false
  | val :: rest =>
      match JS.index0 val with
      | JS.IdxTypeError => Throw "Cannot read property '0' of null"
      | JS.IdxValue (JS.JStr "@") => Ok true
      | _ => hasSecretEnv rest
      end
  end.

Definition validateNowConfig (config : NowConfig) : Exc string unit :=
  match version config with
  | Some (JS.JNum 2%Z) =>
      let env_vals :=
        match env config with Some e => JS.obj_values e | None => [] end in
      let build_vals :=
        match build config with
        | Some b => match build_env b with Some e => JS.obj_values e | None => [] end
        | None => []
        end in
      bind (hasSecretEnv (env_vals ++ build_vals)) (fun secret =>
        if secret then Throw "Secret env vars are not yet supported by `now dev`"
        else Ok tt)
  | _ => Throw "Only `version: 2` is supported by `now dev`"
  end.

Definition getNowJson (file : ReadResult NowConfig) : Exc string (option NowConfig) :=
  match file with
  | ReadOk config => bind (validateNowConfig config) (fun _ => Ok (Some config))
  | ReadFails code message =>
      match code with
      | Some c => if String.eqb c "ENOENT" then Ok None else Throw message
      | None => Throw message
      end
  end.

(** Returns the request [headers] that will be sent to the Lambda. *)
Definition getNowProxyHeaders (req : Http.IncomingMessage) (nowRequestId : string)
  (headers : JS.obj string) : JS.obj (option string) :=
  let ip := getRequestIp req in
  let host := JS.obj_get (Http.req_headers req) "host" in
  JS.obj_assign (map (fun kv => (fst kv, Some (snd kv))) headers)
    [("X-Forwarded-Host", host);
     ("X-Forwarded-Proto", Some "http");
     ("X-Forwarded-For", Some ip);
     ("Connection", Some "close");
     ("x-now-trace", Some "dev1");
     ("x-now-deployment-url", host);
     ("x-now-id", Some nowRequestId);
     ("x-now-log-id", nth_error (JS.split_on "-" nowRequestId) 2);
     ("x-zeit-co-forwarded-for", Some ip)].

(** Serve project directory as a static deployment. *)
Definition serveProjectAsStatic (ext : Collaborators) (srv : DevServer)
  (req : Http.IncomingMessage) (res : Http.ServerResponse) (nowRequestId : string)
  : Http.Outcome :=
  let filePath := JS.strip_leading_slash (Http.url req) in
  if negb (String.eqb filePath EmptyString) && ignores ext filePath
  then Http.Ended (send404 res nowRequestId)
  else Http.ServeStatic (writeResponseHeaders res nowRequestId None)
         (Http.url req) (cwd srv).

Definition is_redirect (status : Z) : bool :=
  Z.eqb status 301%Z || Z.eqb status 302%Z || Z.eqb status 303%Z.

(** The payload handed to the function: method, path with the query
    arguments of the route mixed in, proxy headers, body in base64. *)
Definition invokePayload (ext : Collaborators) (req : Http.IncomingMessage)
  (nowRequestId : string) (r : RouteResult) : InvokePayload :=
  mkPayload
    match Http.method req with
    | Some m => if String.eqb m EmptyString then "GET" else m
    | None => "GET"
    end
    (formatPath ext (Http.url req) (uri_args r))
    (getNowProxyHeaders req nowRequestId (Http.req_headers req))
    "base64"
    (Buffer.toString_base64 (Http.rawBody req)).

(** The result body as it is handed to [res.end]. *)
Definition resultBody (result : InvokeResult) : Http.Body :=
  match result_encoding result, result_body result with
  | Some enc, ResultString s =>
      if String.eqb enc "base64"
      then Http.BodyBytes (Buffer.from_base64 s)
      else Http.BodyText s
  | _, ResultString s => Http.BodyText s
  | _, ResultBuffer b => Http.BodyBytes b
  | _, ResultUndefined => Http.BodyNone
  end.

(** The [switch (asset.type)] that ends [serveProjectAsNowV2].  It
    throws where Node refuses what a function answered: a header, or the
    status code when the response is ended; the error comes with the
    response as it was left. *)
Definition serveAsset (ext : Collaborators) (req : Http.IncomingMessage)
  (res : Http.ServerResponse) (nowRequestId : string) (r : RouteResult)
  (asset : BuilderOutput) (assetKey : string)
  : Exc (string * Http.ServerResponse) Http.Outcome :=
  match asset_body asset with
  | FileFsRef fsPath =>
      Ok (Http.ServeStatic (writeResponseHeaders res nowRequestId None)
            ("/" ++ basename ext fsPath) (dirname ext fsPath))
  | FileBlob data =>
      let headers := [("Content-Length", Http.HNum (Z.of_nat (length data)))] in
      let headers :=
        match lookupMimeType ext assetKey with
        | Some contentType =>
            if String.eqb contentType EmptyString then headers
            else JS.obj_set headers "Content-Type" (Http.HStr contentType)
        | None => headers
        end in
      Ok (Http.Ended
            (Http.end_ (writeResponseHeaders res nowRequestId (Some headers))
               (Http.BodyBytes data)))
  | Lambda None =>
      Ok (Http.Ended
            (Http.end_ (Http.setStatusCode res 500%Z)
               (Http.BodyText "Lambda function has not been built")))
  | Lambda (Some fn) =>
      match invoke ext fn (invokePayload ext req nowRequestId r) with
      | FnThrows =>
          Ok (Http.Ended
                (sendError res nowRequestId "NO_STATUS_CODE_FROM_LAMBDA"
                   "An error occurred with your deployment" 502%Z))
      | FnReturns result =>
          let res := Http.setStatusCode res (result_statusCode result) in
          match tryWriteResponseHeaders res nowRequestId (result_headers result) with
          | (res, Some e) => Throw (Http.refusal_message e, res)
          | (res, None) =>
              if Http.valid_status (Http.statusCode res)
              then Ok (Http.Ended (Http.end_ res (resultBody result)))
              else
                Throw
                  (Http.refusal_message (Http.InvalidStatusCode (Http.statusCode res)),
                   res)
          end
      end
  | OtherAsset type =>
      Ok (Http.Ended
            (sendError res nowRequestId "UNKNOWN_ASSET_TYPE"
               ("Don't know how to handle asset type: " ++ type) 500%Z))
  end.

(** What the [catch] of the handler finds when the handling of a request
    threw: the message of the error, and the response and the server as
    they were left. *)
Record Thrown : Type := mkThrown {
  thrown_message : string;
  thrown_response : Http.ServerResponse;
  thrown_server : DevServer
}.

(** The serving of an asset as a step of the handling. *)
Definition serveResolved (ext : Collaborators) (srv : DevServer)
  (req : Http.IncomingMessage) (res : Http.ServerResponse) (nowRequestId : string)
  (r : RouteResult) (asset : BuilderOutput) (assetKey : string)
  : Exc Thrown (DevServer * Http.Outcome) :=
  match serveAsset ext req res nowRequestId r asset assetKey with
  | Ok out => Ok (srv, out)
  | Throw (message, res) => Throw (mkThrown message res srv)
  end.

(** Serve project directory as a Now v2 deployment. *)
Definition serveProjectAsNowV2 (ext : Collaborators) (srv : DevServer)
  (req : Http.IncomingMessage) (res : Http.ServerResponse) (nowRequestId : string)
  (nowJson : NowConfig) : Exc Thrown (DevServer * Http.Outcome) :=
  let r := devRouter ext (Http.url req) (routes nowJson) in
  let status := match Types.status r with Some s => s | None => 200%Z end in
  if isURL ext (dest r) then Ok (srv, Http.ProxyPass res (dest r))
  else if is_redirect status then
    Ok (srv,
        Http.Ended
          (Http.end_ (Http.setStatusCode res status)
             (Http.BodyText
                ("Redirecting (" ++ JS.string_of_Z status ++ ") to "
                 ++ Http.render (Http.getHeader (Http.setStatusCode res status)
                                   "location")))))
  else
    match builds nowJson with
    | None => Ok (srv, serveProjectAsStatic ext srv req res nowRequestId)
    | Some _ =>
        match resolveDest (assets srv) (dest r) with
        | (Some asset, assetKey) =>
            if String.eqb assetKey EmptyString
            then Ok (srv, Http.Ended (send404 res nowRequestId))
            else
              match (if shouldRebuild req then buildEntry asset else None) with
              | Some _ =>
                  match executeBuild ext nowJson (assets srv) asset with
                  | Throw message => Throw (mkThrown message res srv)
                  | Ok rebuilt =>
                      let srv := setAssets srv rebuilt in
                      match resolveDest (assets srv) (dest r) with
                      | (Some asset, assetKey) =>
                          if String.eqb assetKey EmptyString
                          then Ok (srv, Http.Ended (send404 res nowRequestId))
                          else serveResolved ext srv req res nowRequestId r
                                 asset assetKey
                      | (None, _) =>
                          Ok (srv, Http.Ended (send404 res nowRequestId))
                      end
                  end
              | None =>
                  serveResolved ext srv req res nowRequestId r asset assetKey
              end
        | (None, _) => Ok (srv, Http.Ended (send404 res nowRequestId))
        end
    end.

(** The answer of the [catch] block of the handler. *)
Definition caught (message : string) (res : Http.ServerResponse) : Http.Outcome :=
  Http.Ended
    (if Http.finished res then res
     else Http.end_ (Http.setStatusCode res 500%Z) (Http.BodyText message)).

(** dev-server http handler *)
Definition devServerHandler (ext : Collaborators) (srv : DevServer)
  (entropy : Entropy) (file : ReadResult NowConfig)
  (req : Http.IncomingMessage) (res : Http.ServerResponse)
  : DevServer * Http.Outcome :=
  match status srv with
  | busy =>
      (srv,
       Http.Ended
         (Http.end_ res
            (Http.BodyText ("[busy] " ++ statusMessage srv ++ "..."))))
  | _ =>
      let nowRequestId := generateRequestId entropy in
      let served :=
        match getNowJson file with
        | Throw message => Throw (mkThrown message res srv)
        | Ok None => Ok (srv, serveProjectAsStatic ext srv req res nowRequestId)
        | Ok (Some nowJson) =>
            serveProjectAsNowV2 ext srv req res nowRequestId nowJson
        end in
      match served with
      | Ok (srv, out) => (setStatusIdle srv, out)
      | Throw (mkThrown message res srv) =>
          let srv := setStatusError srv message in
          (setStatusIdle srv, caught (statusMessage srv) res)
      end
  end.

(** What [start] leaves behind. *)
Inductive StartResult : Type :=
| Started (srv : DevServer) (port : Z) (address : string)
| StartThrows (code : option string) (message : string)
| StartPending (port : Z).

(** Launches the [now dev] server. *)
Definition start (ext : Collaborators) (srv : DevServer) (port : option Z)
  (file : ReadResult NowConfig) (answers : list ListenAnswer) : StartResult :=
  let port := match port with Some p => p | None => 3000%Z end in
  match getNowJson file with
  | Throw message => StartThrows None message
  | Ok nowJson =>
      match listenLoop port answers with
      | ListenThrows code message => StartThrows code message
      | StillTrying p => StartPending p
      | Bound p address =>
          match nowJson with
          | Some config =>
              match builds config with
              | Some _ =>
                  match buildUserProject ext config (assets srv) with
                  | Ok built => Started (setStatusIdle (setAssets srv built)) p address
                  | Throw message => StartThrows None message
                  end
              | None => Started (setStatusIdle srv) p address
              end
          | None => Started (setStatusIdle srv) p address
          end
      end
  end.

End DevServerV1.

(** ** The later server: env validation, build matches, shutdown *)

Module DevServer.
Import Types Shared.

(** What the server throws: a plain [Error] (with the [code] file-system
    errors carry) or the [MissingDotenvVarsError] of [errors-ts]. *)
Inductive Err : Type :=
| Error (code : option string) (message : string)
| MissingDotenvVarsError (type : string) (missing : list string).

Record BuildMatch : Type := mkBuildMatch {
  src : string;
  use : string;
  builder_version : Z
}.

(** The promise of a build under way. *)
Definition BuildPromise : Type := nat.

Record DevServer : Type := mkServer {
  cwd : string;
  env : EnvConfig;
  buildEnv : EnvConfig;
  assets : BuilderOutputs;
  stopping : bool;
  buildMatches : JS.obj BuildMatch;
  inProgressBuilds : gmap string BuildPromise;
  originalEnv : gmap string string
}.

(** The modules this file imports and that are not among the sources:
    the router (which is handed the server and asks it [hasFilesystem]),
    the URL test, and the message [errors-ts] gives its error. *)
Record Collaborators : Type := mkCollaborators {
  devRouter : string -> option JS.json -> (string -> bool) -> RouteResult;
  isURL : string -> bool;
  missingDotenvVarsMessage : string -> list string -> string
}.

Definition message_of (ext : Collaborators) (e : Err) : string :=
  match e with
  | Error _ message => message
  | MissingDotenvVarsError type missing => missingDotenvVarsMessage ext type missing
  end.

Definition constructor (cwd : string) (process_env : gmap string string)
  : DevServer :=
  mkServer cwd [] [] [] false [] ∅ process_env.

Definition setLocalEnv (srv : DevServer) (e be : EnvConfig) : DevServer :=
  mkServer (cwd srv) e be (assets srv) (stopping srv) (buildMatches srv)
    (inProgressBuilds srv) (originalEnv srv).

Definition setStopping (srv : DevServer) (b : bool) : DevServer :=
  mkServer (cwd srv) (env srv) (buildEnv srv) (assets srv) b (buildMatches srv)
    (inProgressBuilds srv) (originalEnv srv).

Definition setBuildMatches (srv : DevServer) (m : JS.obj BuildMatch) : DevServer :=
  mkServer (cwd srv) (env srv) (buildEnv srv) (assets srv) (stopping srv) m
    (inProgressBuilds srv) (originalEnv srv).

(** [updateBuildMatches], given what [getBuildMatches] answered. *)
Definition updateBuildMatches (srv : DevServer) (matches : list BuildMatch)
  : DevServer :=
  let sources := map src matches in
  let kept :=
    List.filter (fun kv => existsb (String.eqb (fst kv)) sources) (buildMatches srv) in
  setBuildMatches srv
    (fold_left
       (fun acc m =>
          match JS.obj_get acc (src m) with
          | Some currentMatch =>
              if String.eqb (use currentMatch) (use m) then acc
              else JS.obj_set acc (src m) m
          | None => JS.obj_set acc (src m) m
          end)
       matches kept).

Definition getLocalEnv (file : ReadResult EnvConfig) : Exc Err EnvConfig :=
  match file with
  | ReadOk e => Ok e
  | ReadFails code message =>
      match code with
      | Some c => if String.eqb c "ENOENT" then Ok [] else Throw (Error code message)
      | None => Throw (Error code message)
      end
  end.

Definition validateEnvConfig (type : string) (env localEnv : option EnvConfig)
  : Exc Err unit :=
  let env := match env with Some e => e | None => [] end in
  let localEnv := match localEnv with Some e => e | None => [] end in
  let missing :=
    map fst
      (List.filter
         (fun nv =>
            JS.is_string_starting "@" (snd nv)
            && negb (JS.hasOwnProperty localEnv (fst nv)))
         env) in
  if Nat.leb 1 (length missing) then Throw (MissingDotenvVarsError type missing)
  else Ok tt.

Definition validateNowConfig (srv : DevServer) (config : NowConfig)
  : Exc Err unit :=
  match version config with
  | Some (JS.JNum 2%Z) =>
      bind (validateEnvConfig ".env" (Types.env config) (Some (env srv))) (fun _ =>
        validateEnvConfig ".env.build"
          (match build config with Some b => build_env b | None => None end)
          (Some (buildEnv srv)))
  | _ => Throw (Error None "Only `version: 2` is supported by `now dev`")
  end.

Definition getNowJson (srv : DevServer) (file : ReadResult NowConfig)
  : Exc Err (option NowConfig) :=
  match file with
  | ReadOk config => bind (validateNowConfig srv config) (fun _ => Ok (Some config))
  | ReadFails code message =>
      match code with
      | Some c => if String.eqb c "ENOENT" then Ok None else Throw (Error code message)
      | None => Throw (Error code message)
      end
  end.

(** The names [process.env] takes: an assignment under the empty name
    or under a name that holds [=] is dropped. *)
Definition valid_env_name (name : string) : bool :=
  negb (String.eqb name EmptyString)
  && JS.all_chars (fun c => negb (Ascii.eqb c "=")) name.

(** [Object.assign(process.env, src)]: every value is stored as text
    (the text of [JS.to_string], for the values of [JS.exact_text]). *)
Definition assign_env (process_env : gmap string string) (source : option EnvConfig)
  : gmap string string :=
  match source with
  | Some e =>
      fold_left
        (fun m kv =>
           if valid_env_name (fst kv) then <[fst kv := JS.to_string (snd kv)]> m
           else m)
        e process_env
  | None => process_env
  end.

(** Sets the [build.env] vars onto [process.env], since the builders are
    executed in the now-cli process. *)
Definition applyBuildEnv (srv : DevServer) (nowJson : NowConfig)
  (process_env : gmap string string) : gmap string string :=
  let buildEnv' := match build nowJson with Some b => build_env b | None => None end in
  assign_env (assign_env process_env buildEnv') (Some (buildEnv srv)).

(** The body of the loop of [restoreOriginalEnv]:
    [if (!hasOwnProperty(this.originalEnv, key)) delete process.env[key]]. *)
Definition deleteIfNew (original process_env : gmap string string) (key : string)
  : gmap string string :=
  if bool_decide (is_Some (original !! key)) then process_env
  else delete key process_env.

(** Restores the original [process.env], deleting any new env vars that
    a builder might have set and then applying the original env vars. *)
Definition restoreOriginalEnv (srv : DevServer) (process_env : gmap string string)
  : gmap string string :=
  let cleaned :=
    fold_left (deleteIfNew (originalEnv srv))
      (map fst (map_to_list process_env)) process_env in
  originalEnv srv ∪ cleaned.

Definition hasFilesystem (srv : DevServer) (dest : string) : bool :=
  match fst (resolveDest (assets srv) dest) with
  | Some _ => true
  | None => false
  end.

(** What [stop] does, in program order: it raises the flag, then starts
    the teardown of the functions and the closing of the socket. *)
Inductive Operation : Type :=
| Destroy (fn : FnHandle)
| Close.

Inductive StopStep : Type :=
| SetStopping
| Start (op : Operation).

Definition destroy_ops (asset : BuilderOutput) : list StopStep :=
  match asset_body asset with
  | Lambda (Some fn) => [Start (Destroy fn)]
  | _ => []
  end.

(** Shuts down the [now dev] server, and cleans up any temporary
    resources. *)
Definition stop (srv : DevServer) : DevServer * list StopStep :=
  if stopping srv then (srv, [])
  else
    (setStopping srv true,
     SetStopping :: flat_map destroy_ops (JS.obj_values (assets srv)) ++ [Start Close]).

(** [await Promise.all(ops)]: the call resolves once every operation it
    started has. *)
Definition stop_resolved (steps : list StopStep) (settled : Operation -> bool)
  : bool :=
  forallb (fun st => match st with Start op => settled op | SetStopping => true end)
    steps.

(** Serve project directory as a static deployment. *)
Definition serveProjectAsStatic (srv : DevServer) (req : Http.IncomingMessage)
  (res : Http.ServerResponse) (nowRequestId : string) : Http.Outcome :=
  Http.ServeStatic (writeResponseHeaders res nowRequestId None)
    (Http.url req) (cwd srv).

Definition is_redirect (status : Z) : bool :=
  Z.eqb status 301%Z || Z.eqb status 302%Z || Z.eqb status 303%Z.

(** The headers of the matched route as [res.setHeader] is handed
    them. *)
Definition routeHeaders (r : RouteResult) : JS.obj Http.HeaderValue :=
  map (fun nv => (fst nv, Http.HStr (snd nv)))
    (match route_headers r with Some h => h | None => [] end).

(** The part of [serveProjectAsNowV2] that follows the routing: the
    headers of the matched route, then the proxy, the redirect, or the
    end of the response.  It throws when Node refuses one of the
    headers, with the response as it was left. *)
Definition respond (ext : Collaborators) (r : RouteResult)
  (res : Http.ServerResponse) : Exc (Err * Http.ServerResponse) Http.Outcome :=
  let status := match Types.status r with Some s => s | None => 200%Z end in
  match Http.trySetHeaders res (routeHeaders r) with
  | (res, Some e) =>
      Throw (Error (Some (Http.refusal_code e)) (Http.refusal_message e), res)
  | (res, None) =>
      if isURL ext (dest r) then Ok (Http.ProxyPass res (dest r))
      else if is_redirect status then
        let res := Http.setStatusCode res status in
        Ok (Http.Ended
              (Http.end_ res
                 (Http.BodyText
                    ("Redirecting (" ++ JS.string_of_Z status ++ ") to "
                     ++ Http.render (Http.getHeader res "location")))))
      else Ok (Http.Ended (Http.end_ res Http.BodyNone))
  end.

(** The part of [serveProjectAsNowV2] that follows [updateBuildMatches]. *)
Definition route (ext : Collaborators) (srv : DevServer)
  (req : Http.IncomingMessage) (res : Http.ServerResponse) (nowJson : NowConfig)
  : Exc (Err * Http.ServerResponse) Http.Outcome :=
  respond ext (devRouter ext (Http.url req) (routes nowJson) (hasFilesystem srv)) res.

(** What the [catch] of the handler finds when the handling of a request
    threw: the error, and the response and the server as they were
    left. *)
Record Thrown : Type := mkThrown {
  thrown_error : Err;
  thrown_response : Http.ServerResponse;
  thrown_server : DevServer
}.

(** Serve project directory as a Now v2 deployment. *)
Definition serveProjectAsNowV2 (ext : Collaborators) (srv : DevServer)
  (req : Http.IncomingMessage) (res : Http.ServerResponse) (nowJson : NowConfig)
  (matches : Exc Err (list BuildMatch)) : Exc Thrown (DevServer * Http.Outcome) :=
  match matches with
  | Throw e => Throw (mkThrown e res srv)
  | Ok ms =>
      let srv := updateBuildMatches srv ms in
      match route ext srv req res nowJson with
      | Ok out => Ok (srv, out)
      | Throw (e, res) => Throw (mkThrown e res srv)
      end
  end.

(** The answer of the [catch] of the handler. *)
Definition internalError (ext : Collaborators) (res : Http.ServerResponse) (e : Err)
  : Http.Outcome :=
  Http.Ended
    (if Http.finished res then res
     else Http.end_ (Http.setStatusCode res 500%Z)
            (Http.BodyText (message_of ext e))).

(** DevServer HTTP handler *)
Definition devServerHandler (ext : Collaborators) (srv : DevServer)
  (entropy : Entropy) (file : ReadResult NowConfig)
  (matches : Exc Err (list BuildMatch))
  (req : Http.IncomingMessage) (res : Http.ServerResponse)
  : DevServer * Http.Outcome :=
  let nowRequestId := generateRequestId entropy in
  if stopping srv then
    (srv,
     Http.Ended
       (send404 (Http.setHeader res "Connection" (Http.HStr "close")) nowRequestId))
  else
    let served :=
      match getNowJson srv file with
      | Throw e => Throw (mkThrown e res srv)
      | Ok (Some nowJson) => serveProjectAsNowV2 ext srv req res nowJson matches
      | Ok None => Ok (srv, serveProjectAsStatic srv req res nowRequestId)
      end in
    match served with
    | Ok (srv, out) => (srv, out)
    | Throw (mkThrown e res srv) => (srv, internalError ext res e)
    end.

(** *** The handler between its suspension points

    A request under way is suspended while [now.json] is read, while the
    project files are collected and while the build matches are
    computed; the handlers of other requests run in between. *)

Inductive Task : Type :=
| ReadingConfig (req : Http.IncomingMessage) (res : Http.ServerResponse)
    (nowRequestId : string)
| CollectingFiles (req : Http.IncomingMessage) (res : Http.ServerResponse)
    (nowJson : NowConfig)
| MatchingBuilds (req : Http.IncomingMessage) (res : Http.ServerResponse)
    (nowJson : NowConfig)
| Finished (out : Http.Outcome).

Inductive Completion : Type :=
| ConfigRead (file : ReadResult NowConfig)
| FilesCollected
| BuildsMatched (matches : Exc Err (list BuildMatch)).

(** The handler up to its first suspension. *)
Definition accept (srv : DevServer) (entropy : Entropy)
  (req : Http.IncomingMessage) (res : Http.ServerResponse) : Task :=
  let nowRequestId := generateRequestId entropy in
  if stopping srv then
    Finished
      (Http.Ended
         (send404 (Http.setHeader res "Connection" (Http.HStr "close"))
            nowRequestId))
  else ReadingConfig req res nowRequestId.

(** The handler from one suspension to the next. *)
Definition resume (ext : Collaborators) (srv : DevServer) (t : Task)
  (c : Completion) : DevServer * Task :=
  match t, c with
  | ReadingConfig req res nowRequestId, ConfigRead file =>
      match getNowJson srv file with
      | Ok (Some nowJson) => (srv, CollectingFiles req res nowJson)
      | Ok None => (srv, Finished (serveProjectAsStatic srv req res nowRequestId))
      | Throw e => (srv, Finished (internalError ext res e))
      end
  | CollectingFiles req res nowJson, FilesCollected =>
      (srv, MatchingBuilds req res nowJson)
  | MatchingBuilds req res nowJson, BuildsMatched matches =>
      match serveProjectAsNowV2 ext srv req res nowJson matches with
      | Ok (srv, out) => (srv, Finished out)
      | Throw (mkThrown e res srv) => (srv, Finished (internalError ext res e))
      end
  | _, _ => (srv, t)
  end.

(** The server with its requests under way; one step resumes one of
    them, accepts a new one, or is a call of [stop]. *)
Record System : Type := mkSystem {
  server : DevServer;
  tasks : list Task
}.

Inductive step (ext : Collaborators) : System -> System -> Prop :=
| step_accept srv ts entropy req res :
    step ext (mkSystem srv ts)
      (mkSystem srv (ts ++ [accept srv entropy req res]))
| step_resume srv ts i t c :
    nth_error ts i = Some t ->
    step ext (mkSystem srv ts)
      (mkSystem (fst (resume ext srv t c))
         (firstn i ts ++ snd (resume ext srv t c) :: skipn (S i) ts))
| step_stop srv ts :
    step ext (mkSystem srv ts) (mkSystem (fst (stop srv)) ts).

Inductive reachable (ext : Collaborators) : System -> System -> Prop :=
| reach_refl s : reachable ext s s
| reach_step s1 s2 s3 :
    reachable ext s1 s2 -> step ext s2 s3 -> reachable ext s1 s3.

(** What [start] leaves behind. *)
Inductive StartResult : Type :=
| Started (srv : DevServer) (port : Z) (address : string)
| StartThrows (e : Err)
| StartPending (srv : DevServer) (port : Z).

(** What [start] does before it listens: the local env files, the
    configuration, the build matches. *)
Definition prepare (srv : DevServer)
  (dotenv dotenvBuild : ReadResult EnvConfig) (file : ReadResult NowConfig)
  (matches : Exc Err (list BuildMatch)) : Exc Err DevServer :=
  bind (getLocalEnv dotenv) (fun e =>
  bind (getLocalEnv dotenvBuild) (fun be =>
    let srv := setLocalEnv srv e be in
    bind (getNowJson srv file) (fun nowJson =>
      match nowJson with
      | Some _ => bind matches (fun ms => Ok (updateBuildMatches srv ms))
      | None => Ok srv
      end))).

(** Launches the [now dev] server. *)
Definition start (srv : DevServer) (port : option Z)
  (dotenv dotenvBuild : ReadResult EnvConfig) (file : ReadResult NowConfig)
  (matches : Exc Err (list BuildMatch)) (answers : list ListenAnswer)
  : StartResult :=
  let port := match port with Some p => p | None => 3000%Z end in
  match prepare srv dotenv dotenvBuild file matches with
  | Throw e => StartThrows e
  | Ok srv =>
      match listenLoop port answers with
      | Bound p address => Started srv p address
      | ListenThrows code message => StartThrows (Error code message)
      | StillTrying p => StartPending srv p
      end
  end.

End DevServer.

(** ** The vocabulary of the properties *)

Module Spec.

(** The index rule as the specification words it: a trailing [/index],
    with an optional [.<ext>] after it, is stripped; the slash is part of
    what is stripped. *)
Fixpoint strip_slash_index (name : string) : string :=
  match name with
  | EmptyString => EmptyString
  | String c r =>
      if Ascii.eqb c "/" && Shared.index_tail r then EmptyString
      else String c (strip_slash_index r)
  end.

(** The texts the pattern [\/?index(\.\w+)?] matches in full: an optional
    slash, [index], and an optional extension made of a point and one or
    more word characters. *)
Definition is_extension (s : string) : Prop :=
  exists w, s = String "." w /\ w <> EmptyString /\
            JS.all_chars JS.is_word_char w = true.

Definition IndexSuffix (s : string) : Prop :=
  exists slash ext,
    s = slash ++ "index" ++ ext /\
    (slash = EmptyString \/ slash = "/") /\
    (ext = EmptyString \/ is_extension ext).

(** The value of the last entry of a header object whose name is [name]
    up to letter case. *)
Fixpoint last_named {V} (hs : JS.obj V) (name : string) : option V :=
  match hs with
  | [] => None
  | (k, v) :: rest =>
      match last_named rest name with
      | Some v' => Some v'
      | None =>
          if String.eqb (JS.toLowerCase k) (JS.toLowerCase name) then Some v
          else None
      end
  end.

(** Whether the key [k], when the object has it, comes after every
    other spelling of the same name. *)
Fixpoint exact_last {V} (k : string) (hs : JS.obj V) : bool :=
  match hs with
  | [] => true
  | (k', _) :: rest =>
      if String.eqb k' k
      then negb (existsb (fun kv => String.eqb (JS.toLowerCase (fst kv)) k) rest)
      else exact_last k rest
  end.

(** A header object names no header twice, letter case apart. *)
Definition distinct_names {V} (hs : JS.obj V) : Prop :=
  List.NoDup (map JS.toLowerCase (JS.obj_keys hs)).

(** The response carries the synthetic trace headers and the cache
    status. *)
Definition carries_now_headers (res : Http.ServerResponse) (nowRequestId : string)
  : Prop :=
  Http.getHeader res "x-now-trace" = Some (Http.HStr "dev1") /\
  Http.getHeader res "x-now-id" = Some (Http.HStr nowRequestId) /\
  Http.getHeader res "x-now-cache" = Some (Http.HStr "MISS").

(** The names of the Now headers, as the server spells them. *)
Definition now_names : list string := ["x-now-trace"; "x-now-id"; "x-now-cache"].

Definition is_now_header (name : string) : bool :=
  let n := JS.toLowerCase name in
  String.eqb n "x-now-trace" || String.eqb n "x-now-id" || String.eqb n "x-now-cache".

(** A secret reference that the local env file does not resolve. *)
Definition unresolved (env localEnv : Types.EnvConfig) (name : string) : Prop :=
  exists rest,
    In (name, JS.JStr (String "@" rest)) env /\ JS.obj_get localEnv name = None.

(** A section of the configuration that is left out counts as empty. *)
Definition section (o : option Types.EnvConfig) : Types.EnvConfig :=
  match o with Some e => e | None => [] end.

(** [config.build && config.build.env]. *)
Definition build_section (config : Types.NowConfig) : option Types.EnvConfig :=
  match Types.build config with Some b => Types.build_env b | None => None end.

(** The answer "address already in use" of a listen attempt. *)
Definition address_in_use (a : Shared.ListenAnswer) : Prop :=
  exists message, a = Shared.ListenError (Some "EADDRINUSE") message.

Definition is_hex_digit (c : ascii) : bool :=
  JS.is_digit c
  || (Nat.leb 97 (nat_of_ascii c) && Nat.leb (nat_of_ascii c) 102).

(** The digits of a number printed in base 32. *)
Definition is_base32_digit (c : ascii) : bool :=
  JS.is_digit c
  || (Nat.leb 97 (nat_of_ascii c) && Nat.leb (nat_of_ascii c) 118).

(** The value the server gives a Now header. *)
Definition now_value (nowRequestId name : string) : Http.HeaderValue :=
  let n := JS.toLowerCase name in
  if String.eqb n "x-now-trace" then Http.HStr "dev1"
  else if String.eqb n "x-now-id" then Http.HStr nowRequestId
  else Http.HStr "MISS".


(** What the client is sent when the serving of an asset returns or
    throws: the outcome, or the answer of the [catch] block. *)
Definition sent (served : Exc (string * Http.ServerResponse) Http.Outcome)
  : Http.Outcome :=
  match served with
  | Ok out => out
  | Throw (message, res) => DevServerV1.caught message res
  end.

(** The headers of a result, none when it has no header object. *)
Definition returned_headers (result : Types.InvokeResult) : JS.obj Http.HeaderValue :=
  match Types.result_headers result with Some h => h | None => [] end.

(** The later server with other assets. *)
Definition with_assets (srv : DevServer.DevServer) (assets : Types.BuilderOutputs)
  : DevServer.DevServer :=
  DevServer.mkServer (DevServer.cwd srv) (DevServer.env srv) (DevServer.buildEnv srv)
    assets (DevServer.stopping srv) (DevServer.buildMatches srv)
    (DevServer.inProgressBuilds srv) (DevServer.originalEnv srv).

End Spec.

(** ** A sample project *)

Module Examples.
Import Types.

(** A router with one redirecting rule, one proxied rule, and the
    default of answering with the path asked for. *)
Definition sample_router (url : string) : RouteResult :=
  if String.eqb url "/old/page"
  then mkRouteResult "/new/page" (Some 301%Z) (Some [("Location", "/new/page")])
         None None
  else if String.eqb url "/api/upstream"
  then mkRouteResult "https://example.com/api" None None None None
  else mkRouteResult url None None None None.

Definition sample_isURL (dest : string) : bool := JS.startsWith dest "https://".

(** A function that answers [hello] in base64. *)
Definition hello_result : InvokeResult :=
  mkResult 200%Z None (Some "base64") (ResultString "aGVsbG8=").

(** A function that claims a cache hit. *)
Definition cache_hit_result : InvokeResult :=
  mkResult 200%Z (Some [("x-now-cache", Http.HStr "HIT")]) None (ResultString "ok").

Definition sample_invoke (fn : FnHandle) (payload : InvokePayload) : FnOutcome :=
  if String.eqb fn "hello" then FnReturns hello_result
  else if String.eqb fn "cached" then FnReturns cache_hit_result
  else FnThrows.

Definition sample_v1 : DevServerV1.Collaborators :=
  DevServerV1.mkCollaborators
    (fun url _ => sample_router url)
    sample_isURL
    (fun _ => false)
    (fun _ assets _ => Ok assets)
    (fun _ assets => Ok assets)
    (fun _ => None)
    sample_invoke
    (fun url _ => url)
    (fun path => path)
    (fun path => path).

Definition sample_assets : BuilderOutputs :=
  [("api/hello", mkOutput (Lambda (Some "hello")) None None);
   ("api/cached", mkOutput (Lambda (Some "cached")) None None);
   ("api/broken", mkOutput (Lambda (Some "broken")) None None);
   ("api/pending", mkOutput (Lambda None) None None);
   ("blog/index.html", mkOutput (FileBlob [x68; x69]) None None)].

Definition sample_config : NowConfig :=
  mkNowConfig (Some (JS.JNum 2%Z)) None None
    (Some [mkBuildConfig "api/*.js" "@now/node"]) (Some (JS.JArr [])).

Definition sample_server_v1 : DevServerV1.DevServer :=
  DevServerV1.mkServer "/project" sample_assets DevServerV1.idle EmptyString.

Definition sample_entropy : Shared.Entropy :=
  Shared.mkEntropy "0.4clx24t" 1553895116335%Z
    [x78; x4e; xdb; xc9; xef; x03; xe2; xb5; x53; x4f; x3d; xc6; xf1; x4c; x90; xd4].

Definition get (url : string) : Http.IncomingMessage :=
  Http.mkRequest (Some "GET") url [("host", "localhost:3000")] (Some "127.0.0.1") [].

(** A hard refresh: the browser asks for the page past its cache. *)
Definition refresh (url : string) : Http.IncomingMessage :=
  Http.mkRequest (Some "GET") url
    [("host", "localhost:3000"); ("pragma", "no-cache")] (Some "127.0.0.1") [].

Definition sample_ext : DevServer.Collaborators :=
  DevServer.mkCollaborators
    (fun url _ _ => sample_router url)
    sample_isURL
    (fun type missing => "Missing env vars in " ++ type).

Definition sample_server : DevServer.DevServer :=
  DevServer.mkServer "/project" [] [] sample_assets false [] ∅ ∅.

(** An asset that records the entrypoint it was built from. *)
Definition page_asset : BuilderOutput :=
  mkOutput (FileBlob [x68; x69]) (Some (mkBuildEntry "/project/pages/index.js"))
    (Some 0%Z).

Definition page_server : DevServer.DevServer :=
  DevServer.mkServer "/project" [] [] [("pages/index.html", page_asset)] false [] ∅ ∅.

(** The response the later server ends after routing a request that is
    neither proxied nor redirected. *)
Definition empty_response : Http.Outcome :=
  Http.Ended (Http.mkResponse 200%Z [] true Http.BodyNone).

End Examples.

(** ** Further methods of the two server files *)

Module EarlierMethods.
Import Types Shared.

(** The teardown an asset asks for: [asset.fn.destroy()] for a Lambda
    that has its function, nothing otherwise. *)
Definition destroy_of (asset : BuilderOutput) : list DevServer.Operation :=
  match asset_body asset with
  | Lambda (Some fn) => [DevServer.Destroy fn]
  | _ => []
  end.

(** Shuts down the [now dev] server, and cleans up any temporary
    resources: the operations the call starts and awaits. *)
Definition stop (srv : DevServerV1.DevServer) : list DevServer.Operation :=
  flat_map destroy_of (JS.obj_values (DevServerV1.assets srv)) ++ [DevServer.Close].

End EarlierMethods.

Module LaterMethods.
Import Types Shared.

(** Returns the request [headers] that will be sent to the Lambda. *)
Definition getNowProxyHeaders (req : Http.IncomingMessage) (nowRequestId : string)
  : JS.obj (option string) :=
  let ip := getRequestIp req in
  let host := JS.obj_get (Http.req_headers req) "host" in
  JS.obj_assign (map (fun kv => (fst kv, Some (snd kv))) (Http.req_headers req))
    [("X-Forwarded-Host", host);
     ("X-Forwarded-Proto", Some "http");
     ("X-Forwarded-For", Some ip);
     ("X-Real-IP", Some ip);
     ("Connection", Some "close");
     ("x-now-trace", Some "dev1");
     ("x-now-deployment-url", host);
     ("x-now-id", Some nowRequestId);
     ("x-now-log-id", nth_error (JS.split_on "-" nowRequestId) 2);
     ("x-zeit-co-forwarded-for", Some ip)].

End LaterMethods.

(** ** The reporting of an error to Sentry (first part of [report-error.js]) *)

Module ReportError.

Record User : Type := mkUser { email : string; uid : string }.
Record Team : Type := mkTeam { team_id : string }.

(** What [getScope] resolves to; a field that is missing is [None]. *)
Record Scope : Type := mkScope { user : option User; team : option Team }.

(** The calls made on [sentry], in order; the calls made inside the
    callback of [withScope] are those of [WithScope]. *)
Inductive ScopeCall : Type :=
| SetUser (email id : string)
| SetTag (name value : string)
| CaptureException (error : string).

Inductive SentryCall : Type :=
| WithScope (calls : list ScopeCall)
| Capture (error : string)
| CloseClient.

(** The outside world of the function: the two configuration files, the
    scope lookup, and whether the hub has a client. *)
Record World (E : Type) : Type := mkWorld {
  readAuthConfigFile : Exc E (option string);
  readConfigFile : Exc E (option string);
  getScope : string -> option string -> option string -> Exc E Scope;
  hasClient : bool
}.
Arguments readAuthConfigFile {E} w.
Arguments readConfigFile {E} w.
Arguments getScope {E} w apiUrl token currentTeam.
Arguments hasClient {E} w.

(** The [try] block: any failure leaves [user] and [team] null. *)
Definition lookupScope {E} (w : World E) (apiUrl : string) : Scope :=
  match readAuthConfigFile w with
  | Throw _ => mkScope None None
  | Ok token =>
      match readConfigFile w with
      | Throw _ => mkScope None None
      | Ok currentTeam =>
          match getScope w apiUrl token currentTeam with
          | Throw _ => mkScope None None
          | Ok scope => scope
          end
      end
  end.

(** The exported function. *)
Definition reportError {E} (w : World E) (error apiUrl : string) : list SentryCall :=
  let scope := lookupScope w apiUrl in
  let captured :=
    match user scope, team scope with
    | None, None => Capture error
    | u, t =>
        WithScope
          (match u with Some u => [SetUser (email u) (uid u)] | None => [] end
           ++ match t with Some t => [SetTag "currentTeam" (team_id t)] | None => [] end
           ++ [CaptureException error])
    end in
  captured :: (if hasClient w then [CloseClient] else []).

End ReportError.

(** ** The vocabulary of the further properties *)

Module Props.

(** A text without the separator of the trace id. *)
Definition no_dash (s : string) : Prop :=
  JS.all_chars (fun c => negb (Ascii.eqb c "-")) s = true.

(** The step of the second loop of [updateBuildMatches]. *)
Definition reconcile_step (acc : JS.obj DevServer.BuildMatch) (m : DevServer.BuildMatch)
  : JS.obj DevServer.BuildMatch :=
  match JS.obj_get acc (DevServer.src m) with
  | Some currentMatch =>
      if String.eqb (DevServer.use currentMatch) (DevServer.use m) then acc
      else JS.obj_set acc (DevServer.src m) m
  | None => JS.obj_set acc (DevServer.src m) m
  end.

(** The earlier server's collaborators with another builder. *)
Definition with_executeBuild (ext : DevServerV1.Collaborators)
  (build : Types.NowConfig -> Types.BuilderOutputs -> Types.BuilderOutput ->
           Exc string Types.BuilderOutputs)
  : DevServerV1.Collaborators :=
  DevServerV1.mkCollaborators (DevServerV1.devRouter ext) (DevServerV1.isURL ext)
    (DevServerV1.ignores ext) build (DevServerV1.buildUserProject ext)
    (DevServerV1.lookupMimeType ext) (DevServerV1.invoke ext)
    (DevServerV1.formatPath ext) (DevServerV1.basename ext) (DevServerV1.dirname ext).

(** The names [getNowProxyHeaders] sets in the earlier server. *)
Definition proxy_header_names : list string :=
  ["X-Forwarded-Host"; "X-Forwarded-Proto"; "X-Forwarded-For"; "Connection";
   "x-now-trace"; "x-now-deployment-url"; "x-now-id"; "x-now-log-id";
   "x-zeit-co-forwarded-for"].

(** How many times the error is handed to [captureException]. *)
Definition captures (error : string) (calls : list ReportError.SentryCall) : nat :=
  list_sum
    (map
       (fun c =>
          match c with
          | ReportError.Capture e => if String.eqb e error then 1 else 0
          | ReportError.WithScope inner =>
              length
                (List.filter
                   (fun i =>
                      match i with
                      | ReportError.CaptureException e => String.eqb e error
                      | _ => false
                      end)
                   inner)
          | ReportError.CloseClient => 0
          end)
       calls).

(** A text that does not end with a slash. *)
Definition no_trailing_slash (s : string) : Prop :=
  forall p, s <> p ++ "/".

(** A value of an env section that is a string. *)
Definition is_text (v : JS.json) : Prop := exists s, v = JS.JStr s.

(** The values of the two env sections, in the order the earlier server
    looks at them. *)
Definition env_values (config : Types.NowConfig) : list JS.json :=
  JS.obj_values (Spec.section (Types.env config))
  ++ JS.obj_values (Spec.section (Spec.build_section config)).

(** The request is neither proxied nor redirected, and the project
    declares builds: [serveProjectAsNowV2] of the earlier server goes on
    to the assets. *)
Definition routed_to_assets (ext : DevServerV1.Collaborators)
  (req : Http.IncomingMessage) (nowJson : Types.NowConfig) : Prop :=
  let r := DevServerV1.devRouter ext (Http.url req) (Types.routes nowJson) in
  DevServerV1.isURL ext (Types.dest r) = false /\
  DevServerV1.is_redirect (match Types.status r with Some s => s | None => 200%Z end)
  = false /\
  Types.builds nowJson <> None.


(** The functions of the assets that have been built. *)
Definition built_functions (assets : Types.BuilderOutputs) : list Types.FnHandle :=
  flat_map
    (fun asset =>
       match Types.asset_body asset with
       | Types.Lambda (Some fn) => [fn]
       | _ => []
       end)
    (JS.obj_values assets).

(** The answer of the router without the headers of the matched route. *)
Definition drop_route_headers (r : Types.RouteResult) : Types.RouteResult :=
  Types.mkRouteResult (Types.dest r) (Types.status r) None (Types.uri_args r)
    (Types.matched_route r).

(** The earlier server's collaborators with a router that answers no
    headers. *)
Definition without_route_headers (ext : DevServerV1.Collaborators)
  : DevServerV1.Collaborators :=
  DevServerV1.mkCollaborators
    (fun url routes => drop_route_headers (DevServerV1.devRouter ext url routes))
    (DevServerV1.isURL ext) (DevServerV1.ignores ext) (DevServerV1.executeBuild ext)
    (DevServerV1.buildUserProject ext) (DevServerV1.lookupMimeType ext)
    (DevServerV1.invoke ext) (DevServerV1.formatPath ext) (DevServerV1.basename ext)
    (DevServerV1.dirname ext).

(** The later server with the state of the earlier one. *)
Definition later_of (srv : DevServerV1.DevServer) : DevServer.DevServer :=
  DevServer.mkServer (DevServerV1.cwd srv) [] [] (DevServerV1.assets srv) false [] ∅ ∅.

End Props.

(** * Properties *)

#[local] Arguments Ascii.eqb : simpl never.
#[local] Arguments String.eqb : simpl never.

(** ** Plain objects *)

Lemma obj_get_Some_In {V} (o : JS.obj V) k v :
  JS.obj_get o k = Some v -> In (k, v) o.
Proof.
  induction o as [|[k' v'] o IH]; simpl; [discriminate|].
  destruct (String.eqb_spec k' k) as [->|Hne].
  - intros [= ->]. now left.
  - intros H. right. auto.
Qed.

Lemma obj_get_None_keys {V} (o : JS.obj V) k :
  JS.obj_get o k = None <-> ~ In k (JS.obj_keys o).
Proof.
  induction o as [|[k' v'] o IH]; simpl.
  - split; auto.
  - destruct (String.eqb_spec k' k) as [->|Hne].
    + split; [discriminate|]. intros H. exfalso. apply H. now left.
    + rewrite IH. split.
      * intros H [Heq|Hin]; [congruence|auto].
      * intros H Hin. apply H. now right.
Qed.

Lemma obj_get_In_keys {V} (o : JS.obj V) k :
  In k (JS.obj_keys o) -> exists v, JS.obj_get o k = Some v.
Proof.
  intros Hin. destruct (JS.obj_get o k) as [v|] eqn:E; [eauto|].
  apply obj_get_None_keys in E. contradiction.
Qed.

(** ** Asset resolution *)

Lemma strip_prefix_spec (p s r : string) :
  JS.strip_prefix p s = Some r <-> s = p ++ r.
Proof.
  revert s. induction p as [|a p IH]; intros s.
  - simpl. change (EmptyString ++ r) with r. split; [now intros [= ->]|now intros ->].
  - change (String a p ++ r) with (String a (p ++ r)).
    destruct s as [|b s]; simpl; [split; discriminate|].
    destruct (Ascii.eqb_spec a b) as [->|Hne].
    + rewrite IH. split; [now intros ->|now intros [= ->]].
    + split; [discriminate|]. intros [= <- _]. contradiction.
Qed.

Lemma index_tail_spec (s : string) :
  Shared.index_tail s = true
  <-> exists ext, s = "index" ++ ext /\ (ext = EmptyString \/ Spec.is_extension ext).
Proof.
  unfold Shared.index_tail. split.
  - destruct (JS.strip_prefix "index" s) as [r|] eqn:E; [|discriminate].
    apply strip_prefix_spec in E. intros H. exists r. split; [exact E|].
    destruct r as [|c w]; [now left|]. right.
    destruct (Ascii.eqb_spec c ".") as [->|Hc].
    + apply andb_true_iff in H as [Hw Hall]. exists w. split; [reflexivity|].
      split; [|exact Hall]. intros ->. discriminate.
    + destruct c as [[] [] [] [] [] [] [] []]; try discriminate. now destruct Hc.
  - intros (ext & -> & Hext).
    assert (E : JS.strip_prefix "index" ("index" ++ ext) = Some ext)
      by now apply strip_prefix_spec.
    rewrite E. destruct Hext as [->|(w & -> & Hw & Hall)]; [reflexivity|].
    rewrite Hall, andb_true_r. apply negb_true_iff. now apply String.eqb_neq.
Qed.

(** The test of the model accepts exactly the texts of the pattern. *)
Lemma index_suffix_spec (s : string) :
  Shared.index_suffix s = true <-> Spec.IndexSuffix s.
Proof.
  unfold Spec.IndexSuffix. split.
  - intros H. destruct s as [|c r].
    + discriminate.
    + destruct (Ascii.eqb_spec c "/") as [->|Hc].
      * apply index_tail_spec in H as (ext & -> & Hext).
        exists "/", ext. auto.
      * assert (H' : Shared.index_tail (String c r) = true).
        { destruct c as [[] [] [] [] [] [] [] []]; try exact H. now destruct Hc. }
        apply index_tail_spec in H' as (ext & -> & Hext).
        exists EmptyString, ext. auto.
  - intros (slash & ext & -> & [->| ->] & Hext).
    + change (EmptyString ++ "index" ++ ext) with ("index" ++ ext).
      change (Shared.index_tail ("index" ++ ext) = true).
      apply index_tail_spec. eauto.
    + change (Shared.index_tail ("index" ++ ext) = true).
      apply index_tail_spec. eauto.
Qed.

Lemma withoutIndex_shape (name base : string) :
  Shared.withoutIndex name = base ->
  name = base \/ exists sfx, name = base ++ sfx /\ Shared.index_suffix sfx = true.
Proof.
  revert base. induction name as [|c r IH]; intros base.
  - simpl. intros <-. now left.
  - unfold Shared.withoutIndex; fold Shared.withoutIndex.
    destruct (Shared.index_suffix (String c r)) eqn:E.
    + intros <-. right. exists (String c r). split; [reflexivity|assumption].
    + intros <-. destruct (IH _ eq_refl) as [Heq|[sfx [Heq Hs]]].
      * left. now f_equal.
      * right. exists sfx. split; [|assumption].
        change (String c r = String c (Shared.withoutIndex r ++ sfx)).
        now f_equal.
Qed.

Lemma obj_read_own {V} `{JS.Inherited V} (o : JS.obj V) k v :
  JS.obj_get o k = Some v -> JS.obj_read o k = Some v.
Proof. unfold JS.obj_read. now intros ->. Qed.

Lemma obj_read_None {V} `{JS.Inherited V} (o : JS.obj V) k :
  JS.obj_read o k = None
  <-> JS.obj_get o k = None /\ JS.is_prototype_name k = false.
Proof.
  unfold JS.obj_read. destruct (JS.obj_get o k); [split; [discriminate|now intros []]|].
  destruct (JS.is_prototype_name k); split; try discriminate; auto.
  now intros [].
Qed.

Lemma obj_read_Some {V} `{JS.Inherited V} (o : JS.obj V) k v :
  JS.obj_read o k = Some v ->
  JS.obj_get o k = Some v \/
  (JS.obj_get o k = None /\ JS.is_prototype_name k = true /\ v = JS.inherited k).
Proof.
  unfold JS.obj_read. destruct (JS.obj_get o k); [now left|].
  destruct (JS.is_prototype_name k); [|discriminate].
  intros [= <-]. right. auto.
Qed.

Lemma obj_read_key {V} `{JS.Inherited V} (o : JS.obj V) k :
  In k (JS.obj_keys o) -> JS.obj_read o k = JS.obj_get o k.
Proof.
  intros Hin. destruct (obj_get_In_keys o k Hin) as [v Hv].
  rewrite Hv. now apply obj_read_own.
Qed.

Lemma resolveDest_direct {V} `{JS.Inherited V} (assets : JS.obj V) dest a :
  JS.obj_read assets (JS.strip_leading_slash dest) = Some a ->
  Shared.resolveDest assets dest = (Some a, JS.strip_leading_slash dest).
Proof. unfold Shared.resolveDest. now intros ->. Qed.

Lemma resolveDest_fallback {V} `{JS.Inherited V} (assets : JS.obj V) dest a k :
  JS.obj_read assets (JS.strip_leading_slash dest) = None ->
  Shared.resolveDest assets dest = (Some a, k) ->
  JS.obj_get assets k = Some a /\
  In k (JS.obj_keys assets) /\
  Shared.withoutIndex k
  = JS.strip_trailing_slash (JS.strip_leading_slash dest).
Proof.
  unfold Shared.resolveDest. intros ->.
  destruct (List.find _ _) as [k'|] eqn:F; [|discriminate].
  destruct (String.eqb k' EmptyString); [discriminate|].
  intros [= Hget <-]. apply find_some in F as [Hin F].
  rewrite (obj_read_key assets k' Hin) in Hget.
  split; [assumption|]. split; [assumption|]. now apply String.eqb_eq in F.
Qed.

Lemma resolveDest_none {V} `{JS.Inherited V} (assets : JS.obj V) dest :
  JS.obj_read assets (JS.strip_leading_slash dest) = None ->
  (forall k, In k (JS.obj_keys assets) ->
             Shared.withoutIndex k
             <> JS.strip_trailing_slash (JS.strip_leading_slash dest)) ->
  Shared.resolveDest assets dest = (None, JS.strip_leading_slash dest).
Proof.
  unfold Shared.resolveDest. intros -> Hno.
  destruct (List.find _ _) as [k'|] eqn:F; [|reflexivity].
  apply find_some in F as [Hin F]. apply String.eqb_eq in F.
  exfalso. eapply Hno; eauto.
Qed.

(** An asset that [resolveDest] returns is an own entry of the map under
    the key returned, or the inherited member of the name asked for. *)
Lemma resolveDest_Some {V} `{JS.Inherited V} (assets : JS.obj V) dest a k :
  Shared.resolveDest assets dest = (Some a, k) ->
  JS.obj_get assets k = Some a \/
  (k = JS.strip_leading_slash dest /\ JS.obj_get assets k = None /\
   JS.is_prototype_name k = true /\ a = JS.inherited k).
Proof.
  intros Hres.
  destruct (JS.obj_read assets (JS.strip_leading_slash dest)) as [a0|] eqn:D.
  - rewrite (resolveDest_direct assets dest a0 D) in Hres. injection Hres as <- <-.
    destruct (obj_read_Some _ _ _ D) as [Hown|(Hn & Hp & ->)]; [now left|right; auto].
  - left. now destruct (resolveDest_fallback assets dest a k D Hres).
Qed.

Example withoutIndex_examples :
  Shared.withoutIndex "blog/index.html" = "blog" /\
  Shared.withoutIndex "blog/index" = "blog" /\
  Shared.withoutIndex "index.html" = "" /\
  Shared.withoutIndex "myindex.html" = "my" /\
  Shared.withoutIndex "blog/index.tar.gz" = "blog/index.tar.gz" /\
  Shared.withoutIndex "blog/about.html" = "blog/about.html".
Proof. repeat split; reflexivity. Qed.

(** C4: [resolveDest] returns assets where the claim has none.  An own
    entry under the lookup key is returned, and [blog/index.html]
    answers [blog] and [blog/], as claimed.  But the pattern makes the
    slash before [index] optional.  This lets the root [index.html]
    answer [/], and it also lets [myindex.html] answer [/my], although
    no key of the map is [my/index] with or without an extension.  And
    the direct lookup [assets[assetKey]] reads the members a plain
    object inherits: [/constructor] is answered with a member of
    [Object.prototype] on a map that has no such key, and the earlier
    server then ends the request with the 500 of an unknown asset type
    where a missing page gets the 404. *)
Theorem resolveDest_index_fallback :
  (forall V (I : JS.Inherited V) (assets : JS.obj V) dest a,
     JS.obj_get assets (JS.strip_leading_slash dest) = Some a ->
     Shared.resolveDest assets dest = (Some a, JS.strip_leading_slash dest)) /\
  (forall a : Types.BuilderOutput,
     Shared.resolveDest [("blog/index.html", a)] "blog/" = (Some a, "blog/index.html") /\
     Shared.resolveDest [("blog/index.html", a)] "blog" = (Some a, "blog/index.html") /\
     Shared.resolveDest [("index.html", a)] "/" = (Some a, "index.html") /\
     Shared.resolveDest [("myindex.html", a)] "/my" = (Some a, "myindex.html") /\
     JS.obj_get [("myindex.html", a)] "my" = None /\
     Spec.strip_slash_index "myindex.html" <> "my") /\
  (forall assets : Types.BuilderOutputs,
     JS.obj_get assets "constructor" = None ->
     Shared.resolveDest assets "/constructor"
     = (Some (JS.inherited "constructor"), "constructor")) /\
  (let handle url :=
     snd (DevServerV1.devServerHandler Examples.sample_v1 Examples.sample_server_v1
            Examples.sample_entropy (Types.ReadOk Examples.sample_config)
            (Examples.get url) Http.fresh) in
   JS.obj_get Examples.sample_assets "constructor" = None /\
   (forall k, In k (JS.obj_keys Examples.sample_assets) ->
              Spec.strip_slash_index k <> "constructor") /\
   (exists res',
      handle "/constructor" = Http.Ended res' /\
      Http.statusCode res' = 500%Z /\
      Http.body res'
      = Http.BodyText
          ("500: Don't know how to handle asset type: undefined" ++ JS.nl
           ++ "Code: UNKNOWN_ASSET_TYPE" ++ JS.nl)) /\
   (exists res',
      handle "/missing" = Http.Ended res' /\
      Http.statusCode res' = 404%Z)).
Proof.
  split; [|split; [|split]].
  - intros V I assets dest a Hget. apply resolveDest_direct.
    now apply obj_read_own.
  - intros a. repeat split; try reflexivity. discriminate.
  - intros assets Hget. apply resolveDest_direct.
    change (JS.obj_read assets "constructor" = Some (JS.inherited "constructor")).
    unfold JS.obj_read. now rewrite Hget.
  - intros handle. split; [reflexivity|]. split.
    + intros k Hin. simpl in Hin.
      repeat (destruct Hin as [<-|Hin]; [discriminate|]). destruct Hin.
    + split; eexists; (split; [reflexivity|]); [split|]; reflexivity.
Qed.

(** ** Validation of the env sections *)

Lemma is_string_starting_at (v : JS.json) :
  JS.is_string_starting "@" v = true <-> exists rest, v = JS.JStr (String "@" rest).
Proof.
  split.
  - destruct v as [| | |s| |]; simpl; try discriminate.
    destruct s as [|c r]; [discriminate|].
    unfold JS.startsWith. simpl.
    destruct (Ascii.eqb_spec "@"%char c) as [<-|]; [eauto|discriminate].
  - intros [rest ->]. reflexivity.
Qed.

Lemma hasOwnProperty_false {V} (o : JS.obj V) k :
  JS.hasOwnProperty o k = false <-> JS.obj_get o k = None.
Proof. unfold JS.hasOwnProperty. destruct (JS.obj_get o k); split; congruence. Qed.

Lemma missing_unresolved (env localEnv : Types.EnvConfig) (name : string) :
  In name
    (map fst
       (List.filter
          (fun nv =>
             JS.is_string_starting "@" (snd nv)
             && negb (JS.hasOwnProperty localEnv (fst nv)))
          env))
  <-> Spec.unresolved env localEnv name.
Proof.
  rewrite in_map_iff. split.
  - intros [[n v] [<- Hin]]. apply filter_In in Hin as [Hin Hf]. simpl in *.
    apply andb_true_iff in Hf as [Hs Hl].
    apply is_string_starting_at in Hs as [rest ->].
    apply negb_true_iff, hasOwnProperty_false in Hl.
    exists rest. split; assumption.
  - intros (rest & Hin & Hl). exists (name, JS.JStr (String "@" rest)).
    split; [reflexivity|]. apply filter_In. split; [assumption|]. simpl.
    apply hasOwnProperty_false in Hl. now rewrite Hl.
Qed.

Lemma validateEnvConfig_throws type (env localEnv : Types.EnvConfig) :
  (exists name, Spec.unresolved env localEnv name) ->
  exists missing,
    DevServer.validateEnvConfig type (Some env) (Some localEnv)
    = Throw (DevServer.MissingDotenvVarsError type missing) /\
    forall name, In name missing <-> Spec.unresolved env localEnv name.
Proof.
  intros [name Hu]. unfold DevServer.validateEnvConfig.
  set (missing := map fst (List.filter _ env)).
  exists missing. split; [|intros n; apply missing_unresolved].
  apply missing_unresolved in Hu. fold missing in Hu.
  destruct missing; [destruct Hu|reflexivity].
Qed.

Lemma validateEnvConfig_passes type (env localEnv : Types.EnvConfig) :
  ~ (exists name, Spec.unresolved env localEnv name) ->
  DevServer.validateEnvConfig type (Some env) (Some localEnv) = Ok tt.
Proof.
  intros Hno. unfold DevServer.validateEnvConfig.
  set (missing := map fst (List.filter _ env)).
  assert (Hm : forall n, In n missing <-> Spec.unresolved env localEnv n)
    by (intros n; apply missing_unresolved).
  destruct missing as [|n rest]; [reflexivity|].
  exfalso. apply Hno. exists n. apply Hm. now left.
Qed.

Lemma validateEnvConfig_absent type localEnv :
  DevServer.validateEnvConfig type None localEnv = Ok tt.
Proof. reflexivity. Qed.

Lemma validateEnvConfig_default type o localEnv :
  DevServer.validateEnvConfig type o (Some localEnv)
  = DevServer.validateEnvConfig type (Some (Spec.section o)) (Some localEnv).
Proof. destruct o; reflexivity. Qed.

(** C6: [validateEnvConfig] fails exactly when some value of the mapping
    is a string that starts with [@] and whose name the local env file
    does not define; the single [MissingDotenvVarsError] it throws names
    the section and carries every such name; otherwise the section
    passes.  On a version-2 configuration [validateNowConfig] applies
    this to [env] against [.env], then to [build.env] against
    [.env.build], and passes when neither has such a value. *)
Theorem validateEnvConfig_reports_all_missing :
  (forall type env localEnv,
     (exists name, Spec.unresolved env localEnv name) ->
     exists missing,
       DevServer.validateEnvConfig type (Some env) (Some localEnv)
       = Throw (DevServer.MissingDotenvVarsError type missing) /\
       forall name, In name missing <-> Spec.unresolved env localEnv name) /\
  (forall type env localEnv,
     ~ (exists name, Spec.unresolved env localEnv name) ->
     DevServer.validateEnvConfig type (Some env) (Some localEnv) = Ok tt) /\
  (forall srv config,
     Types.version config = Some (JS.JNum 2) ->
     let e := Spec.section (Types.env config) in
     let be := Spec.section (Spec.build_section config) in
     ((exists name, Spec.unresolved e (DevServer.env srv) name) ->
      exists missing,
        DevServer.validateNowConfig srv config
        = Throw (DevServer.MissingDotenvVarsError ".env" missing) /\
        forall name, In name missing <-> Spec.unresolved e (DevServer.env srv) name) /\
     (~ (exists name, Spec.unresolved e (DevServer.env srv) name) ->
      (exists name, Spec.unresolved be (DevServer.buildEnv srv) name) ->
      exists missing,
        DevServer.validateNowConfig srv config
        = Throw (DevServer.MissingDotenvVarsError ".env.build" missing) /\
        forall name,
          In name missing <-> Spec.unresolved be (DevServer.buildEnv srv) name) /\
     (~ (exists name, Spec.unresolved e (DevServer.env srv) name) ->
      ~ (exists name, Spec.unresolved be (DevServer.buildEnv srv) name) ->
      DevServer.validateNowConfig srv config = Ok tt)).
Proof.
  split; [exact validateEnvConfig_throws|].
  split; [exact validateEnvConfig_passes|].
  intros srv config Hv e be.
  assert (Hrun : DevServer.validateNowConfig srv config
                 = bind (DevServer.validateEnvConfig ".env" (Some e)
                           (Some (DevServer.env srv)))
                     (fun _ => DevServer.validateEnvConfig ".env.build" (Some be)
                                 (Some (DevServer.buildEnv srv)))).
  { unfold DevServer.validateNowConfig. rewrite Hv.
    rewrite validateEnvConfig_default.
    rewrite (validateEnvConfig_default ".env.build"). reflexivity. }
  rewrite Hrun. split; [|split].
  - intros Hu.
    destruct (validateEnvConfig_throws ".env" e (DevServer.env srv) Hu)
      as (missing & -> & Hm).
    exists missing. split; [reflexivity|exact Hm].
  - intros Hno Hu.
    rewrite (validateEnvConfig_passes ".env" e (DevServer.env srv) Hno). simpl.
    exact (validateEnvConfig_throws ".env.build" be (DevServer.buildEnv srv) Hu).
  - intros Hno Hno'.
    rewrite (validateEnvConfig_passes ".env" e (DevServer.env srv) Hno). simpl.
    exact (validateEnvConfig_passes ".env.build" be (DevServer.buildEnv srv) Hno').
Qed.

(** The earlier server refuses every value that starts with [@], defined
    locally or not, and names none. *)
Example v1_refuses_every_secret :
  DevServerV1.validateNowConfig
    (Types.mkNowConfig (Some (JS.JNum 2)) (Some [("TOKEN", JS.JStr "@token")])
       None None None)
  = Throw "Secret env vars are not yet supported by `now dev`".
Proof. reflexivity. Qed.

Lemma validateEnvConfig_reports_all_missing_witness :
  DevServer.validateEnvConfig ".env"
    (Some [("API_KEY", JS.JStr "@api-key"); ("MODE", JS.JStr "dev");
           ("DB_URL", JS.JStr "@db-url"); ("TOKEN", JS.JStr "@token")])
    (Some [("TOKEN", JS.JStr "t0k3n")])
  = Throw (DevServer.MissingDotenvVarsError ".env" ["API_KEY"; "DB_URL"]) /\
  DevServer.validateEnvConfig ".env.build"
    (Some [("MODE", JS.JStr "dev"); ("TOKEN", JS.JStr "@token")])
    (Some [("TOKEN", JS.JStr "t0k3n")])
  = Ok tt.
Proof.
  destruct validateEnvConfig_reports_all_missing as (Hthrow & Hpass & _).
  split.
  - destruct (Hthrow ".env"
                [("API_KEY", JS.JStr "@api-key"); ("MODE", JS.JStr "dev");
                 ("DB_URL", JS.JStr "@db-url"); ("TOKEN", JS.JStr "@token")]
                [("TOKEN", JS.JStr "t0k3n")]) as (missing & Heq & _).
    + exists "API_KEY", "api-key". split; [simpl; auto|reflexivity].
    + reflexivity.
  - apply Hpass. intros (name & rest & Hin & Hl). simpl in Hin.
    destruct Hin as [Hin|[Hin|[]]]; inversion Hin; subst. discriminate.
Defined.

(** ** The build environment *)

Lemma deleteIfNew_keeps_none (orig : gmap string string) (keys : list string)
  (m : gmap string string) k :
  m !! k = None -> fold_left (DevServer.deleteIfNew orig) keys m !! k = None.
Proof.
  revert m. induction keys as [|key keys IH]; intros m Hm; [exact Hm|].
  simpl. apply IH. unfold DevServer.deleteIfNew. case_bool_decide; [exact Hm|].
  rewrite lookup_delete. case_decide; [reflexivity|exact Hm].
Qed.

Lemma deleteIfNew_removes (orig : gmap string string) (keys : list string)
  (m : gmap string string) k :
  orig !! k = None -> In k keys ->
  fold_left (DevServer.deleteIfNew orig) keys m !! k = None.
Proof.
  intros Ho. revert m. induction keys as [|key keys IH]; intros m Hin; [destruct Hin|].
  simpl. destruct Hin as [->|Hin]; [|now apply IH].
  apply deleteIfNew_keeps_none. unfold DevServer.deleteIfNew. case_bool_decide as Hd.
  - rewrite Ho in Hd. destruct Hd as [? Hd]. discriminate.
  - apply lookup_delete_eq.
Qed.

Lemma deleteIfNew_all (orig m : gmap string string) k :
  orig !! k = None ->
  fold_left (DevServer.deleteIfNew orig) (map fst (map_to_list m)) m !! k = None.
Proof.
  intros Ho. destruct (m !! k) as [v|] eqn:Hm.
  - apply deleteIfNew_removes; [exact Ho|].
    apply in_map_iff. exists (k, v). split; [reflexivity|].
    apply list_elem_of_In, elem_of_map_to_list. exact Hm.
  - now apply deleteIfNew_keeps_none.
Qed.

Lemma restoreOriginalEnv_snapshot (srv : DevServer.DevServer)
  (process_env : gmap string string) :
  DevServer.restoreOriginalEnv srv process_env = DevServer.originalEnv srv.
Proof.
  unfold DevServer.restoreOriginalEnv. apply map_eq. intros k.
  destruct (DevServer.originalEnv srv !! k) as [v|] eqn:Ho.
  - now apply lookup_union_Some_l.
  - rewrite lookup_union_r by exact Ho.
    now apply deleteIfNew_all.
Qed.

(** C7: whatever [applyBuildEnv] put into the process environment,
    [restoreOriginalEnv] brings it back to the snapshot the server took
    when it was constructed: a variable the snapshot lacks is gone, a
    variable of the snapshot has its value again; for a server built on
    the current environment the two calls are a round trip. *)
Theorem applyBuildEnv_restoreOriginalEnv (srv : DevServer.DevServer)
  (nowJson : Types.NowConfig) (process_env : gmap string string) :
  let restored :=
    DevServer.restoreOriginalEnv srv (DevServer.applyBuildEnv srv nowJson process_env) in
  restored = DevServer.originalEnv srv /\
  (forall k, DevServer.originalEnv srv !! k = None -> restored !! k = None) /\
  (forall k v, DevServer.originalEnv srv !! k = Some v -> restored !! k = Some v) /\
  (forall cwd localEnv localBuildEnv,
     let started :=
       DevServer.setLocalEnv (DevServer.constructor cwd process_env)
         localEnv localBuildEnv in
     DevServer.restoreOriginalEnv started
       (DevServer.applyBuildEnv started nowJson process_env)
     = process_env).
Proof.
  intros restored. unfold restored. rewrite restoreOriginalEnv_snapshot.
  repeat split; auto.
  intros cwd localEnv localBuildEnv. now rewrite restoreOriginalEnv_snapshot.
Qed.

Lemma applyBuildEnv_restoreOriginalEnv_witness :
  let env0 : gmap string string := {[ "PATH" := "/usr/bin"; "HOME" := "/root" ]} in
  let srv :=
    DevServer.setLocalEnv (DevServer.constructor "/project" env0)
      [] [("PATH", JS.JStr "/opt/build/bin"); ("NODE_ENV", JS.JStr "production")] in
  let cfg :=
    Types.mkNowConfig (Some (JS.JNum 2)) None
      (Some (Types.mkBuildSection (Some [("API_URL", JS.JStr "http://localhost")])))
      None None in
  DevServer.applyBuildEnv srv cfg env0 !! "NODE_ENV" = Some "production" /\
  DevServer.applyBuildEnv srv cfg env0 !! "PATH" = Some "/opt/build/bin" /\
  DevServer.restoreOriginalEnv srv (DevServer.applyBuildEnv srv cfg env0) !! "NODE_ENV"
  = None /\
  DevServer.restoreOriginalEnv srv (DevServer.applyBuildEnv srv cfg env0) !! "PATH"
  = Some "/usr/bin".
Proof.
  intros env0 srv cfg.
  destruct (applyBuildEnv_restoreOriginalEnv srv cfg env0) as (_ & Hgone & Hback & _).
  split; [vm_compute; reflexivity|].
  split; [vm_compute; reflexivity|].
  split.
  - apply Hgone. vm_compute. reflexivity.
  - apply Hback. vm_compute. reflexivity.
Defined.

(** ** The trace id *)

Lemma substring_app_tail (pre f : string) :
  String.substring (String.length pre) (String.length f) (pre ++ f) = f.
Proof.
  induction pre as [|c pre IH].
  - change (EmptyString ++ f) with f. simpl.
    induction f as [|d f IHf]; [reflexivity|]. simpl. now rewrite IHf.
  - change (String c pre ++ f) with (String c (pre ++ f)). simpl. exact IH.
Qed.

Lemma length_app_string (a b : string) :
  String.length (a ++ b) = String.length a + String.length b.
Proof.
  induction a as [|c a IH]; [reflexivity|].
  change (String c a ++ b) with (String c (a ++ b)). simpl. now rewrite IH.
Qed.

Lemma slice_last_app (n : nat) (pre f : string) :
  String.length f = n -> JS.slice_last n (pre ++ f) = f.
Proof.
  intros <-. unfold JS.slice_last. rewrite length_app_string.
  replace (String.length pre + String.length f - String.length f)
    with (String.length pre) by lia.
  apply substring_app_tail.
Qed.

Lemma toString_hex_length (buf : list byte) :
  String.length (Buffer.toString_hex buf) = 2 * length buf.
Proof. induction buf as [|b r IH]; [reflexivity|]. simpl. rewrite IH. lia. Qed.

Lemma hex_digits_of_byte (b : byte) :
  Spec.is_hex_digit (Buffer.hex_digit (Byte.to_N b / 16)) = true /\
  Spec.is_hex_digit (Buffer.hex_digit (Byte.to_N b mod 16)) = true.
Proof. destruct b; vm_compute; split; reflexivity. Qed.

Lemma toString_hex_digits (buf : list byte) :
  JS.all_chars Spec.is_hex_digit (Buffer.toString_hex buf) = true.
Proof.
  induction buf as [|b r IH]; [reflexivity|].
  destruct (hex_digits_of_byte b) as [Hh Hl].
  cbn [Buffer.toString_hex JS.all_chars]. cbv zeta. now rewrite Hh, Hl, IH.
Qed.

(** When the random number prints with five digits or more after the
    point, the id is made of these last five digits, the time and the
    32 hexadecimal digits of the 16 random bytes. *)
Lemma generateRequestId_format (e : Shared.Entropy) (pre rand5 : string) :
  Shared.random32 e = pre ++ rand5 ->
  String.length rand5 = 5 ->
  length (Shared.random_bytes e) = 16 ->
  Shared.generateRequestId e
  = rand5 ++ "-" ++ JS.string_of_Z (Shared.now e) ++ "-"
    ++ Buffer.toString_hex (Shared.random_bytes e) /\
  String.length (Buffer.toString_hex (Shared.random_bytes e)) = 32 /\
  JS.all_chars Spec.is_hex_digit (Buffer.toString_hex (Shared.random_bytes e)) = true.
Proof.
  intros Hr H5 H16. unfold Shared.generateRequestId.
  rewrite Hr, (slice_last_app 5 pre rand5 H5).
  split; [reflexivity|]. split; [|apply toString_hex_digits].
  rewrite toString_hex_length, H16. reflexivity.
Qed.

(** C9: when [Math.random()] is one half it prints as [0.g] in base 32,
    and the first field of the id is these three characters, the point
    among them, instead of five base-32 digits. *)
Theorem generateRequestId_short_random :
  let e :=
    Shared.mkEntropy "0.g" 1553895116335
      [x78; x4e; xdb; xc9; xef; x03; xe2; xb5; x53; x4f; x3d; xc6; xf1; x4c; x90; xd4] in
  Shared.generateRequestId e = "0.g-1553895116335-784edbc9ef03e2b5534f3dc6f14c90d4" /\
  nth_error (JS.split_on "-" (Shared.generateRequestId e)) 0 = Some "0.g" /\
  String.length "0.g" = 3 /\
  JS.all_chars Spec.is_base32_digit "0.g" = false.
Proof. repeat split; reflexivity. Qed.

(** ** Buffers: base64 *)

Ltac divmod := intros; zify; Z.to_euclidean_division_equations; lia.

Lemma base64_alphabet_check :
  forallb
    (fun i =>
       match Buffer.unbase64 (Buffer.base64_digit (N.of_nat i)) with
       | Some m => N.eqb m (N.of_nat i)
       | None => false
       end
       && negb (Ascii.eqb (Buffer.base64_digit (N.of_nat i)) "="))
    (seq 0 64)
  = true.
Proof. vm_compute. reflexivity. Qed.

Lemma base64_digit_value (n : N) :
  (n < 64)%N ->
  Buffer.unbase64 (Buffer.base64_digit n) = Some n /\
  Ascii.eqb (Buffer.base64_digit n) "=" = false.
Proof.
  intros Hn. pose proof base64_alphabet_check as H.
  rewrite forallb_forall in H. specialize (H (N.to_nat n)).
  rewrite N2Nat.id in H.
  assert (Hin : In (N.to_nat n) (seq 0 64)) by (apply in_seq; lia).
  apply H in Hin. apply andb_true_iff in Hin as [Hv He].
  split; [|now apply negb_true_iff].
  destruct (Buffer.unbase64 (Buffer.base64_digit n)) as [m|]; [|discriminate].
  apply N.eqb_eq in Hv. now subst.
Qed.

Lemma sextets_digit (n : N) (rest : string) :
  (n < 64)%N ->
  Buffer.sextets (String (Buffer.base64_digit n) rest) = n :: Buffer.sextets rest.
Proof.
  intros Hn. destruct (base64_digit_value n Hn) as [Hv He].
  cbn [Buffer.sextets]. now rewrite He, Hv.
Qed.

Lemma byte_of_to_N (x : byte) : Buffer.byte_of_N (Byte.to_N x) = x.
Proof.
  unfold Buffer.byte_of_N. pose proof (Byte.to_N_bounded x).
  rewrite N.mod_small by lia. now rewrite Byte.of_to_N.
Qed.

Lemma byte_of_N_eq (n : N) (x : byte) : n = Byte.to_N x -> Buffer.byte_of_N n = x.
Proof. intros ->. apply byte_of_to_N. Qed.

(** Decoding what [toString('base64')] wrote gives the bytes back. *)
Lemma from_base64_toString_base64 :
  forall buf, Buffer.from_base64 (Buffer.toString_base64 buf) = buf.
Proof.
  unfold Buffer.from_base64. fix IH 1. intros [|x [|y [|z r]]].
  - reflexivity.
  - pose proof (Byte.to_N_bounded x). cbn [Buffer.toString_base64]. cbv zeta.
    rewrite !sextets_digit by divmod.
    change (Buffer.sextets "==") with (@nil N). cbn [Buffer.decode_groups].
    f_equal. apply byte_of_N_eq. divmod.
  - pose proof (Byte.to_N_bounded x). pose proof (Byte.to_N_bounded y).
    cbn [Buffer.toString_base64]. cbv zeta.
    rewrite !sextets_digit by divmod.
    change (Buffer.sextets "=") with (@nil N). cbn [Buffer.decode_groups].
    f_equal; [|f_equal]; apply byte_of_N_eq; divmod.
  - pose proof (Byte.to_N_bounded x). pose proof (Byte.to_N_bounded y).
    pose proof (Byte.to_N_bounded z).
    cbn [Buffer.toString_base64]. cbv zeta.
    rewrite !sextets_digit by divmod. cbn [Buffer.decode_groups].
    rewrite (IH r).
    f_equal; [|f_equal; [|f_equal]]; apply byte_of_N_eq; divmod.
Qed.

Example from_base64_examples :
  Buffer.from_base64 "aGVsbG8=" = list_byte_of_string "hello" /\
  Buffer.from_base64 "aGVsbG8" = list_byte_of_string "hello" /\
  Buffer.from_base64 "aGV sbG8=" = list_byte_of_string "hello" /\
  Buffer.toString_base64 (list_byte_of_string "hello") = "aGVsbG8=".
Proof. repeat split; reflexivity. Qed.

(** ** Listening *)

Lemma listenLoop_skips (prefix rest : list Shared.ListenAnswer) (port : Z) :
  Forall Spec.address_in_use prefix ->
  Shared.listenLoop port (prefix ++ rest)
  = Shared.listenLoop (port + Z.of_nat (length prefix)) rest.
Proof.
  intros H. revert port. induction H as [|a prefix [m ->] _ IH]; intros port.
  - simpl. now rewrite Z.add_0_r.
  - cbn [app Shared.listenLoop length]. change (String.eqb "EADDRINUSE" "EADDRINUSE") with true.
    cbv iota. rewrite IH. f_equal. lia.
Qed.

Lemma listenLoop_other_code (port : Z) code message rest :
  code <> Some "EADDRINUSE" ->
  Shared.listenLoop port (Shared.ListenError code message :: rest)
  = Shared.ListenThrows code message.
Proof.
  intros Hc. simpl. destruct code as [c|]; [|reflexivity].
  destruct (String.eqb_spec c "EADDRINUSE") as [->|]; [congruence|reflexivity].
Qed.

(** C10: [start] takes the port as the first one to try.  While the
    answer is [EADDRINUSE] it tries the next port, for as long as that is
    the answer; it ends up bound to the first port that accepts, which is
    the requested one plus the number of ports found in use; an answer
    with any other code is thrown and the server is not started. *)
Theorem start_retries_on_EADDRINUSE :
  (forall port prefix address rest,
     Forall Spec.address_in_use prefix ->
     Shared.listenLoop port (prefix ++ Shared.Listening address :: rest)
     = Shared.Bound (port + Z.of_nat (length prefix)) address) /\
  (forall port prefix code message rest,
     Forall Spec.address_in_use prefix ->
     code <> Some "EADDRINUSE" ->
     Shared.listenLoop port (prefix ++ Shared.ListenError code message :: rest)
     = Shared.ListenThrows code message) /\
  (forall port prefix,
     Forall Spec.address_in_use prefix ->
     Shared.listenLoop port prefix
     = Shared.StillTrying (port + Z.of_nat (length prefix))) /\
  (forall srv port dotenv dotenvBuild file matches srv' prefix address rest,
     DevServer.prepare srv dotenv dotenvBuild file matches = Ok srv' ->
     Forall Spec.address_in_use prefix ->
     DevServer.start srv (Some port) dotenv dotenvBuild file matches
       (prefix ++ Shared.Listening address :: rest)
     = DevServer.Started srv' (port + Z.of_nat (length prefix)) address) /\
  (forall srv port dotenv dotenvBuild file matches srv' prefix code message rest,
     DevServer.prepare srv dotenv dotenvBuild file matches = Ok srv' ->
     Forall Spec.address_in_use prefix ->
     code <> Some "EADDRINUSE" ->
     DevServer.start srv (Some port) dotenv dotenvBuild file matches
       (prefix ++ Shared.ListenError code message :: rest)
     = DevServer.StartThrows (DevServer.Error code message)) /\
  (forall ext srv port file nowJson prefix address rest,
     DevServerV1.getNowJson file = Ok nowJson ->
     Forall Spec.address_in_use prefix ->
     (forall config message,
        nowJson = Some config ->
        DevServerV1.buildUserProject ext config (DevServerV1.assets srv)
        <> Throw message) ->
     exists srv',
       DevServerV1.start ext srv (Some port) file
         (prefix ++ Shared.Listening address :: rest)
       = DevServerV1.Started srv' (port + Z.of_nat (length prefix)) address) /\
  (forall ext srv port file nowJson prefix code message rest,
     DevServerV1.getNowJson file = Ok nowJson ->
     Forall Spec.address_in_use prefix ->
     code <> Some "EADDRINUSE" ->
     DevServerV1.start ext srv (Some port) file
       (prefix ++ Shared.ListenError code message :: rest)
     = DevServerV1.StartThrows code message).
Proof.
  assert (Hbound : forall port prefix address rest,
             Forall Spec.address_in_use prefix ->
             Shared.listenLoop port (prefix ++ Shared.Listening address :: rest)
             = Shared.Bound (port + Z.of_nat (length prefix)) address)
    by (intros; now rewrite listenLoop_skips).
  assert (Hthrow : forall port prefix code message rest,
             Forall Spec.address_in_use prefix ->
             code <> Some "EADDRINUSE" ->
             Shared.listenLoop port (prefix ++ Shared.ListenError code message :: rest)
             = Shared.ListenThrows code message)
    by (intros; rewrite listenLoop_skips by assumption;
        now apply listenLoop_other_code).
  split; [exact Hbound|]. split; [exact Hthrow|]. split.
  { intros port prefix H. rewrite <- (app_nil_r prefix) at 1.
    now rewrite listenLoop_skips. }
  split.
  { intros * Hp H. unfold DevServer.start. now rewrite Hp, Hbound. }
  split.
  { intros * Hp H Hc. unfold DevServer.start. now rewrite Hp, Hthrow. }
  split.
  { intros * Hg H Hb. unfold DevServerV1.start. rewrite Hg, Hbound by assumption.
    destruct nowJson as [config|]; [|eauto].
    destruct (Types.builds config); [|eauto].
    destruct (DevServerV1.buildUserProject ext config (DevServerV1.assets srv))
      as [built|e] eqn:E; [eauto|].
    exfalso. exact (Hb config e eq_refl E). }
  { intros * Hg H Hc. unfold DevServerV1.start. now rewrite Hg, Hthrow. }
Qed.

Lemma start_retries_on_EADDRINUSE_witness :
  let srv := DevServer.constructor "/project" ∅ in
  let in_use := Shared.ListenError (Some "EADDRINUSE") "listen EADDRINUSE" in
  DevServer.start srv (Some 3000%Z) (Types.ReadFails (Some "ENOENT") "no such file")
    (Types.ReadFails (Some "ENOENT") "no such file")
    (Types.ReadFails (Some "ENOENT") "no such file") (Ok [])
    ([in_use; in_use] ++ [Shared.Listening "http://[::]:3002"])
  = DevServer.Started srv 3002%Z "http://[::]:3002" /\
  DevServer.start srv (Some 3000%Z) (Types.ReadFails (Some "ENOENT") "no such file")
    (Types.ReadFails (Some "ENOENT") "no such file")
    (Types.ReadFails (Some "ENOENT") "no such file") (Ok [])
    ([in_use] ++ [Shared.ListenError (Some "EACCES") "permission denied"])
  = DevServer.StartThrows (DevServer.Error (Some "EACCES") "permission denied").
Proof.
  intros srv in_use.
  destruct start_retries_on_EADDRINUSE as (_ & _ & _ & Hok & Hthrow & _).
  split.
  - apply (Hok srv 3000%Z _ _ _ _ srv [in_use; in_use] "http://[::]:3002" []).
    + reflexivity.
    + repeat constructor; now exists "listen EADDRINUSE".
  - apply (Hthrow srv 3000%Z _ _ _ _ srv [in_use] (Some "EACCES") "permission denied" []).
    + reflexivity.
    + repeat constructor; now exists "listen EADDRINUSE".
    + discriminate.
Defined.

(** ** Response headers *)

Lemma obj_get_set {V} (o : JS.obj V) k v k' :
  JS.obj_get (JS.obj_set o k v) k'
  = if String.eqb k k' then Some v else JS.obj_get o k'.
Proof.
  induction o as [|[k0 v0] o IH]; simpl.
  - reflexivity.
  - destruct (String.eqb_spec k0 k) as [->|Hne]; simpl.
    + destruct (String.eqb k k'); reflexivity.
    + rewrite IH. destruct (String.eqb_spec k0 k') as [->|]; [|reflexivity].
      destruct (String.eqb_spec k k'); [congruence|reflexivity].
Qed.

Lemma getHeader_setHeader res k v n :
  Http.getHeader (Http.setHeader res k v) n
  = if String.eqb (JS.toLowerCase k) (JS.toLowerCase n) then Some v
    else Http.getHeader res n.
Proof.
  unfold Http.getHeader, Http.setHeader. simpl. rewrite obj_get_set.
  destruct (String.eqb _ _); reflexivity.
Qed.

Lemma getHeader_setHeaders hs : forall res n,
  Http.getHeader (Http.setHeaders res hs) n
  = match Spec.last_named hs n with
    | Some v => Some v
    | None => Http.getHeader res n
    end.
Proof.
  induction hs as [|[k v] hs IH]; intros res n; [reflexivity|].
  change (Http.setHeaders res ((k, v) :: hs))
    with (Http.setHeaders (Http.setHeader res k v) hs).
  rewrite IH, getHeader_setHeader. simpl.
  destruct (Spec.last_named hs n); [reflexivity|].
  destruct (String.eqb _ _); reflexivity.
Qed.

Lemma last_named_none {V} (hs : JS.obj V) n :
  existsb (fun kv => String.eqb (JS.toLowerCase (fst kv)) (JS.toLowerCase n)) hs = false ->
  Spec.last_named hs n = None.
Proof.
  induction hs as [|[k v] hs IH]; simpl; [reflexivity|].
  intros H. apply orb_false_iff in H as [Hk Hr]. now rewrite IH, Hk.
Qed.

Lemma last_named_set_other {V} (hs : JS.obj V) k v n :
  JS.toLowerCase k <> JS.toLowerCase n ->
  Spec.last_named (JS.obj_set hs k v) n = Spec.last_named hs n.
Proof.
  intros Hne. apply String.eqb_neq in Hne.
  induction hs as [|[k0 v0] hs IH]; simpl.
  - now rewrite Hne.
  - destruct (String.eqb_spec k0 k) as [->|]; simpl.
    + now rewrite Hne.
    + now rewrite IH.
Qed.

Lemma last_named_set_exact {V} (hs : JS.obj V) k v n :
  JS.toLowerCase k = k ->
  JS.toLowerCase n = k ->
  Spec.exact_last k hs = true ->
  Spec.last_named (JS.obj_set hs k v) n = Some v.
Proof.
  intros Hk Hn. induction hs as [|[k0 v0] hs IH]; simpl.
  - now rewrite Hk, Hn, String.eqb_refl.
  - destruct (String.eqb_spec k0 k) as [->|]; simpl.
    + intros H. apply negb_true_iff in H.
      rewrite last_named_none by now rewrite Hn.
      now rewrite Hk, Hn, String.eqb_refl.
    + intros H. now rewrite IH.
Qed.

Lemma existsb_lower_set {V} (hs : JS.obj V) k v k2 :
  JS.toLowerCase k2 <> k ->
  existsb (fun kv => String.eqb (JS.toLowerCase (fst kv)) k) (JS.obj_set hs k2 v)
  = existsb (fun kv => String.eqb (JS.toLowerCase (fst kv)) k) hs.
Proof.
  intros Hne. apply String.eqb_neq in Hne.
  induction hs as [|[k0 v0] hs IH]; simpl.
  - now rewrite Hne.
  - destruct (String.eqb_spec k0 k2) as [->|]; simpl; [reflexivity|now rewrite IH].
Qed.

Lemma exact_last_set_other {V} (hs : JS.obj V) k k2 v :
  k2 <> k ->
  JS.toLowerCase k2 = k2 ->
  Spec.exact_last k hs = true ->
  Spec.exact_last k (JS.obj_set hs k2 v) = true.
Proof.
  intros Hne Hl. induction hs as [|[k0 v0] hs IH]; simpl.
  - intros _. apply String.eqb_neq in Hne. now rewrite Hne.
  - destruct (String.eqb_spec k0 k2) as [->|Hk0]; simpl.
    + trivial.
    + destruct (String.eqb_spec k0 k) as [->|]; [|exact IH].
      rewrite existsb_lower_set by congruence. trivial.
Qed.

Lemma exact_last_distinct {V} (hs : JS.obj V) k :
  JS.toLowerCase k = k ->
  Spec.distinct_names hs ->
  Spec.exact_last k hs = true.
Proof.
  intros Hk. unfold Spec.distinct_names.
  induction hs as [|[k0 v0] hs IH]; simpl; [reflexivity|].
  intros Hd. inversion Hd as [|? ? Hnot Hd']; subst.
  destruct (String.eqb_spec k0 k) as [->|]; [|now apply IH].
  apply negb_true_iff. apply not_true_is_false. intros He.
  apply existsb_exists in He as [[k1 v1] [Hin He]]. simpl in He.
  apply String.eqb_eq in He. apply Hnot. rewrite Hk, <- He.
  apply in_map. unfold JS.obj_keys. now apply (in_map fst) in Hin.
Qed.

Lemma last_named_distinct {V} (hs : JS.obj V) k v :
  Spec.distinct_names hs ->
  In (k, v) hs ->
  Spec.last_named hs k = Some v.
Proof.
  unfold Spec.distinct_names.
  induction hs as [|[k0 v0] hs IH]; simpl; [intros _ []|].
  intros Hd Hin. inversion Hd as [|? ? Hnot Hd']; subst.
  destruct Hin as [[= -> ->]|Hin].
  - rewrite last_named_none, String.eqb_refl; [reflexivity|].
    apply not_true_is_false. intros He.
    apply existsb_exists in He as [[k1 v1] [Hin He]]. simpl in He.
    apply String.eqb_eq in He. apply Hnot. rewrite <- He.
    apply in_map. unfold JS.obj_keys. now apply (in_map fst) in Hin.
  - now rewrite (IH Hd' Hin).
Qed.

Lemma obj_set_fresh {V} (o : JS.obj V) k v :
  ~ In k (JS.obj_keys o) -> JS.obj_set o k v = (o ++ [(k, v)])%list.
Proof.
  induction o as [|[k0 v0] o IH]; simpl; [reflexivity|].
  intros Hn. destruct (String.eqb_spec k0 k) as [->|].
  - exfalso. apply Hn. now left.
  - rewrite IH; [reflexivity|]. intros H. apply Hn. now right.
Qed.

Lemma obj_assign_fresh {V} (src : JS.obj V) : forall acc,
  List.NoDup (JS.obj_keys acc ++ JS.obj_keys src)%list ->
  JS.obj_assign acc src = (acc ++ src)%list.
Proof.
  unfold JS.obj_assign.
  induction src as [|[k v] src IH]; intros acc Hd; simpl.
  - now rewrite app_nil_r.
  - simpl in Hd. rewrite obj_set_fresh.
    + rewrite IH.
      * now rewrite <- app_assoc.
      * unfold JS.obj_keys in *. rewrite map_app. simpl. now rewrite <- app_assoc.
    + apply List.NoDup_remove_2 in Hd. intros H. apply Hd. apply in_or_app. now left.
Qed.

Lemma spread_distinct {V} (hs : JS.obj V) :
  Spec.distinct_names hs -> JS.obj_assign [] hs = hs.
Proof.
  intros Hd. apply (obj_assign_fresh hs []). simpl.
  unfold Spec.distinct_names in Hd. now apply List.NoDup_map_inv in Hd.
Qed.

Lemma all_headers_distinct (hs : JS.obj Http.HeaderValue) nowRequestId :
  Spec.distinct_names hs ->
  JS.obj_assign (JS.obj_assign [] hs)
    [("x-now-trace", Http.HStr "dev1"); ("x-now-id", Http.HStr nowRequestId);
     ("x-now-cache", Http.HStr "MISS")]
  = JS.obj_set
      (JS.obj_set (JS.obj_set hs "x-now-trace" (Http.HStr "dev1"))
         "x-now-id" (Http.HStr nowRequestId))
      "x-now-cache" (Http.HStr "MISS").
Proof. intros Hd. now rewrite spread_distinct. Qed.

Lemma writeResponseHeaders_now res nowRequestId (hs : JS.obj Http.HeaderValue) :
  Spec.distinct_names hs ->
  Spec.carries_now_headers
    (Shared.writeResponseHeaders res nowRequestId (Some hs)) nowRequestId.
Proof.
  intros Hd. unfold Spec.carries_now_headers, Shared.writeResponseHeaders, Shared.allHeaders.
  rewrite all_headers_distinct by exact Hd.
  rewrite !getHeader_setHeaders.
  assert (Ht : Spec.exact_last "x-now-trace" hs = true)
    by now apply exact_last_distinct.
  assert (Hi : Spec.exact_last "x-now-id" hs = true)
    by now apply exact_last_distinct.
  assert (Hc : Spec.exact_last "x-now-cache" hs = true)
    by now apply exact_last_distinct.
  repeat split.
  - rewrite !last_named_set_other by discriminate.
    now rewrite last_named_set_exact.
  - rewrite last_named_set_other by discriminate.
    rewrite last_named_set_exact; [reflexivity..|].
    now apply exact_last_set_other.
  - rewrite last_named_set_exact; [reflexivity..|].
    apply exact_last_set_other; [discriminate|reflexivity|].
    now apply exact_last_set_other.
Qed.

Lemma writeResponseHeaders_default res nowRequestId :
  Spec.carries_now_headers (Shared.writeResponseHeaders res nowRequestId None)
    nowRequestId.
Proof. apply (writeResponseHeaders_now res nowRequestId []). constructor. Qed.

Lemma writeResponseHeaders_other res nowRequestId (hs : JS.obj Http.HeaderValue) k v :
  Spec.distinct_names hs ->
  In (k, v) hs ->
  Spec.is_now_header k = false ->
  Http.getHeader (Shared.writeResponseHeaders res nowRequestId (Some hs)) k = Some v.
Proof.
  intros Hd Hin Hk. unfold Shared.writeResponseHeaders, Shared.allHeaders.
  rewrite all_headers_distinct by exact Hd.
  rewrite getHeader_setHeaders.
  unfold Spec.is_now_header in Hk.
  apply orb_false_iff in Hk as [Hk Hc]. apply orb_false_iff in Hk as [Ht Hi].
  apply String.eqb_neq in Ht, Hi, Hc.
  rewrite !last_named_set_other by (intros E; symmetry in E; contradiction).
  now rewrite (last_named_distinct hs k v).
Qed.

Lemma carries_end res b nowRequestId :
  Spec.carries_now_headers res nowRequestId ->
  Spec.carries_now_headers (Http.end_ res b) nowRequestId.
Proof. trivial. Qed.

Lemma sendError_now res nowRequestId code message statusCode :
  Spec.carries_now_headers
    (Shared.sendError res nowRequestId code message statusCode) nowRequestId.
Proof.
  unfold Shared.sendError. apply carries_end, writeResponseHeaders_default.
Qed.

(** ** Headers and status codes that Node refuses *)

Lemma trySetHeaders_accepted hs : forall res,
  Http.accepted hs = true ->
  Http.trySetHeaders res hs = (Http.setHeaders res hs, None).
Proof.
  induction hs as [|[k v] hs IH]; intros res Ha; [reflexivity|].
  simpl in Ha. apply andb_true_iff in Ha as [Hk Hrest].
  cbn [Http.trySetHeaders]. destruct (Http.refuses k v); [discriminate|].
  rewrite IH by exact Hrest. reflexivity.
Qed.

Lemma trySetHeaders_refused hs : forall res,
  Http.accepted hs = false ->
  exists before name value after e,
    hs = (before ++ (name, value) :: after)%list /\
    Http.accepted before = true /\
    Http.refuses name value = Some e /\
    Http.trySetHeaders res hs = (Http.setHeaders res before, Some e).
Proof.
  induction hs as [|[k v] hs IH]; intros res Ha; [discriminate|].
  simpl in Ha. cbn [Http.trySetHeaders].
  destruct (Http.refuses k v) as [e|] eqn:Hr.
  - exists [], k, v, hs, e. auto.
  - simpl in Ha.
    destruct (IH (Http.setHeader res k v) Ha)
      as (before & name & value & after & e & -> & Hb & He & Hrun).
    exists ((k, v) :: before), name, value, after, e.
    split; [reflexivity|]. split; [simpl; now rewrite Hr|]. split; [exact He|].
    exact Hrun.
Qed.

Lemma setHeaders_headers_frame hs : forall res,
  Http.statusCode (Http.setHeaders res hs) = Http.statusCode res /\
  Http.finished (Http.setHeaders res hs) = Http.finished res /\
  Http.body (Http.setHeaders res hs) = Http.body res.
Proof.
  induction hs as [|[k v] hs IH]; intros res; [auto|].
  change (Http.setHeaders res ((k, v) :: hs))
    with (Http.setHeaders (Http.setHeader res k v) hs).
  destruct (IH (Http.setHeader res k v)) as (-> & -> & ->). auto.
Qed.


Lemma spread_object {V} (hs : JS.obj V) :
  List.NoDup (JS.obj_keys hs) -> JS.obj_assign [] hs = hs.
Proof. intros Hd. now apply (obj_assign_fresh hs []). Qed.

Lemma all_headers_object (hs : JS.obj Http.HeaderValue) nowRequestId :
  List.NoDup (JS.obj_keys hs) ->
  Shared.allHeaders nowRequestId (Some hs)
  = JS.obj_set
      (JS.obj_set (JS.obj_set hs "x-now-trace" (Http.HStr "dev1"))
         "x-now-id" (Http.HStr nowRequestId))
      "x-now-cache" (Http.HStr "MISS").
Proof. intros Hd. unfold Shared.allHeaders. now rewrite spread_object. Qed.

Lemma exact_last_set_other_eq {V} (hs : JS.obj V) k k2 v :
  k2 <> k ->
  JS.toLowerCase k2 <> k ->
  Spec.exact_last k (JS.obj_set hs k2 v) = Spec.exact_last k hs.
Proof.
  intros Hne Hl. induction hs as [|[k0 v0] hs IH]; simpl.
  - apply String.eqb_neq in Hne. now rewrite Hne.
  - destruct (String.eqb_spec k0 k2) as [->|Hk0]; simpl.
    + apply String.eqb_neq in Hne. now rewrite Hne.
    + destruct (String.eqb_spec k0 k) as [->|]; [|exact IH].
      now rewrite existsb_lower_set.
Qed.

Lemma last_named_some {V} (hs : JS.obj V) n :
  existsb (fun kv => String.eqb (JS.toLowerCase (fst kv)) (JS.toLowerCase n)) hs = true ->
  exists v, Spec.last_named hs n = Some v.
Proof.
  induction hs as [|[k v] hs IH]; simpl; [discriminate|].
  intros H. destruct (Spec.last_named hs n) as [v'|] eqn:E; [eauto|].
  apply orb_true_iff in H as [H|H]; [rewrite H; eauto|].
  destruct (IH H) as [v' Hv']. discriminate.
Qed.

(** A returned entry under the plain name of a header, followed by
    another spelling of the name: the later spelling is the one that
    counts, whatever is written under the plain name. *)
Lemma last_named_set_shadowed {V} (hs : JS.obj V) k v n :
  JS.toLowerCase n = k ->
  Spec.exact_last k hs = false ->
  Spec.last_named (JS.obj_set hs k v) n = Spec.last_named hs n.
Proof.
  intros Hn. induction hs as [|[k0 v0] hs IH]; simpl; [discriminate|].
  destruct (String.eqb_spec k0 k) as [->|Hk0]; simpl.
  - intros H. apply negb_false_iff in H. rewrite <- Hn in H.
    destruct (last_named_some hs n H) as [v' ->]. reflexivity.
  - intros H. now rewrite IH.
Qed.

(** The headers of a response after [writeResponseHeaders]: a Now header
    has the value of the server unless the headers given list its plain
    name and, after it, another spelling of it; any other header has the
    value given last under one of its spellings, or the value it had. *)
Lemma writeResponseHeaders_get res nowRequestId (hs : JS.obj Http.HeaderValue) n :
  List.NoDup (JS.obj_keys hs) ->
  Http.getHeader (Shared.writeResponseHeaders res nowRequestId (Some hs)) n
  = if Spec.is_now_header n && Spec.exact_last (JS.toLowerCase n) hs
    then Some (Spec.now_value nowRequestId n)
    else match Spec.last_named hs n with
         | Some v => Some v
         | None => Http.getHeader res n
         end.
Proof.
  intros Hd. unfold Shared.writeResponseHeaders.
  rewrite all_headers_object by exact Hd.
  rewrite getHeader_setHeaders.
  unfold Spec.is_now_header, Spec.now_value.
  set (L := JS.toLowerCase n).
  assert (HL : JS.toLowerCase n = L) by reflexivity.
  destruct (String.eqb_spec L "x-now-trace") as [Et|Et].
  { rewrite Et in *. simpl orb.
    rewrite !last_named_set_other by (rewrite HL; discriminate).
    destruct (Spec.exact_last "x-now-trace" hs) eqn:Ex; simpl andb.
    - now rewrite (last_named_set_exact hs "x-now-trace" _ n eq_refl HL Ex).
    - now rewrite (last_named_set_shadowed hs "x-now-trace" _ n HL Ex). }
  destruct (String.eqb_spec L "x-now-id") as [Ei|Ei].
  { rewrite Ei in *. simpl orb.
    rewrite last_named_set_other by (rewrite HL; discriminate).
    assert (Hx : Spec.exact_last "x-now-id"
                   (JS.obj_set hs "x-now-trace" (Http.HStr "dev1"))
                 = Spec.exact_last "x-now-id" hs)
      by (apply exact_last_set_other_eq; discriminate).
    destruct (Spec.exact_last "x-now-id" hs) eqn:Ex; simpl andb.
    - now rewrite (last_named_set_exact _ "x-now-id" _ n eq_refl HL Hx).
    - rewrite (last_named_set_shadowed _ "x-now-id" _ n HL Hx).
      now rewrite last_named_set_other by (rewrite HL; discriminate). }
  destruct (String.eqb_spec L "x-now-cache") as [Ec|Ec].
  { rewrite Ec in *. simpl orb.
    assert (Hx : Spec.exact_last "x-now-cache"
                   (JS.obj_set (JS.obj_set hs "x-now-trace" (Http.HStr "dev1"))
                      "x-now-id" (Http.HStr nowRequestId))
                 = Spec.exact_last "x-now-cache" hs).
    { rewrite exact_last_set_other_eq by discriminate.
      apply exact_last_set_other_eq; discriminate. }
    destruct (Spec.exact_last "x-now-cache" hs) eqn:Ex; simpl andb.
    - now rewrite (last_named_set_exact _ "x-now-cache" _ n eq_refl HL Hx).
    - rewrite (last_named_set_shadowed _ "x-now-cache" _ n HL Hx).
      now rewrite !last_named_set_other by (rewrite HL; discriminate). }
  simpl.
  now rewrite !last_named_set_other
    by (rewrite HL; intros E; symmetry in E; contradiction).
Qed.

Lemma writeResponseHeaders_carries res nowRequestId (hs : JS.obj Http.HeaderValue) :
  List.NoDup (JS.obj_keys hs) ->
  (forall n, In n Spec.now_names -> Spec.exact_last n hs = true) ->
  Spec.carries_now_headers
    (Shared.writeResponseHeaders res nowRequestId (Some hs)) nowRequestId.
Proof.
  intros Hd Hx. unfold Spec.carries_now_headers.
  rewrite !writeResponseHeaders_get by exact Hd.
  change (JS.toLowerCase "x-now-trace") with "x-now-trace".
  change (JS.toLowerCase "x-now-id") with "x-now-id".
  change (JS.toLowerCase "x-now-cache") with "x-now-cache".
  rewrite !Hx by (simpl; auto). repeat split; reflexivity.
Qed.

Lemma writeResponseHeaders_section res nowRequestId hs :
  Shared.writeResponseHeaders res nowRequestId hs
  = Shared.writeResponseHeaders res nowRequestId
      (Some match hs with Some h => h | None => [] end).
Proof. destruct hs; reflexivity. Qed.

Lemma tryWriteResponseHeaders_accepted res nowRequestId hs :
  Http.accepted (Shared.allHeaders nowRequestId hs) = true ->
  Shared.tryWriteResponseHeaders res nowRequestId hs
  = (Shared.writeResponseHeaders res nowRequestId hs, None).
Proof. intros Ha. now apply trySetHeaders_accepted. Qed.

Lemma getHeader_lower res k n :
  JS.toLowerCase k = n -> JS.toLowerCase n = n ->
  Http.getHeader res k = Http.getHeader res n.
Proof. intros Hk Hn. unfold Http.getHeader. now rewrite Hn, Hk. Qed.

Lemma setHeaders_statusCode hs : forall res,
  Http.statusCode (Http.setHeaders res hs) = Http.statusCode res.
Proof. intros res. apply setHeaders_headers_frame. Qed.

Lemma writeResponseHeaders_statusCode res nowRequestId hs :
  Http.statusCode (Shared.writeResponseHeaders res nowRequestId hs)
  = Http.statusCode res.
Proof. unfold Shared.writeResponseHeaders. apply setHeaders_statusCode. Qed.

Lemma carries_headers res res' nowRequestId :
  Http.headers res' = Http.headers res ->
  Spec.carries_now_headers res nowRequestId ->
  Spec.carries_now_headers res' nowRequestId.
Proof.
  intros Hh. unfold Spec.carries_now_headers, Http.getHeader. now rewrite Hh.
Qed.

(** ** The earlier server: how a request is answered *)

Lemma v1_static_now ext srv req res nowRequestId :
  Spec.carries_now_headers
    (Http.response_of (DevServerV1.serveProjectAsStatic ext srv req res nowRequestId))
    nowRequestId.
Proof.
  unfold DevServerV1.serveProjectAsStatic.
  destruct (_ && _); simpl.
  - apply sendError_now.
  - apply writeResponseHeaders_default.
Qed.

Lemma blob_headers_distinct (n : Z) (mime : option string) :
  Spec.distinct_names
    (match mime with
     | Some contentType =>
         if String.eqb contentType EmptyString
         then [("Content-Length", Http.HNum n)]
         else JS.obj_set [("Content-Length", Http.HNum n)] "Content-Type"
                (Http.HStr contentType)
     | None => [("Content-Length", Http.HNum n)]
     end).
Proof.
  unfold Spec.distinct_names.
  destruct mime as [c|]; [destruct (String.eqb c EmptyString)|];
    vm_compute; repeat constructor; simpl; intuition discriminate.
Qed.

(** The answer of a function that Node takes: the status code, the
    headers and the body go out as they are written. *)
Lemma serveAsset_result ext req res nowRequestId r asset assetKey fn result :
  Types.asset_body asset = Types.Lambda (Some fn) ->
  DevServerV1.invoke ext fn (DevServerV1.invokePayload ext req nowRequestId r)
  = Types.FnReturns result ->
  Http.accepted (Shared.allHeaders nowRequestId (Types.result_headers result)) = true ->
  DevServerV1.serveAsset ext req res nowRequestId r asset assetKey
  = if Http.valid_status (Types.result_statusCode result)
    then
      Ok (Http.Ended
            (Http.end_
               (Shared.writeResponseHeaders
                  (Http.setStatusCode res (Types.result_statusCode result))
                  nowRequestId (Types.result_headers result))
               (DevServerV1.resultBody result)))
    else
      Throw
        (Http.refusal_message
           (Http.InvalidStatusCode (Types.result_statusCode result)),
         Shared.writeResponseHeaders
           (Http.setStatusCode res (Types.result_statusCode result))
           nowRequestId (Types.result_headers result)).
Proof.
  intros Ha Hinv Hacc. unfold DevServerV1.serveAsset. rewrite Ha, Hinv.
  rewrite tryWriteResponseHeaders_accepted by exact Hacc.
  rewrite writeResponseHeaders_statusCode. reflexivity.
Qed.



(** C1, as stated, fails: in the sample project the request for
    [/api/upstream] is handed to the proxy on a response that has no
    header, so that the client gets the headers of the upstream and no
    others; the redirect of [/old/page] is ended with status 301 and no
    header at all, and the function still to be built is answered by a
    500 without headers. *)
Lemma redirect_without_now_headers :
  let handle url :=
    snd (DevServerV1.devServerHandler Examples.sample_v1 Examples.sample_server_v1
           Examples.sample_entropy (Types.ReadOk Examples.sample_config)
           (Examples.get url) Http.fresh) in
  handle "/old/page"
  = Http.Ended
      (Http.mkResponse 301 [] true (Http.BodyText "Redirecting (301) to undefined")) /\
  ~ Spec.carries_now_headers (Http.response_of (handle "/old/page"))
      (Shared.generateRequestId Examples.sample_entropy) /\
  handle "/api/upstream" = Http.ProxyPass Http.fresh "https://example.com/api" /\
  handle "/api/pending"
  = Http.Ended
      (Http.mkResponse 500 [] true (Http.BodyText "Lambda function has not been built")).
Proof.
  intros handle. repeat split; try reflexivity.
  intros (H & _). vm_compute in H. discriminate.
Qed.

(** C1 (amended): which responses of the earlier server carry
    [x-now-trace: dev1], [x-now-id] with the trace id of the request and
    [x-now-cache: MISS].  They are on every response of the static
    handler and on every response written by [sendError] (the 404, the
    502 of an invocation that throws, the 500 of an unknown asset
    type); on a served file and on a blob; and on the answer to the
    result of a function, whatever its status code, when Node accepts
    the headers written and the result does not list a Now header under
    its plain name with another spelling of that name after it (the
    keys of a header object are distinct, as in any object).  They are
    not written where a function is not built yet.  And a request
    that reaches the handler while the server is not busy is answered
    in one of these ways, or handed to the proxy on the untouched
    response, or ended on the untouched headers: by a redirect, or by
    the 500 of a configuration that cannot be read or of a build that
    fails. *)
Theorem now_headers_on_served_responses
  (ext : DevServerV1.Collaborators) (srv : DevServerV1.DevServer)
  (req : Http.IncomingMessage) (res : Http.ServerResponse) (nowRequestId : string) :
  Spec.carries_now_headers
    (Http.response_of (DevServerV1.serveProjectAsStatic ext srv req res nowRequestId))
    nowRequestId /\
  (forall code message statusCode,
     Http.valid_status statusCode = true ->
     Spec.carries_now_headers
       (Shared.sendError res nowRequestId code message statusCode) nowRequestId) /\
  (forall r asset assetKey,
     let served := DevServerV1.serveAsset ext req res nowRequestId r asset assetKey in
     match Types.asset_body asset with
     | Types.FileFsRef _ | Types.FileBlob _ =>
         exists out,
           served = Ok out /\
           Spec.carries_now_headers (Http.response_of out) nowRequestId
     | Types.OtherAsset type =>
         exists res',
           served = Ok (Http.Ended res') /\
           Http.statusCode res' = 500%Z /\
           Spec.carries_now_headers res' nowRequestId
     | Types.Lambda None =>
         served
         = Ok (Http.Ended
                 (Http.end_ (Http.setStatusCode res 500%Z)
                    (Http.BodyText "Lambda function has not been built")))
     | Types.Lambda (Some fn) =>
         match
           DevServerV1.invoke ext fn (DevServerV1.invokePayload ext req nowRequestId r)
         with
         | Types.FnThrows =>
             exists res',
               served = Ok (Http.Ended res') /\
               Http.statusCode res' = 502%Z /\
               Spec.carries_now_headers res' nowRequestId
         | Types.FnReturns result =>
             List.NoDup (JS.obj_keys (Spec.returned_headers result)) ->
             Http.accepted (Shared.allHeaders nowRequestId (Types.result_headers result))
             = true ->
             (forall n, In n Spec.now_names ->
                        Spec.exact_last n (Spec.returned_headers result) = true) ->
             Spec.carries_now_headers (Http.response_of (Spec.sent served))
               nowRequestId
         end
     end) /\
  (forall entropy file,
     DevServerV1.status srv <> DevServerV1.busy ->
     Http.finished res = false ->
     nowRequestId = Shared.generateRequestId entropy ->
     let out := snd (DevServerV1.devServerHandler ext srv entropy file req res) in
     match DevServerV1.getNowJson file with
     | Throw message =>
         out = Http.Ended (Http.end_ (Http.setStatusCode res 500%Z)
                             (Http.BodyText message))
     | Ok None => out = DevServerV1.serveProjectAsStatic ext srv req res nowRequestId
     | Ok (Some nowJson) =>
         let r := DevServerV1.devRouter ext (Http.url req) (Types.routes nowJson) in
         let status := match Types.status r with Some s => s | None => 200%Z end in
         if DevServerV1.isURL ext (Types.dest r)
         then out = Http.ProxyPass res (Types.dest r)
         else if DevServerV1.is_redirect status
         then
           out
           = Http.Ended
               (Http.end_ (Http.setStatusCode res status)
                  (Http.BodyText
                     ("Redirecting (" ++ JS.string_of_Z status ++ ") to "
                      ++ Http.render (Http.getHeader res "location"))))
         else
           match Types.builds nowJson with
           | None => out = DevServerV1.serveProjectAsStatic ext srv req res nowRequestId
           | Some _ =>
               out = Http.Ended (Shared.send404 res nowRequestId) \/
               (exists message,
                  out = Http.Ended (Http.end_ (Http.setStatusCode res 500%Z)
                                      (Http.BodyText message))) \/
               (exists asset assetKey,
                  out = Spec.sent
                          (DevServerV1.serveAsset ext req res nowRequestId r
                             asset assetKey))
           end
     end).
Proof.
  split; [apply v1_static_now|]. split; [intros; apply sendError_now|]. split.
  - intros r asset assetKey served. unfold served, DevServerV1.serveAsset.
    destruct (Types.asset_body asset) as [fsPath|data|[fn|]|type].
    + eexists. split; [reflexivity|]. apply writeResponseHeaders_default.
    + eexists. split; [reflexivity|]. simpl.
      apply writeResponseHeaders_now, blob_headers_distinct.
    + destruct (DevServerV1.invoke ext fn _) as [|result] eqn:Hinv.
      * eexists. split; [reflexivity|].
        split; [apply writeResponseHeaders_statusCode|apply sendError_now].
      * intros Hd Hacc Hx.
        rewrite tryWriteResponseHeaders_accepted by exact Hacc.
        assert (Hw : Spec.carries_now_headers
                       (Shared.writeResponseHeaders
                          (Http.setStatusCode res (Types.result_statusCode result))
                          nowRequestId (Types.result_headers result))
                       nowRequestId).
        { rewrite writeResponseHeaders_section.
          now apply writeResponseHeaders_carries. }
        destruct (Http.valid_status _); simpl; [exact Hw|].
        destruct (Http.finished _); [exact Hw|].
        eapply carries_headers; [|exact Hw]. reflexivity.
    + reflexivity.
    + eexists. split; [reflexivity|].
      split; [apply writeResponseHeaders_statusCode|apply sendError_now].
  - intros entropy file Hs Hf -> out. unfold out, DevServerV1.devServerHandler.
    assert (Hcaught : forall message,
              DevServerV1.caught message res
              = Http.Ended (Http.end_ (Http.setStatusCode res 500%Z)
                              (Http.BodyText message))).
    { intros message. unfold DevServerV1.caught. now rewrite Hf. }
    assert (Hidle : forall (served : Exc DevServerV1.Thrown
                                       (DevServerV1.DevServer * Http.Outcome)) o,
              (match served with
               | Ok (_, out0) => out0 = o
               | Throw t =>
                   DevServerV1.caught (DevServerV1.thrown_message t)
                     (DevServerV1.thrown_response t) = o
               end) ->
              snd (match served with
                   | Ok (srv0, out0) => (DevServerV1.setStatusIdle srv0, out0)
                   | Throw (DevServerV1.mkThrown message res0 srv0) =>
                       (DevServerV1.setStatusIdle
                          (DevServerV1.setStatusError srv0 message),
                        DevServerV1.caught
                          (DevServerV1.statusMessage
                             (DevServerV1.setStatusError srv0 message)) res0)
                   end) = o).
    { intros [[srv0 out0]|[message res0 srv0]] o H; exact H. }
    destruct (DevServerV1.getNowJson file) as [[nowJson|]|message].
    2:{ destruct (DevServerV1.status srv); [reflexivity|now destruct Hs|reflexivity]. }
    2:{ destruct (DevServerV1.status srv);
          [apply Hcaught|now destruct Hs|apply Hcaught]. }
    cbv zeta.
    assert (Hserved :
              forall srv0 r asset assetKey o,
                Spec.sent (DevServerV1.serveAsset ext req res
                             (Shared.generateRequestId entropy) r asset assetKey) = o ->
                match
                  DevServerV1.serveResolved ext srv0 req res
                    (Shared.generateRequestId entropy) r asset assetKey
                with
                | Ok (_, out0) => out0 = o
                | Throw t =>
                    DevServerV1.caught (DevServerV1.thrown_message t)
                      (DevServerV1.thrown_response t) = o
                end).
    { intros srv0 r asset assetKey o. unfold DevServerV1.serveResolved.
      destruct (DevServerV1.serveAsset ext req res _ r asset assetKey)
        as [out0|[message res0]]; trivial. }
    assert (Hgoal :
              forall o,
                match
                  DevServerV1.serveProjectAsNowV2 ext srv req res
                    (Shared.generateRequestId entropy) nowJson
                with
                | Ok (_, out0) => out0 = o
                | Throw t =>
                    DevServerV1.caught (DevServerV1.thrown_message t)
                      (DevServerV1.thrown_response t) = o
                end ->
                snd (match DevServerV1.status srv with
                     | DevServerV1.busy =>
                         (srv,
                          Http.Ended
                            (Http.end_ res
                               (Http.BodyText
                                  ("[busy] " ++ DevServerV1.statusMessage srv ++ "..."))))
                     | _ =>
                         match
                           DevServerV1.serveProjectAsNowV2 ext srv req res
                             (Shared.generateRequestId entropy) nowJson
                         with
                         | Ok (srv0, out0) => (DevServerV1.setStatusIdle srv0, out0)
                         | Throw (DevServerV1.mkThrown message res0 srv0) =>
                             (DevServerV1.setStatusIdle
                                (DevServerV1.setStatusError srv0 message),
                              DevServerV1.caught
                                (DevServerV1.statusMessage
                                   (DevServerV1.setStatusError srv0 message)) res0)
                         end
                     end) = o).
    { intros o H.
      destruct (DevServerV1.status srv); [|now destruct Hs|]; now apply Hidle. }
    unfold DevServerV1.serveProjectAsNowV2 in Hgoal |- *. cbv zeta in Hgoal |- *.
    set (r := DevServerV1.devRouter ext (Http.url req) (Types.routes nowJson)) in *.
    set (status := match Types.status r with Some s => s | None => 200%Z end) in *.
    destruct (DevServerV1.isURL ext (Types.dest r)); [now apply Hgoal|].
    destruct (DevServerV1.is_redirect status); [now apply Hgoal|].
    destruct (Types.builds nowJson) as [bs|]; [|now apply Hgoal].
    destruct (Shared.resolveDest (DevServerV1.assets srv) (Types.dest r))
      as [[asset|] assetKey].
    2:{ left. now apply Hgoal. }
    destruct (String.eqb assetKey EmptyString); [left; now apply Hgoal|].
    destruct (if Shared.shouldRebuild req then Types.buildEntry asset else None).
    2:{ right. right. exists asset, assetKey. apply Hgoal. now apply Hserved. }
    destruct (DevServerV1.executeBuild ext nowJson (DevServerV1.assets srv) asset)
      as [rebuilt|message].
    2:{ right. left. exists message. apply Hgoal. apply Hcaught. }
    destruct (Shared.resolveDest
                (DevServerV1.assets (DevServerV1.setAssets srv rebuilt)) (Types.dest r))
      as [[asset'|] assetKey'].
    2:{ left. now apply Hgoal. }
    destruct (String.eqb assetKey' EmptyString); [left; now apply Hgoal|].
    right. right. exists asset', assetKey'. apply Hgoal. now apply Hserved.
Qed.

Lemma now_headers_on_served_responses_witness :
  Spec.carries_now_headers
    (Http.response_of
       (Spec.sent
          (DevServerV1.serveAsset Examples.sample_v1 (Examples.get "/api/cached")
             Http.fresh "a-1-b" (Examples.sample_router "/api/cached")
             (Types.mkOutput (Types.Lambda (Some "cached")) None None) "api/cached")))
    "a-1-b".
Proof.
  destruct (now_headers_on_served_responses Examples.sample_v1
              Examples.sample_server_v1 (Examples.get "/api/cached") Http.fresh "a-1-b")
    as (_ & _ & Hserve & _).
  specialize (Hserve (Examples.sample_router "/api/cached")
                (Types.mkOutput (Types.Lambda (Some "cached")) None None) "api/cached").
  simpl in Hserve. apply Hserve.
  - repeat constructor. simpl. tauto.
  - reflexivity.
  - intros n [<-|[<-|[<-|[]]]]; reflexivity.
Defined.

(** ** The earlier server: the answer of a function *)


Lemma resultBody_decoded result s :
  Types.result_encoding result = Some "base64" ->
  Types.result_body result = Types.ResultString s ->
  DevServerV1.resultBody result = Http.BodyBytes (Buffer.from_base64 s).
Proof. unfold DevServerV1.resultBody. now intros -> ->. Qed.




(** End to end: the request for [/api/hello] of the sample project is
    answered with status 200 and the body [hello]. *)
Lemma hello_end_to_end :
  let out :=
    snd (DevServerV1.devServerHandler Examples.sample_v1 Examples.sample_server_v1
           Examples.sample_entropy (Types.ReadOk Examples.sample_config)
           (Examples.get "/api/hello") Http.fresh) in
  Http.statusCode (Http.response_of out) = 200%Z /\
  Http.body (Http.response_of out) = Http.BodyBytes (list_byte_of_string "hello") /\
  Http.finished (Http.response_of out) = true.
Proof. repeat split; reflexivity. Qed.

(** A function that answers with the status code 0, and one that
    answers with a header name that is no token: the client gets the
    500 of the [catch] block with Node's message. *)
Example refused_results :
  let relay result :=
    Spec.sent
      (DevServerV1.serveAsset
         (DevServerV1.mkCollaborators
            (fun url _ => Examples.sample_router url) Examples.sample_isURL
            (fun _ => false) (fun _ assets _ => Ok assets) (fun _ assets => Ok assets)
            (fun _ => None) (fun _ _ => Types.FnReturns result)
            (fun url _ => url) (fun path => path) (fun path => path))
         (Examples.get "/api/hello") Http.fresh "a-1-b"
         (Examples.sample_router "/api/hello")
         (Types.mkOutput (Types.Lambda (Some "hello")) None None) "api/hello") in
  relay (Types.mkResult 0 None None (Types.ResultString "ok"))
  = Http.Ended
      (Http.mkResponse 500
         [("x-now-trace", ("x-now-trace", Http.HStr "dev1"));
          ("x-now-id", ("x-now-id", Http.HStr "a-1-b"));
          ("x-now-cache", ("x-now-cache", Http.HStr "MISS"))]
         true (Http.BodyText "Invalid status code: 0")) /\
  relay (Types.mkResult 200 (Some [("bad name", Http.HStr "v")]) None
           (Types.ResultString "ok"))
  = Http.Ended
      (Http.mkResponse 500 [] true
         (Http.BodyText
            ("Header name must be a valid HTTP token [" ++ JS.quote ++ "bad name"
             ++ JS.quote ++ "]"))).
Proof. split; reflexivity. Qed.

(** ** Redirects *)

Lemma last_named_map {A B} (f : A -> B) (hs : JS.obj A) n :
  Spec.last_named (map (fun nv => (fst nv, f (snd nv))) hs) n
  = option_map f (Spec.last_named hs n).
Proof.
  induction hs as [|[k v] hs IH]; simpl; [reflexivity|].
  rewrite IH. destruct (Spec.last_named hs n); simpl; [reflexivity|].
  destruct (String.eqb _ _); reflexivity.
Qed.

Lemma route_headers_set r res name :
  Http.getHeader (Http.setHeaders res (DevServer.routeHeaders r)) name
  = match
      Spec.last_named (match Types.route_headers r with Some h => h | None => [] end)
        name
    with
    | Some v => Some (Http.HStr v)
    | None => Http.getHeader res name
    end.
Proof.
  unfold DevServer.routeHeaders.
  rewrite getHeader_setHeaders, last_named_map.
  destruct (Spec.last_named _ name); reflexivity.
Qed.

Lemma is_redirect_codes status :
  status = 301%Z \/ status = 302%Z \/ status = 303%Z ->
  DevServer.is_redirect status = true.
Proof. intros [->|[->| ->]]; reflexivity. Qed.

(** What follows the routing when Node accepts the headers of the
    matched route. *)
Lemma respond_accepted ext r res :
  Http.accepted (DevServer.routeHeaders r) = true ->
  DevServer.respond ext r res
  = let status := match Types.status r with Some s => s | None => 200%Z end in
    let res1 := Http.setHeaders res (DevServer.routeHeaders r) in
    if DevServer.isURL ext (Types.dest r) then Ok (Http.ProxyPass res1 (Types.dest r))
    else if DevServer.is_redirect status then
      Ok (Http.Ended
            (Http.end_ (Http.setStatusCode res1 status)
               (Http.BodyText
                  ("Redirecting (" ++ JS.string_of_Z status ++ ") to "
                   ++ Http.render (Http.getHeader res1 "location")))))
    else Ok (Http.Ended (Http.end_ res1 Http.BodyNone)).
Proof.
  intros Ha. unfold DevServer.respond.
  rewrite trySetHeaders_accepted by exact Ha. reflexivity.
Qed.

(** What follows the routing when Node refuses one of them. *)
Lemma respond_refused ext r res :
  Http.accepted (DevServer.routeHeaders r) = false ->
  exists before name value after e,
    DevServer.routeHeaders r = (before ++ (name, value) :: after)%list /\
    Http.accepted before = true /\
    Http.refuses name value = Some e /\
    DevServer.respond ext r res
    = Throw (DevServer.Error (Some (Http.refusal_code e)) (Http.refusal_message e),
             Http.setHeaders res before).
Proof.
  intros Ha. unfold DevServer.respond.
  destruct (trySetHeaders_refused _ res Ha)
    as (before & name & value & after & e & Hsplit & Hb & He & Hrun).
  exists before, name, value, after, e. rewrite Hrun. auto.
Qed.

(** A request the later server routes. *)
Lemma later_handler_routes ext srv entropy file nowJson ms req res :
  DevServer.stopping srv = false ->
  DevServer.getNowJson srv file = Ok (Some nowJson) ->
  DevServer.devServerHandler ext srv entropy file (Ok ms) req res
  = (DevServer.updateBuildMatches srv ms,
     match
       DevServer.respond ext
         (DevServer.devRouter ext (Http.url req) (Types.routes nowJson)
            (DevServer.hasFilesystem (DevServer.updateBuildMatches srv ms))) res
     with
     | Ok out => out
     | Throw (e, res0) => DevServer.internalError ext res0 e
     end).
Proof.
  intros Hs Hg. unfold DevServer.devServerHandler. rewrite Hs, Hg.
  unfold DevServer.serveProjectAsNowV2, DevServer.route.
  destruct (DevServer.respond ext _ res) as [out|[e res0]]; reflexivity.
Qed.

(** A redirect of the earlier server. *)
Lemma v1_handler_redirects ext srv entropy file nowJson req res status :
  let r := DevServerV1.devRouter ext (Http.url req) (Types.routes nowJson) in
  DevServerV1.status srv <> DevServerV1.busy ->
  DevServerV1.getNowJson file = Ok (Some nowJson) ->
  Types.status r = Some status ->
  DevServerV1.is_redirect status = true ->
  DevServerV1.isURL ext (Types.dest r) = false ->
  DevServerV1.devServerHandler ext srv entropy file req res
  = (DevServerV1.setStatusIdle srv,
     Http.Ended
       (Http.end_ (Http.setStatusCode res status)
          (Http.BodyText
             ("Redirecting (" ++ JS.string_of_Z status ++ ") to "
              ++ Http.render (Http.getHeader res "location"))))).
Proof.
  intros r Hs Hcfg Hst Hred Hurl. subst r.
  unfold DevServerV1.devServerHandler. rewrite Hcfg.
  unfold DevServerV1.serveProjectAsNowV2. cbv zeta.
  rewrite Hurl, Hst, Hred.
  destruct (DevServerV1.status srv); [reflexivity|now destruct Hs|reflexivity].
Qed.

(** C5: a routing decision with status 301, 302 or 303 and a destination
    that is not a URL.  The later server sets the headers of the matched
    route on the response (when a name is listed twice the last value
    wins) and ends it with that status and the body
    [Redirecting (<status>) to <location>], the location being the value
    of the [Location] header; the assets are those of before the
    request, and with the same answer of the router the response is the
    same whatever the assets are.  That holds for headers Node accepts:
    when it refuses one, the answer is the 500 of the [catch] block with
    the message of Node's error, on the headers before the refused one.
    The earlier server never sets the headers of the matched route: it
    ends the response with that status on the headers the response had,
    and the location of the body is read from these; on the response of
    a request, which has no header, the body says
    [Redirecting (<status>) to undefined], as for [/old/page] of the
    sample project, whose rule has [Location: /new/page]. *)
Theorem redirect_response :
  (forall ext srv entropy file nowJson ms req res status,
     DevServer.stopping srv = false ->
     DevServer.getNowJson srv file = Ok (Some nowJson) ->
     let srv1 := DevServer.updateBuildMatches srv ms in
     let r :=
       DevServer.devRouter ext (Http.url req) (Types.routes nowJson)
         (DevServer.hasFilesystem srv1) in
     let hs := match Types.route_headers r with Some h => h | None => [] end in
     Types.status r = Some status ->
     status = 301%Z \/ status = 302%Z \/ status = 303%Z ->
     DevServer.isURL ext (Types.dest r) = false ->
     (Http.accepted (DevServer.routeHeaders r) = true ->
      exists res',
        DevServer.devServerHandler ext srv entropy file (Ok ms) req res
        = (srv1, Http.Ended res') /\
        DevServer.assets srv1 = DevServer.assets srv /\
        Http.statusCode res' = status /\
        (forall name,
           Http.getHeader res' name
           = match Spec.last_named hs name with
             | Some v => Some (Http.HStr v)
             | None => Http.getHeader res name
             end) /\
        (Spec.distinct_names hs ->
         forall k v, In (k, v) hs -> Http.getHeader res' k = Some (Http.HStr v)) /\
        Http.body res'
        = Http.BodyText
            ("Redirecting (" ++ JS.string_of_Z status ++ ") to "
             ++ Http.render (Http.getHeader res' "location")) /\
        (forall loc,
           Spec.last_named hs "Location" = Some loc ->
           Http.body res'
           = Http.BodyText
               ("Redirecting (" ++ JS.string_of_Z status ++ ") to " ++ loc)) /\
        (forall assets',
           DevServer.devRouter ext (Http.url req) (Types.routes nowJson)
             (DevServer.hasFilesystem (Spec.with_assets srv1 assets')) = r ->
           DevServer.devServerHandler ext (Spec.with_assets srv assets') entropy file
             (Ok ms) req res
           = (Spec.with_assets srv1 assets', Http.Ended res'))) /\
     (Http.accepted (DevServer.routeHeaders r) = false ->
      Http.finished res = false ->
      exists res' e before name value after,
        DevServer.routeHeaders r = (before ++ (name, value) :: after)%list /\
        Http.accepted before = true /\
        Http.refuses name value = Some e /\
        DevServer.devServerHandler ext srv entropy file (Ok ms) req res
        = (srv1, Http.Ended res') /\
        DevServer.assets srv1 = DevServer.assets srv /\
        Http.statusCode res' = 500%Z /\
        Http.body res' = Http.BodyText (Http.refusal_message e) /\
        Http.headers res' = Http.headers (Http.setHeaders res before))) /\
  (forall ext srv entropy file nowJson req res status,
     DevServerV1.status srv <> DevServerV1.busy ->
     DevServerV1.getNowJson file = Ok (Some nowJson) ->
     let r := DevServerV1.devRouter ext (Http.url req) (Types.routes nowJson) in
     Types.status r = Some status ->
     status = 301%Z \/ status = 302%Z \/ status = 303%Z ->
     DevServerV1.isURL ext (Types.dest r) = false ->
     exists res',
       DevServerV1.devServerHandler ext srv entropy file req res
       = (DevServerV1.setStatusIdle srv, Http.Ended res') /\
       DevServerV1.assets (DevServerV1.setStatusIdle srv) = DevServerV1.assets srv /\
       Http.statusCode res' = status /\
       Http.headers res' = Http.headers res /\
       Http.body res'
       = Http.BodyText
           ("Redirecting (" ++ JS.string_of_Z status ++ ") to "
            ++ Http.render (Http.getHeader res "location")) /\
       (Http.headers res = [] ->
        Http.body res'
        = Http.BodyText
            ("Redirecting (" ++ JS.string_of_Z status ++ ") to undefined"))) /\
  Types.route_headers (Examples.sample_router "/old/page")
  = Some [("Location", "/new/page")] /\
  snd (DevServerV1.devServerHandler Examples.sample_v1 Examples.sample_server_v1
         Examples.sample_entropy (Types.ReadOk Examples.sample_config)
         (Examples.get "/old/page") Http.fresh)
  = Http.Ended
      (Http.mkResponse 301 [] true (Http.BodyText "Redirecting (301) to undefined")) /\
  snd (DevServer.devServerHandler Examples.sample_ext Examples.sample_server
         Examples.sample_entropy (Types.ReadOk Examples.sample_config) (Ok [])
         (Examples.get "/old/page") Http.fresh)
  = Http.Ended
      (Http.mkResponse 301 [("location", ("Location", Http.HStr "/new/page"))] true
         (Http.BodyText "Redirecting (301) to /new/page")).
Proof.
  split; [|split; [|repeat split; reflexivity]].
  - intros ext srv entropy file nowJson ms req res status Hs Hg srv1 r hs
      Hst Hcode Hurl.
    assert (Hany : forall srv0,
               DevServer.stopping srv0 = false ->
               DevServer.getNowJson srv0 file = Ok (Some nowJson) ->
               DevServer.devRouter ext (Http.url req) (Types.routes nowJson)
                 (DevServer.hasFilesystem (DevServer.updateBuildMatches srv0 ms)) = r ->
               DevServer.devServerHandler ext srv0 entropy file (Ok ms) req res
               = (DevServer.updateBuildMatches srv0 ms,
                  match DevServer.respond ext r res with
                  | Ok out => out
                  | Throw (e, res0) => DevServer.internalError ext res0 e
                  end)).
    { intros srv0 Hs0 Hg0 Hr0.
      rewrite (later_handler_routes _ _ _ _ _ _ _ _ Hs0 Hg0). now rewrite Hr0. }
    rewrite (Hany srv Hs Hg eq_refl). fold srv1. split.
    + intros Hacc.
      assert (Hother : forall assets',
                 DevServer.devRouter ext (Http.url req) (Types.routes nowJson)
                   (DevServer.hasFilesystem (Spec.with_assets srv1 assets')) = r ->
                 DevServer.devServerHandler ext (Spec.with_assets srv assets') entropy
                   file (Ok ms) req res
                 = (Spec.with_assets srv1 assets',
                    match DevServer.respond ext r res with
                    | Ok out => out
                    | Throw (e, res0) => DevServer.internalError ext res0 e
                    end)).
      { intros assets' Hr'. apply (Hany (Spec.with_assets srv assets')); assumption. }
      revert Hother. rewrite (respond_accepted ext r res Hacc). cbv zeta.
      rewrite Hst, Hurl, (is_redirect_codes status Hcode). intros Hother.
      eexists. split; [reflexivity|]. split; [reflexivity|]. split; [reflexivity|].
      assert (Hget : forall name,
                 Http.getHeader (Http.setHeaders res (DevServer.routeHeaders r)) name
                 = match Spec.last_named hs name with
                   | Some v => Some (Http.HStr v)
                   | None => Http.getHeader res name
                   end).
      { intros name. apply route_headers_set. }
      split; [exact Hget|]. split; [|split; [|split; [|exact Hother]]].
      * intros Hd k v Hin.
        change (Http.getHeader (Http.setHeaders res (DevServer.routeHeaders r)) k
                = Some (Http.HStr v)).
        rewrite Hget. now rewrite (last_named_distinct hs k v).
      * reflexivity.
      * intros loc Hloc. cbn [Http.body Http.end_]. do 3 f_equal.
        change (Http.getHeader (Http.setHeaders res (DevServer.routeHeaders r))
                  "location")
          with (Http.getHeader (Http.setHeaders res (DevServer.routeHeaders r))
                  "Location").
        rewrite Hget, Hloc. reflexivity.
    + intros Hacc Hf.
      destruct (respond_refused ext r res Hacc)
        as (before & name & value & after & e & Hsplit & Hb & He & Hrun).
      rewrite Hrun. unfold DevServer.internalError.
      assert (Hfin : Http.finished (Http.setHeaders res before) = false).
      { destruct (setHeaders_headers_frame before res) as (_ & -> & _). exact Hf. }
      rewrite Hfin. eexists. exists e, before, name, value, after.
      repeat split; try reflexivity; assumption.
  - intros ext srv entropy file nowJson req res status Hs Hcfg r Hst Hcode Hurl.
    rewrite (v1_handler_redirects ext srv entropy file nowJson req res status
               Hs Hcfg Hst (is_redirect_codes status Hcode) Hurl).
    eexists. split; [reflexivity|]. split; [reflexivity|]. split; [reflexivity|].
    split; [reflexivity|]. split; [reflexivity|].
    intros Hnone. cbn [Http.body Http.end_]. unfold Http.getHeader.
    rewrite Hnone. reflexivity.
Qed.

Lemma redirect_response_witness :
  exists res',
    DevServer.devServerHandler Examples.sample_ext Examples.sample_server
      Examples.sample_entropy (Types.ReadOk Examples.sample_config) (Ok [])
      (Examples.get "/old/page") Http.fresh
    = (Examples.sample_server, Http.Ended res') /\
    Http.statusCode res' = 301%Z /\
    Http.getHeader res' "Location" = Some (Http.HStr "/new/page") /\
    Http.body res' = Http.BodyText "Redirecting (301) to /new/page".
Proof.
  destruct redirect_response as (Hlater & _).
  destruct (Hlater Examples.sample_ext Examples.sample_server
              Examples.sample_entropy (Types.ReadOk Examples.sample_config)
              Examples.sample_config [] (Examples.get "/old/page") Http.fresh 301%Z)
    as (Hok & _).
  - reflexivity.
  - reflexivity.
  - reflexivity.
  - now left.
  - reflexivity.
  - destruct (Hok eq_refl)
      as (res' & Hrun & _ & Hstatus & _ & Hset & _ & Hbody & _).
    exists res'. split; [exact Hrun|]. split; [exact Hstatus|]. split.
    + apply Hset; [repeat constructor; simpl; tauto | simpl; auto].
    + apply (Hbody "/new/page"). reflexivity.
Defined.

(** ** The later server: shutdown *)

Lemma destroy_ops_start asset st :
  In st (DevServer.destroy_ops asset) -> st <> DevServer.SetStopping.
Proof.
  unfold DevServer.destroy_ops.
  destruct (Types.asset_body asset) as [| |[fn|]|]; simpl; try tauto.
  intros [<-|[]]. discriminate.
Qed.

Lemma stop_steps_tail (assets : Types.BuilderOutputs) :
  ~ In DevServer.SetStopping
      (flat_map DevServer.destroy_ops (JS.obj_values assets)
       ++ [DevServer.Start DevServer.Close]).
Proof.
  intros H. apply in_app_or in H as [H|[H|[]]]; [|discriminate].
  apply in_flat_map in H as (asset & _ & H).
  now apply destroy_ops_start in H.
Qed.

Lemma stopping_answer ext srv entropy file matches req res :
  DevServer.stopping srv = true ->
  DevServer.devServerHandler ext srv entropy file matches req res
  = (srv,
     Http.Ended
       (Shared.send404 (Http.setHeader res "Connection" (Http.HStr "close"))
          (Shared.generateRequestId entropy))).
Proof. intros Hs. unfold DevServer.devServerHandler. now rewrite Hs. Qed.

Lemma send404_connection_close res nowRequestId :
  let res' :=
    Shared.send404 (Http.setHeader res "Connection" (Http.HStr "close")) nowRequestId in
  Http.statusCode res' = 404%Z /\
  Http.getHeader res' "Connection" = Some (Http.HStr "close") /\
  Http.finished res' = true /\
  Http.body res'
  = Http.BodyText
      ("404: The page could not be found" ++ JS.nl ++ "Code: FILE_NOT_FOUND" ++ JS.nl).
Proof.
  intros res'. unfold res', Shared.send404, Shared.sendError.
  split; [apply writeResponseHeaders_statusCode|].
  split; [|split; reflexivity].
  change (Http.getHeader
            (Shared.writeResponseHeaders
               (Http.setStatusCode
                  (Http.setHeader res "Connection" (Http.HStr "close")) 404)
               nowRequestId None) "Connection"
          = Some (Http.HStr "close")).
  unfold Shared.writeResponseHeaders, Shared.allHeaders. rewrite getHeader_setHeaders. simpl.
  change (Http.getHeader (Http.setHeader res "Connection" (Http.HStr "close"))
            "Connection" = Some (Http.HStr "close")).
  rewrite getHeader_setHeader. now rewrite String.eqb_refl.
Qed.

(** C8: a second [stop] changes nothing and starts nothing; the first
    one raises the [stopping] flag before anything else, starts
    [destroy()] for the function of every Lambda asset that has one and
    the closing of the socket, and resolves only once the socket has
    closed; from then on every request is answered by the 404
    [FILE_NOT_FOUND] response with [Connection: close], whatever the
    configuration, the router and the assets are. *)
Theorem stop_is_idempotent_and_final :
  (forall srv, DevServer.stop (fst (DevServer.stop srv)) = (fst (DevServer.stop srv), [])) /\
  (forall srv, DevServer.stopping (fst (DevServer.stop srv)) = true) /\
  (forall srv,
     DevServer.stopping srv = false ->
     exists ops,
       snd (DevServer.stop srv) = DevServer.SetStopping :: ops /\
       ~ In DevServer.SetStopping ops) /\
  (forall srv key asset fn,
     DevServer.stopping srv = false ->
     In (key, asset) (DevServer.assets srv) ->
     Types.asset_body asset = Types.Lambda (Some fn) ->
     In (DevServer.Start (DevServer.Destroy fn)) (snd (DevServer.stop srv))) /\
  (forall srv settled,
     DevServer.stopping srv = false ->
     DevServer.stop_resolved (snd (DevServer.stop srv)) settled = true ->
     settled DevServer.Close = true) /\
  (forall ext srv entropy file matches req res,
     DevServer.stopping srv = true ->
     exists res',
       DevServer.devServerHandler ext srv entropy file matches req res
       = (srv, Http.Ended res') /\
       Http.statusCode res' = 404%Z /\
       Http.getHeader res' "Connection" = Some (Http.HStr "close") /\
       Http.body res'
       = Http.BodyText
           ("404: The page could not be found" ++ JS.nl
            ++ "Code: FILE_NOT_FOUND" ++ JS.nl) /\
       forall ext' file' matches' assets',
         DevServer.devServerHandler ext' (Spec.with_assets srv assets') entropy
           file' matches' req res
         = (Spec.with_assets srv assets', Http.Ended res')).
Proof.
  split; [|split; [|split; [|split; [|split]]]].
  - intros srv. unfold DevServer.stop.
    destruct (DevServer.stopping srv) eqn:E; simpl; [now rewrite E|reflexivity].
  - intros srv. unfold DevServer.stop.
    destruct (DevServer.stopping srv) eqn:E; simpl; [exact E|reflexivity].
  - intros srv Hs. unfold DevServer.stop. rewrite Hs. simpl.
    eexists. split; [reflexivity|]. apply stop_steps_tail.
  - intros srv key asset fn Hs Hin Ha. unfold DevServer.stop. rewrite Hs. simpl.
    right. apply in_or_app. left. apply in_flat_map. exists asset. split.
    + unfold JS.obj_values. now apply (in_map snd) in Hin.
    + unfold DevServer.destroy_ops. rewrite Ha. now left.
  - intros srv settled Hs. unfold DevServer.stop, DevServer.stop_resolved.
    rewrite Hs. simpl. rewrite forallb_app. simpl.
    intros H. apply andb_true_iff in H as [_ H]. now rewrite andb_true_r in H.
  - intros ext srv entropy file matches req res Hs.
    destruct (send404_connection_close res (Shared.generateRequestId entropy))
      as (H404 & Hclose & _ & Hbody).
    eexists. split; [now apply stopping_answer|].
    split; [exact H404|]. split; [exact Hclose|]. split; [exact Hbody|].
    intros ext' file' matches' assets'. now apply stopping_answer.
Qed.

Lemma stop_is_idempotent_and_final_witness :
  let stopped := fst (DevServer.stop Examples.sample_server) in
  snd (DevServer.stop Examples.sample_server)
  = [DevServer.SetStopping;
     DevServer.Start (DevServer.Destroy "hello");
     DevServer.Start (DevServer.Destroy "cached");
     DevServer.Start (DevServer.Destroy "broken");
     DevServer.Start DevServer.Close] /\
  In (DevServer.Start (DevServer.Destroy "hello"))
    (snd (DevServer.stop Examples.sample_server)) /\
  DevServer.stop stopped = (stopped, []) /\
  exists res',
    DevServer.devServerHandler Examples.sample_ext stopped Examples.sample_entropy
      (Types.ReadOk Examples.sample_config) (Ok []) (Examples.get "/api/hello")
      Http.fresh
    = (stopped, Http.Ended res') /\
    Http.statusCode res' = 404%Z /\
    Http.getHeader res' "Connection" = Some (Http.HStr "close").
Proof.
  intros stopped.
  destruct stop_is_idempotent_and_final as (Hidem & _ & _ & Hdestroy & _ & Hreq).
  split; [reflexivity|]. split; [|split].
  - apply (Hdestroy Examples.sample_server "api/hello"
             (Types.mkOutput (Types.Lambda (Some "hello")) None None) "hello").
    + reflexivity.
    + simpl. auto.
    + reflexivity.
  - apply Hidem.
  - destruct (Hreq Examples.sample_ext stopped Examples.sample_entropy
                (Types.ReadOk Examples.sample_config) (Ok [])
                (Examples.get "/api/hello") Http.fresh eq_refl)
      as (res' & Hrun & H404 & Hclose & _).
    exists res'. auto.
Defined.

(** ** The later server: requests under way at the same time *)

Lemma resume_frame ext srv t c :
  DevServer.inProgressBuilds (fst (DevServer.resume ext srv t c))
  = DevServer.inProgressBuilds srv /\
  DevServer.assets (fst (DevServer.resume ext srv t c)) = DevServer.assets srv.
Proof.
  destruct t as [req res nowRequestId|req res nowJson|req res nowJson|out];
    destruct c as [file| |matches]; simpl; auto.
  - destruct (DevServer.getNowJson srv file) as [[nowJson|]|e]; simpl; auto.
  - unfold DevServer.serveProjectAsNowV2. destruct matches as [ms|e]; simpl; auto.
    destruct (DevServer.route ext _ req res nowJson) as [out|[e res0]]; simpl; auto.
Qed.

Lemma step_frame ext s s' :
  DevServer.step ext s s' ->
  DevServer.inProgressBuilds (DevServer.server s')
  = DevServer.inProgressBuilds (DevServer.server s) /\
  DevServer.assets (DevServer.server s') = DevServer.assets (DevServer.server s).
Proof.
  intros [srv ts entropy req res|srv ts i t c _|srv ts]; simpl.
  - auto.
  - apply resume_frame.
  - unfold DevServer.stop. destruct (DevServer.stopping srv); simpl; auto.
Qed.

(** No run of the later server, however its requests interleave, adds a
    build under way or changes an asset. *)
Lemma reachable_frame ext s s' :
  DevServer.reachable ext s s' ->
  DevServer.inProgressBuilds (DevServer.server s')
  = DevServer.inProgressBuilds (DevServer.server s) /\
  DevServer.assets (DevServer.server s') = DevServer.assets (DevServer.server s).
Proof.
  induction 1 as [s|s1 s2 s3 _ [IHb IHa] Hstep]; [auto|].
  destruct (step_frame ext s2 s3 Hstep) as [Hb Ha]. split; congruence.
Qed.

Lemma no_build_ever_in_progress ext cwd process_env s' :
  DevServer.reachable ext
    (DevServer.mkSystem (DevServer.constructor cwd process_env) []) s' ->
  DevServer.inProgressBuilds (DevServer.server s') = ∅ /\
  DevServer.assets (DevServer.server s') = [].
Proof. intros H. now apply reachable_frame in H. Qed.

(** The handler is the run of its stages one after the other. *)
Lemma devServerHandler_stages ext srv entropy file matches req res :
  DevServer.devServerHandler ext srv entropy file matches req res
  = match DevServer.accept srv entropy req res with
    | DevServer.Finished out => (srv, out)
    | t =>
        let (srv1, t1) := DevServer.resume ext srv t (DevServer.ConfigRead file) in
        let (srv2, t2) := DevServer.resume ext srv1 t1 DevServer.FilesCollected in
        let (srv3, t3) :=
          DevServer.resume ext srv2 t2 (DevServer.BuildsMatched matches) in
        match t3 with
        | DevServer.Finished out => (srv3, out)
        | _ => (srv3, DevServer.internalError ext res (DevServer.Error None EmptyString))
        end
    end.
Proof.
  unfold DevServer.devServerHandler, DevServer.accept.
  destruct (DevServer.stopping srv); [reflexivity|]. simpl.
  destruct (DevServer.getNowJson srv file) as [[nowJson|]|e]; simpl; try reflexivity.
  destruct (DevServer.serveProjectAsNowV2 ext srv req res nowJson matches)
    as [[srv0 out]|[e res0 srv0]]; reflexivity.
Qed.

(** C3: two hard refreshes of the same built page, both under way at
    the same time on the later server.  Each is routed and ended with an
    empty 200 response; at no point of the run is a build recorded as
    under way, and the asset is the one of before: no build took place,
    where the claim has exactly one. *)
Theorem concurrent_refreshes_start_no_build :
  let request := Examples.refresh "/pages/index.html" in
  let config := Types.ReadOk Examples.sample_config in
  Shared.shouldRebuild request = true /\
  fst (Shared.resolveDest (DevServer.assets Examples.page_server) "/pages/index.html")
  = Some Examples.page_asset /\
  DevServer.reachable Examples.sample_ext
    (DevServer.mkSystem Examples.page_server [])
    (DevServer.mkSystem Examples.page_server
       [DevServer.MatchingBuilds request Http.fresh Examples.sample_config;
        DevServer.MatchingBuilds request Http.fresh Examples.sample_config]) /\
  DevServer.reachable Examples.sample_ext
    (DevServer.mkSystem Examples.page_server
       [DevServer.MatchingBuilds request Http.fresh Examples.sample_config;
        DevServer.MatchingBuilds request Http.fresh Examples.sample_config])
    (DevServer.mkSystem Examples.page_server
       [DevServer.Finished Examples.empty_response;
        DevServer.Finished Examples.empty_response]) /\
  DevServer.inProgressBuilds Examples.page_server = ∅ /\
  DevServer.devServerHandler Examples.sample_ext Examples.page_server
    Examples.sample_entropy config (Ok []) request Http.fresh
  = (Examples.page_server, Examples.empty_response).
Proof.
  intros request config.
  pose (ext := Examples.sample_ext).
  pose (srv := Examples.page_server).
  pose (cfg := Examples.sample_config).
  pose (reading := DevServer.ReadingConfig request Http.fresh
                     (Shared.generateRequestId Examples.sample_entropy)).
  pose (collecting := DevServer.CollectingFiles request Http.fresh cfg).
  pose (matching := DevServer.MatchingBuilds request Http.fresh cfg).
  pose (done := DevServer.Finished Examples.empty_response).
  split; [reflexivity|]. split; [reflexivity|]. split; [|split; [|split; reflexivity]].
  - apply (DevServer.reach_step ext _ (DevServer.mkSystem srv [matching; collecting]));
      [|exact (DevServer.step_resume ext srv [matching; collecting] 1 collecting
                 DevServer.FilesCollected eq_refl)].
    apply (DevServer.reach_step ext _ (DevServer.mkSystem srv [collecting; collecting]));
      [|exact (DevServer.step_resume ext srv [collecting; collecting] 0 collecting
                 DevServer.FilesCollected eq_refl)].
    apply (DevServer.reach_step ext _ (DevServer.mkSystem srv [collecting; reading]));
      [|exact (DevServer.step_resume ext srv [collecting; reading] 1 reading
                 (DevServer.ConfigRead config) eq_refl)].
    apply (DevServer.reach_step ext _ (DevServer.mkSystem srv [reading; reading]));
      [|exact (DevServer.step_resume ext srv [reading; reading] 0 reading
                 (DevServer.ConfigRead config) eq_refl)].
    apply (DevServer.reach_step ext _ (DevServer.mkSystem srv [reading]));
      [|exact (DevServer.step_accept ext srv [reading] Examples.sample_entropy
                 request Http.fresh)].
    apply (DevServer.reach_step ext _ (DevServer.mkSystem srv []));
      [|exact (DevServer.step_accept ext srv [] Examples.sample_entropy
                 request Http.fresh)].
    apply DevServer.reach_refl.
  - apply (DevServer.reach_step ext _ (DevServer.mkSystem srv [done; matching]));
      [|exact (DevServer.step_resume ext srv [done; matching] 1 matching
                 (DevServer.BuildsMatched (Ok [])) eq_refl)].
    apply (DevServer.reach_step ext _ (DevServer.mkSystem srv [matching; matching]));
      [|exact (DevServer.step_resume ext srv [matching; matching] 0 matching
                 (DevServer.BuildsMatched (Ok [])) eq_refl)].
    apply DevServer.reach_refl.
Qed.

(** The earlier server runs the builder for every hard refresh of an
    asset that has a build entry: nothing is looked up or recorded
    before [executeBuild] is called. *)
Lemma v1_refresh_runs_builder ext srv req res nowRequestId nowJson bs asset assetKey entry :
  let r := DevServerV1.devRouter ext (Http.url req) (Types.routes nowJson) in
  DevServerV1.isURL ext (Types.dest r) = false ->
  DevServerV1.is_redirect (match Types.status r with Some s => s | None => 200%Z end)
  = false ->
  Types.builds nowJson = Some bs ->
  Shared.resolveDest (DevServerV1.assets srv) (Types.dest r) = (Some asset, assetKey) ->
  assetKey <> EmptyString ->
  Shared.shouldRebuild req = true ->
  Types.buildEntry asset = Some entry ->
  match DevServerV1.executeBuild ext nowJson (DevServerV1.assets srv) asset with
  | Ok rebuilt =>
      (exists out,
         DevServerV1.serveProjectAsNowV2 ext srv req res nowRequestId nowJson
         = Ok (DevServerV1.setAssets srv rebuilt, out)) \/
      (exists message res',
         DevServerV1.serveProjectAsNowV2 ext srv req res nowRequestId nowJson
         = Throw (DevServerV1.mkThrown message res'
                    (DevServerV1.setAssets srv rebuilt)))
  | Throw message =>
      DevServerV1.serveProjectAsNowV2 ext srv req res nowRequestId nowJson
      = Throw (DevServerV1.mkThrown message res srv)
  end.
Proof.
  intros r Hurl Hred Hb Hres Hkey Hreb Hentry. subst r.
  unfold DevServerV1.serveProjectAsNowV2. cbv zeta.
  rewrite Hurl, Hred, Hb, Hres, Hreb, Hentry.
  apply String.eqb_neq in Hkey. rewrite Hkey.
  destruct (DevServerV1.executeBuild ext nowJson (DevServerV1.assets srv) asset)
    as [rebuilt|message]; simpl; [|reflexivity].
  destruct (Shared.resolveDest rebuilt _) as [[asset'|] assetKey'];
    [destruct (String.eqb assetKey' EmptyString)|]; eauto.
  unfold DevServerV1.serveResolved.
  destruct (DevServerV1.serveAsset ext req res nowRequestId _ asset' assetKey')
    as [out|[message res']]; eauto.
Qed.

(** A returned header that spells [x-now-id] in another letter case,
    listed after the plain spelling, is the one that is sent. *)
Lemma now_header_shadowed_by_later_spelling :
  Http.getHeader
    (Shared.writeResponseHeaders Http.fresh "lx24t-1553895116335-784e"
       (Some [("x-now-id", Http.HStr "first"); ("X-Now-Id", Http.HStr "second")]))
    "x-now-id"
  = Some (Http.HStr "second").
Proof. reflexivity. Qed.

(** * Further properties *)

(** ** Asset resolution, further *)

Lemma find_first {A} (f : A -> bool) (l : list A) x :
  List.find f l = Some x ->
  exists before after,
    l = (before ++ x :: after)%list /\ f x = true /\
    forall y, In y before -> f y = false.
Proof.
  induction l as [|y l IH]; simpl; [discriminate|].
  destruct (f y) eqn:E.
  - intros [= ->]. exists [], l. repeat split; [exact E|intros ? []].
  - intros H. destruct (IH H) as (before & after & -> & Hx & Hb).
    exists (y :: before), after. repeat split; [exact Hx|].
    intros z [<-|Hz]; auto.
Qed.

Lemma find_app_found {A} (f : A -> bool) (l l' : list A) x :
  List.find f l = Some x -> List.find f (l ++ l') = Some x.
Proof.
  induction l as [|y l IH]; simpl; [discriminate|].
  destruct (f y); [trivial|exact IH].
Qed.

Lemma obj_keys_set {V} (o : JS.obj V) k v :
  JS.obj_keys (JS.obj_set o k v) = JS.obj_keys o \/
  JS.obj_keys (JS.obj_set o k v) = (JS.obj_keys o ++ [k])%list.
Proof.
  induction o as [|[k0 v0] o IH]; simpl; [now right|].
  destruct (String.eqb_spec k0 k) as [->|]; simpl; [now left|].
  destruct IH as [->| ->]; [now left|now right].
Qed.

(** X1: an asset that [resolveDest] returns is found in one of three
    ways.  It is the own entry of the map under the lookup key; or the
    lookup key is not a key of the map but the name of a member of
    [Object.prototype], and the asset is that member; or the lookup key
    is neither, and the asset is the own entry under the key returned,
    which is not empty and is the first key in the order of the map
    whose index form equals the lookup key without its trailing
    slash. *)
Theorem resolveDest_returns_first_stored {V} `{JS.Inherited V}
  (assets : JS.obj V) dest a k :
  Shared.resolveDest assets dest = (Some a, k) ->
  (k = JS.strip_leading_slash dest /\
   JS.obj_get assets k = Some a /\
   In k (JS.obj_keys assets)) \/
  (k = JS.strip_leading_slash dest /\
   JS.obj_get assets k = None /\
   JS.is_prototype_name k = true /\
   a = JS.inherited k) \/
  (JS.obj_get assets (JS.strip_leading_slash dest) = None /\
   JS.is_prototype_name (JS.strip_leading_slash dest) = false /\
   JS.obj_get assets k = Some a /\
   k <> EmptyString /\
   Shared.withoutIndex k = JS.strip_trailing_slash (JS.strip_leading_slash dest) /\
   exists before after,
     JS.obj_keys assets = (before ++ k :: after)%list /\
     forall k', In k' before ->
       Shared.withoutIndex k'
       <> JS.strip_trailing_slash (JS.strip_leading_slash dest)).
Proof.
  unfold Shared.resolveDest.
  destruct (JS.obj_read assets (JS.strip_leading_slash dest)) as [a0|] eqn:D.
  - intros [= <- <-].
    destruct (obj_read_Some _ _ _ D) as [Hown|(Hn & Hp & ->)].
    + left. split; [reflexivity|]. split; [exact Hown|].
      apply obj_get_Some_In in Hown. unfold JS.obj_keys.
      now apply (in_map fst) in Hown.
    + right. left. auto.
  - apply obj_read_None in D as [Dget Dproto].
    destruct (List.find _ _) as [k0|] eqn:F; [|discriminate].
    destruct (String.eqb_spec k0 EmptyString) as [->|Hne]; [discriminate|].
    intros [= Hget <-].
    destruct (find_first _ _ _ F) as (before & after & Hkeys & Hk0 & Hb).
    assert (Hin : In k0 (JS.obj_keys assets))
      by (rewrite Hkeys; apply in_or_app; right; now left).
    rewrite (obj_read_key assets k0 Hin) in Hget.
    right. right. split; [exact Dget|]. split; [exact Dproto|].
    split; [exact Hget|]. split; [exact Hne|].
    split; [now apply String.eqb_eq in Hk0|].
    exists before, after. split; [exact Hkeys|].
    intros k' Hk'. apply Hb in Hk'. now apply String.eqb_neq in Hk'.
Qed.

Lemma resolveDest_returns_first_stored_witness :
  let first := Types.mkOutput (Types.FileFsRef "/site/blog/index.htm") None None in
  let second := Types.mkOutput (Types.FileFsRef "/site/blog/index.html") None None in
  JS.obj_get [("blog/index.htm", first); ("blog/index.html", second)] "blog/index.htm"
  = Some first /\
  Shared.withoutIndex "blog/index.htm" = "blog".
Proof.
  intros first second.
  destruct (resolveDest_returns_first_stored
              [("blog/index.htm", first); ("blog/index.html", second)] "/blog" first
              "blog/index.htm" eq_refl)
    as [(Heq & _)|[(Heq & _)|(_ & _ & Hget & _ & Hidx & _)]].
  - discriminate.
  - discriminate.
  - split; [exact Hget|exact Hidx].
Defined.

(** X2: after [assets[k] = v] every destination whose key is [k]
    resolves to [v] under [k], before any index entry, and a destination
    that resolved before still resolves. *)
Theorem resolveDest_after_put {V} `{JS.Inherited V} (assets : JS.obj V) k v :
  (forall dest,
     JS.strip_leading_slash dest = k ->
     Shared.resolveDest (JS.obj_set assets k v) dest = (Some v, k)) /\
  (forall dest,
     fst (Shared.resolveDest assets dest) <> None ->
     fst (Shared.resolveDest (JS.obj_set assets k v) dest) <> None).
Proof.
  split.
  - intros dest <-. apply resolveDest_direct, obj_read_own.
    now rewrite obj_get_set, String.eqb_refl.
  - intros dest. unfold Shared.resolveDest, JS.obj_read. rewrite !obj_get_set.
    destruct (String.eqb k (JS.strip_leading_slash dest)); [discriminate|].
    destruct (JS.obj_get assets (JS.strip_leading_slash dest)); [discriminate|].
    destruct (JS.is_prototype_name (JS.strip_leading_slash dest)); [discriminate|].
    destruct (List.find _ (JS.obj_keys assets)) as [k0|] eqn:F; [|now intros []].
    assert (F' : List.find
                   (fun name =>
                      String.eqb (Shared.withoutIndex name)
                        (JS.strip_trailing_slash (JS.strip_leading_slash dest)))
                   (JS.obj_keys (JS.obj_set assets k v)) = Some k0).
    { destruct (obj_keys_set assets k v) as [->| ->];
        [exact F|now apply find_app_found]. }
    rewrite F'. destruct (String.eqb k0 EmptyString); [now intros []|]. simpl.
    rewrite obj_get_set. destruct (String.eqb k k0); [discriminate|].
    destruct (JS.obj_get assets k0); [trivial|].
    destruct (JS.is_prototype_name k0); trivial.
Qed.

Lemma resolveDest_after_put_witness :
  let page n := Types.mkOutput (Types.FileFsRef n) None None in
  Shared.resolveDest
    (JS.obj_set [("blog/index.html", page "a")] "blog" (page "b")) "/blog"
  = (Some (page "b"), "blog") /\
  fst (Shared.resolveDest
         (JS.obj_set [("blog/index.html", page "a")] "about" (page "c")) "blog/")
  <> None.
Proof.
  intros page.
  destruct (resolveDest_after_put [("blog/index.html", page "a")] "blog" (page "b"))
    as [Hput _].
  destruct (resolveDest_after_put [("blog/index.html", page "a")] "about" (page "c"))
    as [_ Hkeep].
  split; [now apply Hput|]. apply Hkeep. discriminate.
Defined.

Lemma strip_trailing_slash_app (s : string) :
  JS.strip_trailing_slash (s ++ "/") = s.
Proof.
  induction s as [|c s IH]; [reflexivity|].
  change (String c s ++ "/") with (String c (s ++ "/")).
  cbn [JS.strip_trailing_slash].
  destruct (s ++ "/") as [|d r] eqn:E.
  - destruct s; discriminate.
  - now rewrite IH.
Qed.

Lemma strip_trailing_slash_none (s : string) :
  Props.no_trailing_slash s -> JS.strip_trailing_slash s = s.
Proof.
  induction s as [|c s IH]; intros Hn; [reflexivity|].
  cbn [JS.strip_trailing_slash]. destruct s as [|d r].
  - destruct (Ascii.eqb_spec c "/") as [->|]; [|reflexivity].
    now destruct (Hn EmptyString).
  - rewrite IH; [reflexivity|]. intros p Hp. apply (Hn (String c p)).
    change (String c p ++ "/") with (String c (p ++ "/")). now rewrite <- Hp.
Qed.

(** X3: one leading slash and one trailing slash of a destination do not
    matter: [/d] resolves as [d] does, and when the object of the assets
    has neither [d] nor [d/], as a key or as a member it inherits, [d/]
    finds the asset [d] finds. *)
Theorem resolveDest_ignores_slashes {V} `{JS.Inherited V}
  (assets : JS.obj V) (d : string) :
  JS.startsWith d "/" = false ->
  Shared.resolveDest assets (String "/" d) = Shared.resolveDest assets d /\
  (Props.no_trailing_slash d ->
   JS.obj_read assets d = None ->
   JS.obj_read assets (d ++ "/") = None ->
   fst (Shared.resolveDest assets (d ++ "/")) = fst (Shared.resolveDest assets d)).
Proof.
  intros Hd.
  assert (Hlead : JS.strip_leading_slash d = d).
  { destruct d as [|c r]; [reflexivity|]. unfold JS.startsWith in Hd. simpl in Hd.
    destruct (Ascii.eqb_spec "/" c) as [<-|Hc]; [discriminate|].
    simpl. destruct c as [[] [] [] [] [] [] [] []]; try reflexivity. now destruct Hc. }
  split.
  - unfold Shared.resolveDest. simpl JS.strip_leading_slash at 1 2 3.
    now rewrite Hlead.
  - intros Hn Hget Hget'. destruct d as [|c r].
    + reflexivity.
    + assert (Hlead' : JS.strip_leading_slash (String c r ++ "/") = String c r ++ "/").
      { change (String c r ++ "/") with (String c (r ++ "/")).
        change (String c r) with (String c r) in Hlead. simpl in Hlead |- *.
        destruct c as [[] [] [] [] [] [] [] []]; try reflexivity.
        exfalso. clear -Hlead. induction r as [|x r IH]; [discriminate|].
        injection Hlead as Hx Hr.
        subst x. now apply IH. }
      unfold Shared.resolveDest. rewrite Hlead', Hlead, Hget, Hget'.
      rewrite strip_trailing_slash_app, (strip_trailing_slash_none _ Hn).
      destruct (List.find _ _) as [k|]; [|reflexivity].
      destruct (String.eqb k EmptyString); reflexivity.
Qed.

Lemma resolveDest_ignores_slashes_witness :
  let page := Types.mkOutput (Types.FileFsRef "/site/blog/index.html") None None in
  Shared.resolveDest [("blog/index.html", page)] "/blog"
  = (Some page, "blog/index.html") /\
  fst (Shared.resolveDest [("blog/index.html", page)] "blog/") = Some page.
Proof.
  intros page.
  destruct (resolveDest_ignores_slashes [("blog/index.html", page)] "blog" eq_refl)
    as [Hlead Htrail].
  split.
  - rewrite Hlead. reflexivity.
  - change "blog/" with ("blog" ++ "/"). rewrite Htrail; try reflexivity.
    intros p Hp. destruct p as [|a [|b [|c [|d [|e p]]]]]; discriminate.
Defined.

(** ** Listening, further *)

(** X4: what [listenLoop] ends with tells what the system answered: it
    binds port [p] only after [p - port] answers [EADDRINUSE] and one
    success, it throws only the first answer that is neither, and it is
    still trying only when every answer was [EADDRINUSE]; so it never
    binds a port below the one asked for and never passes over a port
    that accepted. *)
Theorem listenLoop_inversion (answers : list Shared.ListenAnswer) :
  forall port,
    match Shared.listenLoop port answers with
    | Shared.Bound p address =>
        exists prefix rest,
          answers = (prefix ++ Shared.Listening address :: rest)%list /\
          Forall Spec.address_in_use prefix /\
          p = (port + Z.of_nat (length prefix))%Z
    | Shared.ListenThrows code message =>
        exists prefix rest,
          answers = (prefix ++ Shared.ListenError code message :: rest)%list /\
          Forall Spec.address_in_use prefix /\
          code <> Some "EADDRINUSE"
    | Shared.StillTrying p =>
        Forall Spec.address_in_use answers /\
        p = (port + Z.of_nat (length answers))%Z
    end.
Proof.
  induction answers as [|a answers IH]; intros port.
  - simpl. split; [constructor|lia].
  - destruct a as [address|code message].
    + simpl. exists [], answers. repeat split; [constructor|simpl; lia].
    + cbn [Shared.listenLoop].
      assert (Hother : code <> Some "EADDRINUSE" ->
                       exists prefix rest,
                         Shared.ListenError code message :: answers
                         = (prefix ++ Shared.ListenError code message :: rest)%list /\
                         Forall Spec.address_in_use prefix /\
                         code <> Some "EADDRINUSE").
      { intros Hc. exists [], answers. repeat split; [constructor|exact Hc]. }
      destruct code as [c|]; [|apply Hother; discriminate].
      destruct (String.eqb_spec c "EADDRINUSE") as [->|Hc];
        [|apply Hother; congruence].
      specialize (IH (port + 1)%Z).
      assert (Hin : Spec.address_in_use
                      (Shared.ListenError (Some "EADDRINUSE") message))
        by now exists message.
      destruct (Shared.listenLoop (port + 1) answers) as [p address|code' m'|p].
      * destruct IH as (prefix & rest & -> & Hp & ->).
        exists (Shared.ListenError (Some "EADDRINUSE") message :: prefix), rest.
        repeat split; [now constructor|simpl length; lia].
      * destruct IH as (prefix & rest & -> & Hp & Hc).
        exists (Shared.ListenError (Some "EADDRINUSE") message :: prefix), rest.
        repeat split; [now constructor|exact Hc].
      * destruct IH as (Hp & ->). split; [now constructor|simpl length; lia].
Qed.

(** ** The trace id, further *)

Lemma all_chars_impl (f g : ascii -> bool) (s : string) :
  (forall c, f c = true -> g c = true) ->
  JS.all_chars f s = true -> JS.all_chars g s = true.
Proof.
  intros Hfg. induction s as [|c s IH]; [trivial|]. simpl.
  intros H. apply andb_true_iff in H as [Hc Hs]. now rewrite (Hfg c Hc), IH.
Qed.

Lemma all_chars_substring (f : ascii -> bool) (s : string) : forall n m,
  JS.all_chars f s = true -> JS.all_chars f (String.substring n m s) = true.
Proof.
  induction s as [|c s IH]; intros n m H.
  - destruct n, m; reflexivity.
  - simpl in H. apply andb_true_iff in H as [Hc Hs].
    destruct n as [|n]; simpl.
    + destruct m as [|m]; [reflexivity|]. simpl. now rewrite Hc, IH.
    + now apply IH.
Qed.

Lemma split_on_none (sep : ascii) (s : string) :
  JS.all_chars (fun c => negb (Ascii.eqb c sep)) s = true ->
  JS.split_on sep s = [s].
Proof.
  induction s as [|c s IH]; [reflexivity|]. simpl.
  intros H. apply andb_true_iff in H as [Hc Hs].
  apply negb_true_iff in Hc. now rewrite Hc, IH.
Qed.

Lemma split_on_app (sep : ascii) (a rest : string) :
  JS.all_chars (fun c => negb (Ascii.eqb c sep)) a = true ->
  JS.split_on sep (a ++ String sep rest) = a :: JS.split_on sep rest.
Proof.
  induction a as [|c a IH].
  - intros _. change (EmptyString ++ String sep rest) with (String sep rest).
    simpl. now rewrite Ascii.eqb_refl.
  - change (String c a ++ String sep rest) with (String c (a ++ String sep rest)).
    simpl. intros H. apply andb_true_iff in H as [Hc Hs].
    apply negb_true_iff in Hc. now rewrite Hc, IH.
Qed.

Lemma uint_digits (d : Decimal.uint) :
  JS.all_chars JS.is_digit (NilEmpty.string_of_uint d) = true.
Proof. induction d; simpl; trivial. Qed.

Lemma string_of_Z_digits (n : Z) :
  (0 <= n)%Z -> JS.all_chars JS.is_digit (JS.string_of_Z n) = true.
Proof.
  intros Hn. unfold JS.string_of_Z. destruct n as [|p|p]; [reflexivity| |lia].
  simpl. unfold NilZero.string_of_uint.
  pose proof (uint_digits (Pos.to_uint p)) as H.
  destruct (Pos.to_uint p); trivial.
Qed.

Lemma digit_no_dash (c : ascii) :
  JS.is_digit c = true -> negb (Ascii.eqb c "-") = true.
Proof. destruct c as [[] [] [] [] [] [] [] []]; vm_compute; congruence. Qed.

Lemma hex_digit_no_dash (c : ascii) :
  Spec.is_hex_digit c = true -> negb (Ascii.eqb c "-") = true.
Proof. destruct c as [[] [] [] [] [] [] [] []]; vm_compute; congruence. Qed.

(** X5: when the text of the random number has no [-] and the clock is
    not before the epoch, splitting the id on [-] gives back its three
    fields and nothing else, so that the [x-now-log-id] sent to a
    function, the third part of the split, is the hexadecimal text of
    the random bytes. *)
Theorem generateRequestId_fields (e : Shared.Entropy)
  (req : Http.IncomingMessage) (headers : JS.obj string) :
  Props.no_dash (Shared.random32 e) ->
  (0 <= Shared.now e)%Z ->
  JS.split_on "-" (Shared.generateRequestId e)
  = [JS.slice_last 5 (Shared.random32 e);
     JS.string_of_Z (Shared.now e);
     Buffer.toString_hex (Shared.random_bytes e)] /\
  JS.obj_get
    (DevServerV1.getNowProxyHeaders req (Shared.generateRequestId e) headers)
    "x-now-log-id"
  = Some (Some (Buffer.toString_hex (Shared.random_bytes e))) /\
  JS.obj_get
    (LaterMethods.getNowProxyHeaders req (Shared.generateRequestId e))
    "x-now-log-id"
  = Some (Some (Buffer.toString_hex (Shared.random_bytes e))).
Proof.
  intros Hr Hn.
  assert (Hsplit : JS.split_on "-" (Shared.generateRequestId e)
                   = [JS.slice_last 5 (Shared.random32 e);
                      JS.string_of_Z (Shared.now e);
                      Buffer.toString_hex (Shared.random_bytes e)]).
  { unfold Shared.generateRequestId.
    change (JS.join "-" [?a; ?b; ?c]) with (a ++ String "-" (b ++ String "-" c)).
    rewrite split_on_app by (now apply all_chars_substring).
    rewrite split_on_app
      by (eapply all_chars_impl; [exact digit_no_dash|now apply string_of_Z_digits]).
    rewrite split_on_none; [reflexivity|].
    eapply all_chars_impl; [exact hex_digit_no_dash|apply toString_hex_digits]. }
  split; [exact Hsplit|].
  unfold DevServerV1.getNowProxyHeaders, LaterMethods.getNowProxyHeaders,
    JS.obj_assign.
  cbn [fold_left fst snd]. rewrite !obj_get_set, Hsplit.
  split; reflexivity.
Qed.

Lemma generateRequestId_fields_witness :
  JS.split_on "-" (Shared.generateRequestId Examples.sample_entropy)
  = ["lx24t"; "1553895116335"; "784edbc9ef03e2b5534f3dc6f14c90d4"] /\
  JS.split_on "-"
    (Shared.generateRequestId (Shared.mkEntropy "0.g" 0 [x0a; xff]))
  = ["0.g"; "0"; "0aff"].
Proof.
  split.
  - destruct (generateRequestId_fields Examples.sample_entropy
                (Examples.get "/") []) as [H _]; [reflexivity|discriminate|].
    rewrite H. reflexivity.
  - destruct (generateRequestId_fields (Shared.mkEntropy "0.g" 0 [x0a; xff])
                (Examples.get "/") []) as [H _]; [reflexivity|discriminate|].
    rewrite H. reflexivity.
Defined.

(** ** The headers sent to a function *)

Lemma obj_get_map_Some {V} (o : JS.obj V) (k : string) :
  JS.obj_get (map (fun kv => (fst kv, Some (snd kv))) o) k
  = option_map Some (JS.obj_get o k).
Proof.
  induction o as [|[k0 v0] o IH]; simpl; [reflexivity|].
  destruct (String.eqb k0 k); [reflexivity|exact IH].
Qed.

Lemma getRequestIp_nonempty (req : Http.IncomingMessage) :
  Shared.getRequestIp req <> EmptyString.
Proof.
  unfold Shared.getRequestIp. destruct (Http.remoteAddress req) as [a|]; [|discriminate].
  destruct (String.eqb_spec a EmptyString); [discriminate|assumption].
Qed.

Ltac other_name Hn name :=
  repeat match goal with
         | |- context [String.eqb ?k name] =>
             destruct (String.eqb_spec k name) as [<-|_];
             [exfalso; apply Hn; vm_compute; repeat (first [left; reflexivity|right])|]
         end.

(** X6: the headers handed to a function.  The entries the server writes
    win over whatever the given headers say under the same key: the
    trace id, [Connection: close], the protocol, the address of the
    client (never empty, [127.0.0.1] when the socket has none) and the
    [host] of the request, absent when the request has none.  A header
    under any other key, the lower-case [connection] of the client
    included, is passed on unchanged, and nothing else is added.  The
    later server builds the same object from the headers of the request
    and adds [X-Real-IP] to it. *)
Theorem getNowProxyHeaders_entries (req : Http.IncomingMessage)
  (nowRequestId : string) (headers : JS.obj string) :
  let sent := DevServerV1.getNowProxyHeaders req nowRequestId headers in
  let later := LaterMethods.getNowProxyHeaders req nowRequestId in
  let ip := Shared.getRequestIp req in
  let host := JS.obj_get (Http.req_headers req) "host" in
  JS.obj_get sent "x-now-id" = Some (Some nowRequestId) /\
  JS.obj_get sent "x-now-trace" = Some (Some "dev1") /\
  JS.obj_get sent "Connection" = Some (Some "close") /\
  JS.obj_get sent "X-Forwarded-Proto" = Some (Some "http") /\
  JS.obj_get sent "X-Forwarded-For" = Some (Some ip) /\
  JS.obj_get sent "x-zeit-co-forwarded-for" = Some (Some ip) /\
  JS.obj_get sent "X-Forwarded-Host" = Some host /\
  JS.obj_get sent "x-now-deployment-url" = Some host /\
  ip <> EmptyString /\
  (Http.remoteAddress req = None -> ip = "127.0.0.1") /\
  (forall name, ~ In name Props.proxy_header_names ->
     JS.obj_get sent name = option_map Some (JS.obj_get headers name)) /\
  (forall name, name <> "X-Real-IP" ->
     JS.obj_get later name
     = JS.obj_get
         (DevServerV1.getNowProxyHeaders req nowRequestId (Http.req_headers req))
         name) /\
  JS.obj_get later "X-Real-IP" = Some (Some ip).
Proof.
  intros sent later ip host. subst sent later ip host.
  unfold DevServerV1.getNowProxyHeaders, LaterMethods.getNowProxyHeaders,
    JS.obj_assign.
  cbn [fold_left fst snd].
  repeat match goal with |- _ /\ _ => split end;
    try (rewrite !obj_get_set; reflexivity).
  - apply getRequestIp_nonempty.
  - intros Hnone. unfold Shared.getRequestIp. now rewrite Hnone.
  - intros name Hn. rewrite !obj_get_set. other_name Hn name.
    apply obj_get_map_Some.
  - intros name Hn. rewrite !obj_get_set.
    destruct (String.eqb_spec "X-Real-IP" name) as [<-|_]; [congruence|reflexivity].
Qed.

Lemma getNowProxyHeaders_entries_witness :
  let req :=
    Http.mkRequest (Some "POST") "/api/hello"
      [("host", "localhost:3000"); ("connection", "keep-alive");
       ("x-now-id", "forged")] None [] in
  let sent := DevServerV1.getNowProxyHeaders req "a-1-b" (Http.req_headers req) in
  JS.obj_get sent "connection" = Some (Some "keep-alive") /\
  JS.obj_get sent "Connection" = Some (Some "close") /\
  JS.obj_get sent "x-now-id" = Some (Some "a-1-b") /\
  JS.obj_get sent "X-Forwarded-For" = Some (Some "127.0.0.1") /\
  JS.obj_get (LaterMethods.getNowProxyHeaders req "a-1-b") "host"
  = Some (Some "localhost:3000").
Proof.
  intros req sent.
  destruct (getNowProxyHeaders_entries req "a-1-b" (Http.req_headers req))
    as (Hid & _ & Hc & _ & Hfor & _ & _ & _ & _ & Hip & Hother & Hlater & _).
  split.
  { unfold sent. rewrite Hother; [reflexivity|].
    vm_compute. intros H.
    repeat (destruct H as [H|H]; [discriminate|]). exact H. }
  split; [exact Hc|].
  split; [exact Hid|].
  split; [unfold sent; rewrite Hfor, Hip; reflexivity|].
  rewrite Hlater by discriminate. rewrite Hother; [reflexivity|].
  vm_compute. intros H.
  repeat (destruct H as [H|H]; [discriminate|]). exact H.
Defined.

(** ** Validation of the env sections, further *)

Lemma validateEnvConfig_error type (env localEnv : option Types.EnvConfig) e :
  DevServer.validateEnvConfig type env localEnv = Throw e ->
  e = DevServer.MissingDotenvVarsError type
        (map fst
           (List.filter
              (fun nv =>
                 JS.is_string_starting "@" (snd nv)
                 && negb (JS.hasOwnProperty (Spec.section localEnv) (fst nv)))
              (Spec.section env))).
Proof.
  unfold DevServer.validateEnvConfig.
  change (match env with Some e0 => e0 | None => [] end) with (Spec.section env).
  change (match localEnv with Some e0 => e0 | None => [] end)
    with (Spec.section localEnv).
  destruct (Nat.leb 1 _); [|discriminate]. now intros [= <-].
Qed.

(** X7: what [validateEnvConfig] throws is never a plain error: it is
    the [MissingDotenvVarsError] of the section at hand, and the names it
    carries are keys of the section, none of them defined locally.  Once
    a local env file defines the names reported, under any value, and
    still defines what it did, the same section passes. *)
Theorem validateEnvConfig_fixed_by_defining (type : string)
  (env localEnv localEnv' : Types.EnvConfig) (e : DevServer.Err) :
  DevServer.validateEnvConfig type (Some env) (Some localEnv) = Throw e ->
  exists missing,
    e = DevServer.MissingDotenvVarsError type missing /\
    missing <> [] /\
    (forall name, In name missing ->
       In name (JS.obj_keys env) /\ JS.hasOwnProperty localEnv name = false) /\
    ((forall name, In name missing -> JS.hasOwnProperty localEnv' name = true) ->
     (forall name, JS.hasOwnProperty localEnv name = true ->
                   JS.hasOwnProperty localEnv' name = true) ->
     DevServer.validateEnvConfig type (Some env) (Some localEnv') = Ok tt).
Proof.
  intros Hthrow. pose proof (validateEnvConfig_error _ _ _ _ Hthrow) as He.
  simpl in He.
  set (missing := map fst (List.filter _ env)) in He.
  assert (Hm : forall n, In n missing <-> Spec.unresolved env localEnv n)
    by (intros n; apply missing_unresolved).
  exists missing. split; [exact He|]. split; [|split].
  - intros Hnil. unfold DevServer.validateEnvConfig in Hthrow.
    fold missing in Hthrow. rewrite Hnil in Hthrow. discriminate.
  - intros name Hin. apply Hm in Hin as (rest & Hin & Hl). split.
    + unfold JS.obj_keys. now apply (in_map fst) in Hin.
    + now apply hasOwnProperty_false.
  - intros Hdef Hkeep. apply validateEnvConfig_passes.
    intros (name & rest & Hin & Hl).
    apply hasOwnProperty_false in Hl.
    destruct (JS.hasOwnProperty localEnv name) eqn:Hold.
    + rewrite (Hkeep name Hold) in Hl. discriminate.
    + rewrite Hdef in Hl; [discriminate|].
      apply Hm. exists rest. split; [exact Hin|now apply hasOwnProperty_false].
Qed.

Lemma validateEnvConfig_fixed_by_defining_witness :
  DevServer.validateEnvConfig ".env"
    (Some [("API_KEY", JS.JStr "@api-key"); ("MODE", JS.JStr "dev");
           ("TOKEN", JS.JStr "@token")])
    (Some [("TOKEN", JS.JStr "t0k3n"); ("API_KEY", JS.JNull)])
  = Ok tt.
Proof.
  destruct (validateEnvConfig_fixed_by_defining ".env"
              [("API_KEY", JS.JStr "@api-key"); ("MODE", JS.JStr "dev");
               ("TOKEN", JS.JStr "@token")]
              [("TOKEN", JS.JStr "t0k3n")]
              [("TOKEN", JS.JStr "t0k3n"); ("API_KEY", JS.JNull)]
              (DevServer.MissingDotenvVarsError ".env" ["API_KEY"]))
    as (missing & He & _ & _ & Hfix); [reflexivity|].
  injection He as <-. apply Hfix.
  - intros name [<-|[]]. reflexivity.
  - intros name. unfold JS.hasOwnProperty. simpl.
    destruct (String.eqb_spec "TOKEN" name) as [<-|]; [reflexivity|discriminate].
Defined.

(** ** The build matches *)

Lemma updateBuildMatches_fold srv ms :
  DevServer.buildMatches (DevServer.updateBuildMatches srv ms)
  = fold_left Props.reconcile_step ms
      (List.filter (fun kv => existsb (String.eqb (fst kv)) (map DevServer.src ms))
         (DevServer.buildMatches srv)).
Proof. reflexivity. Qed.

Lemma reconcile_step_keys acc m k :
  In k (JS.obj_keys (Props.reconcile_step acc m))
  <-> In k (JS.obj_keys acc) \/ k = DevServer.src m.
Proof.
  unfold Props.reconcile_step.
  assert (Hset : forall v, In k (JS.obj_keys (JS.obj_set acc (DevServer.src m) v))
                           <-> In k (JS.obj_keys acc) \/ k = DevServer.src m).
  { intros v. induction acc as [|[k0 v0] acc IH]; simpl.
    - intuition.
    - destruct (String.eqb_spec k0 (DevServer.src m)) as [->|]; simpl.
      + intuition.
      + rewrite IH. intuition. }
  destruct (JS.obj_get acc (DevServer.src m)) as [c|] eqn:G; [|apply Hset].
  destruct (String.eqb _ _); [|apply Hset].
  split; [auto|]. intros [H| ->]; [exact H|].
  apply obj_get_Some_In in G. unfold JS.obj_keys. now apply (in_map fst) in G.
Qed.

Lemma reconcile_keys ms : forall acc k,
  In k (JS.obj_keys (fold_left Props.reconcile_step ms acc))
  <-> In k (JS.obj_keys acc) \/ In k (map DevServer.src ms).
Proof.
  induction ms as [|m ms IH]; intros acc k; simpl; [intuition|].
  rewrite IH, reconcile_step_keys. intuition.
Qed.

Lemma reconcile_step_get acc m k :
  JS.obj_get (Props.reconcile_step acc m) k
  = if String.eqb (DevServer.src m) k
    then match JS.obj_get acc k with
         | Some c => if String.eqb (DevServer.use c) (DevServer.use m)
                     then Some c else Some m
         | None => Some m
         end
    else JS.obj_get acc k.
Proof.
  unfold Props.reconcile_step.
  destruct (String.eqb_spec (DevServer.src m) k) as [<-|Hne].
  - destruct (JS.obj_get acc (DevServer.src m)) as [c|] eqn:G.
    + destruct (String.eqb _ _); [exact G|].
      rewrite obj_get_set. now rewrite String.eqb_refl.
    + rewrite obj_get_set. now rewrite String.eqb_refl.
  - apply String.eqb_neq in Hne.
    destruct (JS.obj_get acc (DevServer.src m)) as [c|];
      [destruct (String.eqb (DevServer.use c) (DevServer.use m)); [reflexivity|]|];
      rewrite obj_get_set; now rewrite Hne.
Qed.

Lemma reconcile_get_other ms : forall acc k,
  ~ In k (map DevServer.src ms) ->
  JS.obj_get (fold_left Props.reconcile_step ms acc) k = JS.obj_get acc k.
Proof.
  induction ms as [|m ms IH]; intros acc k Hn; simpl; [reflexivity|].
  rewrite IH by (intros H; apply Hn; now right).
  rewrite reconcile_step_get.
  destruct (String.eqb_spec (DevServer.src m) k) as [E|]; [|reflexivity].
  exfalso. apply Hn. now left.
Qed.

Lemma reconcile_get ms : forall acc m,
  List.NoDup (map DevServer.src ms) -> In m ms ->
  JS.obj_get (fold_left Props.reconcile_step ms acc) (DevServer.src m)
  = match JS.obj_get acc (DevServer.src m) with
    | Some c => if String.eqb (DevServer.use c) (DevServer.use m)
                then Some c else Some m
    | None => Some m
    end.
Proof.
  induction ms as [|m0 ms IH]; intros acc m Hd Hin; [destruct Hin|].
  simpl in Hd. inversion Hd as [|? ? Hnot Hd']; subst. simpl.
  destruct Hin as [->|Hin].
  - rewrite reconcile_get_other by exact Hnot.
    rewrite reconcile_step_get. now rewrite String.eqb_refl.
  - rewrite IH by assumption. rewrite reconcile_step_get.
    destruct (String.eqb_spec (DevServer.src m0) (DevServer.src m)) as [E|];
      [|reflexivity].
    exfalso. apply Hnot. rewrite E. now apply in_map.
Qed.

Lemma obj_get_filter_key {V} (p : string -> bool) (o : JS.obj V) k :
  JS.obj_get (List.filter (fun kv => p (fst kv)) o) k
  = if p k then JS.obj_get o k else None.
Proof.
  induction o as [|[k0 v0] o IH]; simpl; [now destruct (p k)|].
  destruct (p k0) eqn:P0; simpl.
  - destruct (String.eqb_spec k0 k) as [->|]; [now rewrite P0|exact IH].
  - destruct (String.eqb_spec k0 k) as [->|]; [|exact IH].
    rewrite IH. now rewrite P0.
Qed.

Lemma existsb_eqb_In (k : string) (l : list string) :
  existsb (String.eqb k) l = true <-> In k l.
Proof.
  rewrite existsb_exists. split.
  - intros (x & Hin & E). apply String.eqb_eq in E. now subst.
  - intros Hin. exists k. split; [exact Hin|apply String.eqb_refl].
Qed.

Lemma filter_all {A} (f : A -> bool) (l : list A) :
  (forall x, In x l -> f x = true) -> List.filter f l = l.
Proof.
  induction l as [|x l IH]; intros H; simpl; [reflexivity|].
  rewrite (H x) by now left. f_equal. apply IH. intros y Hy. apply H. now right.
Qed.

Lemma reconcile_fixed ms : forall acc,
  (forall m, In m ms ->
     exists c, JS.obj_get acc (DevServer.src m) = Some c /\
               DevServer.use c = DevServer.use m) ->
  fold_left Props.reconcile_step ms acc = acc.
Proof.
  induction ms as [|m ms IH]; intros acc H; simpl; [reflexivity|].
  assert (Hstep : Props.reconcile_step acc m = acc).
  { destruct (H m) as (c & G & U); [now left|].
    unfold Props.reconcile_step. rewrite G, U. now rewrite String.eqb_refl. }
  rewrite Hstep. apply IH. intros m' Hin. apply H. now right.
Qed.

(** X8: after [updateBuildMatches] the map has an entry for exactly the
    sources that [getBuildMatches] answered, whatever it held before; no
    other field of the server is touched.  When no source is answered
    twice, the entry of a source is the one the map already had if that
    one names the same builder, and the answered match otherwise, and
    reconciling against the same answer a second time changes nothing. *)
Theorem updateBuildMatches_reconciles (srv : DevServer.DevServer)
  (ms : list DevServer.BuildMatch) :
  let srv' := DevServer.updateBuildMatches srv ms in
  (forall k, In k (JS.obj_keys (DevServer.buildMatches srv'))
             <-> In k (map DevServer.src ms)) /\
  srv' = DevServer.setBuildMatches srv (DevServer.buildMatches srv') /\
  (List.NoDup (map DevServer.src ms) ->
   (forall m, In m ms ->
      JS.obj_get (DevServer.buildMatches srv') (DevServer.src m)
      = Some match JS.obj_get (DevServer.buildMatches srv) (DevServer.src m) with
             | Some c => if String.eqb (DevServer.use c) (DevServer.use m)
                         then c else m
             | None => m
             end) /\
   DevServer.updateBuildMatches srv' ms = srv').
Proof.
  intros srv'.
  assert (Hkeys : forall k, In k (JS.obj_keys (DevServer.buildMatches srv'))
                            <-> In k (map DevServer.src ms)).
  { intros k. unfold srv'. rewrite updateBuildMatches_fold, reconcile_keys.
    split; [|auto]. intros [H|H]; [|exact H].
    unfold JS.obj_keys in H. apply in_map_iff in H as ([k0 v0] & <- & H).
    apply filter_In in H as [_ H]. simpl in *. now apply existsb_eqb_In. }
  assert (Hget : List.NoDup (map DevServer.src ms) -> forall m, In m ms ->
            JS.obj_get (DevServer.buildMatches srv') (DevServer.src m)
            = Some match JS.obj_get (DevServer.buildMatches srv) (DevServer.src m) with
                   | Some c => if String.eqb (DevServer.use c) (DevServer.use m)
                               then c else m
                   | None => m
                   end).
  { intros Hd m Hin. unfold srv'. rewrite updateBuildMatches_fold.
    rewrite reconcile_get by assumption.
    rewrite (obj_get_filter_key
               (fun k => existsb (String.eqb k) (map DevServer.src ms))).
    assert (Hsrc : existsb (String.eqb (DevServer.src m)) (map DevServer.src ms) = true)
      by (apply existsb_eqb_In; now apply in_map).
    rewrite Hsrc.
    destruct (JS.obj_get (DevServer.buildMatches srv) (DevServer.src m)) as [c|];
      [destruct (String.eqb _ _)|]; reflexivity. }
  split; [exact Hkeys|]. split; [reflexivity|].
  intros Hd. split; [now apply Hget|].
  unfold DevServer.updateBuildMatches at 1.
  change (DevServer.setBuildMatches srv'
            (fold_left Props.reconcile_step ms
               (List.filter
                  (fun kv => existsb (String.eqb (fst kv)) (map DevServer.src ms))
                  (DevServer.buildMatches srv')))
          = srv').
  rewrite filter_all.
  - rewrite reconcile_fixed; [reflexivity|].
    intros m Hin. rewrite (Hget Hd m Hin). eexists. split; [reflexivity|].
    destruct (JS.obj_get (DevServer.buildMatches srv) (DevServer.src m)) as [c|];
      [|reflexivity].
    destruct (String.eqb_spec (DevServer.use c) (DevServer.use m)); congruence.
  - intros [k v] Hin. simpl. apply existsb_eqb_In, Hkeys.
    unfold JS.obj_keys. now apply (in_map fst) in Hin.
Qed.

Lemma updateBuildMatches_reconciles_witness :
  let old_page := DevServer.mkBuildMatch "pages/index.js" "@now/next" 2 in
  let old_api := DevServer.mkBuildMatch "api/hello.js" "@now/node" 1 in
  let gone := DevServer.mkBuildMatch "legacy.php" "@now/php" 1 in
  let new_page := DevServer.mkBuildMatch "pages/index.js" "@now/next" 3 in
  let new_api := DevServer.mkBuildMatch "api/hello.js" "@now/node-server" 2 in
  let added := DevServer.mkBuildMatch "static/logo.svg" "@now/static" 2 in
  let srv :=
    DevServer.setBuildMatches Examples.sample_server
      [("legacy.php", gone); ("pages/index.js", old_page); ("api/hello.js", old_api)] in
  let srv' := DevServer.updateBuildMatches srv [new_api; added; new_page] in
  DevServer.buildMatches srv'
  = [("pages/index.js", old_page); ("api/hello.js", new_api);
     ("static/logo.svg", added)] /\
  JS.obj_get (DevServer.buildMatches srv') "pages/index.js" = Some old_page /\
  DevServer.updateBuildMatches srv' [new_api; added; new_page] = srv'.
Proof.
  intros old_page old_api gone new_page new_api added srv srv'.
  assert (Hd : List.NoDup (map DevServer.src [new_api; added; new_page])).
  { simpl. repeat constructor; simpl; intros H;
      repeat (destruct H as [H|H]; [discriminate|]); exact H. }
  destruct (updateBuildMatches_reconciles srv [new_api; added; new_page])
    as (_ & _ & Hnodup).
  destruct (Hnodup Hd) as [Hget Hidem].
  split; [reflexivity|]. split; [|exact Hidem].
  apply (Hget new_page). simpl. auto.
Defined.

(** ** The earlier server: the configuration it accepts *)

Lemma index0_text (s : string) :
  JS.index0 (JS.JStr s) = JS.IdxValue (JS.JStr "@")
  \/ JS.is_string_starting "@" (JS.JStr s) = false.
Proof.
  destruct s as [|c r]; [now right|].
  destruct (Ascii.eqb_spec "@"%char c) as [<-|Hne]; [now left|right].
  unfold JS.is_string_starting, JS.startsWith. simpl.
  apply Ascii.eqb_neq in Hne. now rewrite Hne.
Qed.

Lemma hasSecretEnv_text (vals : list JS.json) :
  (forall v, In v vals -> Props.is_text v) ->
  DevServerV1.hasSecretEnv vals
  = Ok (existsb (JS.is_string_starting "@") vals).
Proof.
  induction vals as [|v vals IH]; intros Ht; [reflexivity|].
  destruct (Ht v) as [s ->]; [now left|].
  assert (IH' := IH (fun w Hw => Ht w (or_intror Hw))).
  cbn [existsb DevServerV1.hasSecretEnv].
  destruct s as [|c r]; [exact IH'|].
  destruct (Ascii.eqb_spec "@"%char c) as [<-|Hne]; [reflexivity|].
  replace (JS.is_string_starting "@" (JS.JStr (String c r))) with false.
  - destruct c as [[] [] [] [] [] [] [] []]; try exact IH'. now destruct Hne.
  - unfold JS.is_string_starting, JS.startsWith. simpl.
    apply Ascii.eqb_neq in Hne. now rewrite Hne.
Qed.

Lemma v1_validateNowConfig_values (config : Types.NowConfig) :
  Types.version config = Some (JS.JNum 2) ->
  DevServerV1.validateNowConfig config
  = bind (DevServerV1.hasSecretEnv (Props.env_values config)) (fun secret =>
      if secret then Throw "Secret env vars are not yet supported by `now dev`"
      else Ok tt).
Proof.
  intros Hv. unfold DevServerV1.validateNowConfig, Props.env_values,
    Spec.build_section, Spec.section. rewrite Hv.
  destruct (Types.env config); destruct (Types.build config) as [[[be|]]|]; reflexivity.
Qed.

Lemma no_secret_none_unresolved (e localEnv : Types.EnvConfig) :
  existsb (JS.is_string_starting "@") (JS.obj_values e) = false ->
  ~ (exists name, Spec.unresolved e localEnv name).
Proof.
  intros Hno (name & rest & Hin & _).
  assert (Ht : existsb (JS.is_string_starting "@") (JS.obj_values e) = true);
    [|congruence].
  apply existsb_exists. exists (JS.JStr (String "@" rest)). split; [|reflexivity].
  unfold JS.obj_values. now apply (in_map snd) in Hin.
Qed.

(** X9: the configuration check of the earlier server.  Any version
    other than the number 2 is refused, whatever else the file holds.
    On a version-2 file whose env values are all strings the check fails
    exactly when one of them, in [env] or in [build.env], starts with
    [@]; and a file it accepts is accepted by the later server as well,
    whatever its local env files define. *)
Theorem v1_validateNowConfig_text (config : Types.NowConfig) :
  (Types.version config <> Some (JS.JNum 2) ->
   DevServerV1.validateNowConfig config
   = Throw "Only `version: 2` is supported by `now dev`") /\
  (Types.version config = Some (JS.JNum 2) ->
   (forall v, In v (Props.env_values config) -> Props.is_text v) ->
   DevServerV1.validateNowConfig config
   = (if existsb (JS.is_string_starting "@") (Props.env_values config)
      then Throw "Secret env vars are not yet supported by `now dev`"
      else Ok tt) /\
   (DevServerV1.validateNowConfig config = Ok tt ->
    forall srv, DevServer.validateNowConfig srv config = Ok tt)).
Proof.
  split.
  - intros Hv. unfold DevServerV1.validateNowConfig.
    destruct (Types.version config) as [[| |n| | |]|]; try reflexivity.
    destruct n as [|[[]|[]|]|]; try reflexivity. now destruct Hv.
  - intros Hv Ht.
    assert (Hrun : DevServerV1.validateNowConfig config
                   = (if existsb (JS.is_string_starting "@") (Props.env_values config)
                      then Throw "Secret env vars are not yet supported by `now dev`"
                      else Ok tt)).
    { rewrite v1_validateNowConfig_values by exact Hv.
      rewrite hasSecretEnv_text by exact Ht. reflexivity. }
    split; [exact Hrun|].
    rewrite Hrun. destruct (existsb _ _) eqn:Hex; [discriminate|]. intros _ srv.
    unfold Props.env_values in Hex. rewrite existsb_app in Hex.
    apply orb_false_iff in Hex as [He Hb].
    unfold DevServer.validateNowConfig. rewrite Hv.
    rewrite validateEnvConfig_default.
    rewrite validateEnvConfig_passes by now apply no_secret_none_unresolved.
    simpl. fold (Spec.build_section config).
    rewrite validateEnvConfig_default.
    apply validateEnvConfig_passes. now apply no_secret_none_unresolved.
Qed.

Lemma v1_validateNowConfig_text_witness :
  let cfg :=
    Types.mkNowConfig (Some (JS.JNum 2)) (Some [("MODE", JS.JStr "dev")])
      (Some (Types.mkBuildSection (Some [("TOKEN", JS.JStr "@token")]))) None None in
  let plain :=
    Types.mkNowConfig (Some (JS.JNum 2)) (Some [("MODE", JS.JStr "dev")])
      None None None in
  DevServerV1.validateNowConfig cfg
  = Throw "Secret env vars are not yet supported by `now dev`" /\
  DevServer.validateNowConfig Examples.sample_server plain = Ok tt /\
  DevServerV1.validateNowConfig
    (Types.mkNowConfig (Some (JS.JStr "2")) None None None None)
  = Throw "Only `version: 2` is supported by `now dev`".
Proof.
  intros cfg plain. split; [|split].
  - destruct (v1_validateNowConfig_text cfg) as [_ H].
    destruct H as [H _]; [reflexivity| |exact H].
    intros v [<-|[<-|[]]]; eexists; reflexivity.
  - destruct (v1_validateNowConfig_text plain) as [_ H].
    destruct H as [Hrun H]; [reflexivity| |].
    + intros v [<-|[]]; eexists; reflexivity.
    + apply H. exact Hrun.
  - destruct (v1_validateNowConfig_text
                (Types.mkNowConfig (Some (JS.JStr "2")) None None None None))
      as [H _].
    apply H. discriminate.
Defined.

(** ** The earlier server: the handler *)

Lemma v1_serveAsset_finished ext req res nowRequestId r asset assetKey res' :
  DevServerV1.serveAsset ext req res nowRequestId r asset assetKey
  = Ok (Http.Ended res') ->
  Http.finished res' = true.
Proof.
  unfold DevServerV1.serveAsset.
  destruct (Types.asset_body asset) as [fsPath|data|[fn|]|type]; try discriminate;
    try (intros [= <-]; reflexivity).
  destruct (DevServerV1.invoke ext fn _) as [|result];
    [intros [= <-]; reflexivity|].
  destruct (Shared.tryWriteResponseHeaders _ _ _) as [res0 [e|]]; [discriminate|].
  destruct (Http.valid_status _); [|discriminate].
  intros [= <-]. reflexivity.
Qed.

Lemma v1_static_finished ext srv req res nowRequestId res' :
  DevServerV1.serveProjectAsStatic ext srv req res nowRequestId = Http.Ended res' ->
  Http.finished res' = true.
Proof.
  unfold DevServerV1.serveProjectAsStatic.
  destruct (_ && _); [|discriminate]. intros [= <-]. reflexivity.
Qed.

Lemma caught_finished message res res' :
  DevServerV1.caught message res = Http.Ended res' -> Http.finished res' = true.
Proof.
  unfold DevServerV1.caught. intros [= <-].
  destruct (Http.finished res) eqn:F; [exact F|reflexivity].
Qed.

(** An asset with a build entry that [resolveDest] returns is an own
    entry of the map: a member the map inherits has none. *)
Lemma resolveDest_build_entry (assets : Types.BuilderOutputs) dest asset assetKey :
  Shared.resolveDest assets dest = (Some asset, assetKey) ->
  Types.buildEntry asset <> None ->
  In asset (JS.obj_values assets).
Proof.
  intros Hres Hentry.
  destruct (resolveDest_Some assets dest asset assetKey Hres)
    as [Hget|(_ & _ & _ & ->)]; [|now destruct Hentry].
  apply obj_get_Some_In in Hget. unfold JS.obj_values.
  now apply (in_map snd) in Hget.
Qed.

(** What [serveProjectAsNowV2] of the earlier server leaves of the
    server, whether it returns or throws: the assets are the ones of
    before, or the ones the builder made of them for an asset of the
    project that has a build entry, on a hard refresh. *)
Lemma v1_serveProjectAsNowV2_server ext srv req res nowRequestId nowJson :
  let left_as srv' :=
    srv' = srv \/
    exists asset rebuilt,
      Shared.shouldRebuild req = true /\
      In asset (JS.obj_values (DevServerV1.assets srv)) /\
      Types.buildEntry asset <> None /\
      DevServerV1.executeBuild ext nowJson (DevServerV1.assets srv) asset
      = Ok rebuilt /\
      srv' = DevServerV1.setAssets srv rebuilt in
  match DevServerV1.serveProjectAsNowV2 ext srv req res nowRequestId nowJson with
  | Ok (srv', out) =>
      (forall res', out = Http.Ended res' -> Http.finished res' = true) /\
      left_as srv'
  | Throw t => left_as (DevServerV1.thrown_server t)
  end.
Proof.
  intros left_as.
  assert (Hserve : forall srv0 r asset assetKey,
            left_as srv0 ->
            match
              DevServerV1.serveResolved ext srv0 req res nowRequestId r asset assetKey
            with
            | Ok (srv', out) =>
                (forall res', out = Http.Ended res' -> Http.finished res' = true) /\
                left_as srv'
            | Throw t => left_as (DevServerV1.thrown_server t)
            end).
  { intros srv0 r asset assetKey Hleft. unfold DevServerV1.serveResolved.
    destruct (DevServerV1.serveAsset ext req res nowRequestId r asset assetKey)
      as [out|[message res0]] eqn:Hserved; [|exact Hleft].
    split; [|exact Hleft]. intros res' ->. revert Hserved.
    apply v1_serveAsset_finished. }
  assert (Hsame : left_as srv) by now left.
  unfold DevServerV1.serveProjectAsNowV2. cbv zeta.
  set (r := DevServerV1.devRouter ext (Http.url req) (Types.routes nowJson)).
  destruct (DevServerV1.isURL ext (Types.dest r)).
  { split; [discriminate|exact Hsame]. }
  destruct (DevServerV1.is_redirect _).
  { split; [intros res' [= <-]; reflexivity|exact Hsame]. }
  destruct (Types.builds nowJson).
  2:{ split; [apply v1_static_finished|exact Hsame]. }
  destruct (Shared.resolveDest (DevServerV1.assets srv) (Types.dest r))
    as [[asset|] assetKey] eqn:Hres.
  2:{ split; [intros res' [= <-]; reflexivity|exact Hsame]. }
  destruct (String.eqb assetKey EmptyString).
  { split; [intros res' [= <-]; reflexivity|exact Hsame]. }
  destruct (Shared.shouldRebuild req) eqn:Hreb; [|now apply Hserve].
  destruct (Types.buildEntry asset) as [entry|] eqn:Hentry; [|now apply Hserve].
  destruct (DevServerV1.executeBuild ext nowJson (DevServerV1.assets srv) asset)
    as [rebuilt|message] eqn:Hbuild; [|exact Hsame].
  assert (Hright : left_as (DevServerV1.setAssets srv rebuilt)).
  { right. exists asset, rebuilt. split; [reflexivity|].
    split; [|split; [congruence|split; [exact Hbuild|reflexivity]]].
    apply (resolveDest_build_entry _ _ _ _ Hres). congruence. }
  destruct (Shared.resolveDest
              (DevServerV1.assets (DevServerV1.setAssets srv rebuilt)) (Types.dest r))
    as [[asset'|] assetKey'].
  - destruct (String.eqb assetKey' EmptyString).
    + split; [intros res' [= <-]; reflexivity|exact Hright].
    + now apply Hserve.
  - split; [intros res' [= <-]; reflexivity|exact Hright].
Qed.

Lemma v1_getNowJson_file file nowJson :
  DevServerV1.getNowJson file = Ok (Some nowJson) -> file = Types.ReadOk nowJson.
Proof.
  unfold DevServerV1.getNowJson. destruct file as [config|[c|] msg].
  - destruct (DevServerV1.validateNowConfig config); [|discriminate].
    simpl. congruence.
  - destruct (String.eqb c "ENOENT"); discriminate.
  - discriminate.
Qed.

(** X10: what a request leaves of the earlier server.  While the server
    is busy the answer depends on nothing but the status message, and
    the server stays as it is.  Otherwise the status is idle afterwards
    with an empty message, also after a failure (the error status is
    never left behind); the working directory is never changed; a
    response the server ends itself is finished; and the assets change
    only by what the builder answers on a hard refresh, for an asset of
    the project that has a build entry. *)
Theorem v1_devServerHandler_server (ext : DevServerV1.Collaborators)
  (srv : DevServerV1.DevServer) (entropy : Shared.Entropy)
  (file : Types.ReadResult Types.NowConfig)
  (req : Http.IncomingMessage) (res : Http.ServerResponse) :
  let run := DevServerV1.devServerHandler ext srv entropy file req res in
  DevServerV1.cwd (fst run) = DevServerV1.cwd srv /\
  (DevServerV1.status srv = DevServerV1.busy ->
   fst run = srv /\
   forall ext' entropy' file',
     DevServerV1.devServerHandler ext' srv entropy' file' req res = run) /\
  (DevServerV1.status srv <> DevServerV1.busy ->
   DevServerV1.status (fst run) = DevServerV1.idle /\
   DevServerV1.statusMessage (fst run) = EmptyString) /\
  (forall res', snd run = Http.Ended res' -> Http.finished res' = true) /\
  (DevServerV1.assets (fst run) = DevServerV1.assets srv \/
   exists nowJson asset rebuilt,
     file = Types.ReadOk nowJson /\
     Shared.shouldRebuild req = true /\
     In asset (JS.obj_values (DevServerV1.assets srv)) /\
     Types.buildEntry asset <> None /\
     DevServerV1.executeBuild ext nowJson (DevServerV1.assets srv) asset = Ok rebuilt /\
     DevServerV1.assets (fst run) = rebuilt).
Proof.
  intros run. unfold run, DevServerV1.devServerHandler.
  assert (Hnot : DevServerV1.status srv <> DevServerV1.busy ->
    let run :=
      match
        match DevServerV1.getNowJson file with
        | Ok (Some nowJson) =>
            DevServerV1.serveProjectAsNowV2 ext srv req res
              (Shared.generateRequestId entropy) nowJson
        | Ok None =>
            Ok (srv,
                DevServerV1.serveProjectAsStatic ext srv req res
                  (Shared.generateRequestId entropy))
        | Throw message => Throw (DevServerV1.mkThrown message res srv)
        end
      with
      | Ok (srv0, out) => (DevServerV1.setStatusIdle srv0, out)
      | Throw (DevServerV1.mkThrown message res0 srv0) =>
          (DevServerV1.setStatusIdle (DevServerV1.setStatusError srv0 message),
           DevServerV1.caught
             (DevServerV1.statusMessage (DevServerV1.setStatusError srv0 message))
             res0)
      end in
    DevServerV1.cwd (fst run) = DevServerV1.cwd srv /\
    (DevServerV1.status (fst run) = DevServerV1.idle /\
     DevServerV1.statusMessage (fst run) = EmptyString) /\
    (forall res', snd run = Http.Ended res' -> Http.finished res' = true) /\
    (DevServerV1.assets (fst run) = DevServerV1.assets srv \/
     exists nowJson asset rebuilt,
       file = Types.ReadOk nowJson /\
       Shared.shouldRebuild req = true /\
       In asset (JS.obj_values (DevServerV1.assets srv)) /\
       Types.buildEntry asset <> None /\
       DevServerV1.executeBuild ext nowJson (DevServerV1.assets srv) asset
       = Ok rebuilt /\
       DevServerV1.assets (fst run) = rebuilt)).
  { intros _.
    destruct (DevServerV1.getNowJson file) as [[nowJson|]|message] eqn:Hcfg.
    - pose proof (v1_serveProjectAsNowV2_server ext srv req res
                    (Shared.generateRequestId entropy) nowJson) as Hrun.
      cbv zeta in Hrun. apply v1_getNowJson_file in Hcfg.
      destruct (DevServerV1.serveProjectAsNowV2 ext srv req res
                  (Shared.generateRequestId entropy) nowJson)
        as [[srv' out]|[message res0 srv0]]; simpl in Hrun |- *.
      + destruct Hrun as [Hfin Hsrv].
        split; [destruct Hsrv as [->|(a & rb & _ & _ & _ & _ & ->)]; reflexivity|].
        split; [auto|]. split; [exact Hfin|].
        destruct Hsrv as [->|(a & rb & Hreb & Hin & He & Hb & ->)]; [now left|].
        right. exists nowJson, a, rb. auto 10.
      + split; [destruct Hrun as [->|(a & rb & _ & _ & _ & _ & ->)]; reflexivity|].
        split; [auto|]. split; [apply caught_finished|].
        destruct Hrun as [->|(a & rb & Hreb & Hin & He & Hb & ->)]; [now left|].
        right. exists nowJson, a, rb. auto 10.
    - simpl. split; [reflexivity|]. split; [auto|].
      split; [apply v1_static_finished|now left].
    - simpl. split; [reflexivity|]. split; [auto|].
      split; [apply caught_finished|now left]. }
  destruct (DevServerV1.status srv) eqn:Hst.
  - (* idle *)
    destruct Hnot as (Hcwd & Hidle & Hfin & Hassets); [discriminate|].
    split; [exact Hcwd|]. split; [discriminate|]. split; [auto|]. split; assumption.
  - (* busy *)
    simpl. split; [reflexivity|]. split; [|split; [congruence|]].
    + intros _. split; [reflexivity|]. intros ext' entropy' file'. reflexivity.
    + split; [intros res' [= <-]; reflexivity|now left].
  - (* error *)
    destruct Hnot as (Hcwd & Hidle & Hfin & Hassets); [discriminate|].
    split; [exact Hcwd|]. split; [discriminate|]. split; [auto|]. split; assumption.
Qed.

Lemma v1_devServerHandler_server_witness :
  let booting := DevServerV1.setAssets (DevServerV1.constructor "/project")
                   Examples.sample_assets in
  let failed :=
    DevServerV1.mkServer "/project" Examples.sample_assets DevServerV1.error "boom" in
  fst (DevServerV1.devServerHandler Examples.sample_v1 booting Examples.sample_entropy
         (Types.ReadOk Examples.sample_config) (Examples.get "/api/hello") Http.fresh)
  = booting /\
  DevServerV1.status
    (fst (DevServerV1.devServerHandler Examples.sample_v1 failed
            Examples.sample_entropy (Types.ReadFails None "Unexpected token")
            (Examples.get "/api/hello") Http.fresh))
  = DevServerV1.idle.
Proof.
  intros booting failed. split.
  - destruct (v1_devServerHandler_server Examples.sample_v1 booting
                Examples.sample_entropy (Types.ReadOk Examples.sample_config)
                (Examples.get "/api/hello") Http.fresh) as (_ & Hbusy & _).
    destruct Hbusy as [H _]; [reflexivity|exact H].
  - destruct (v1_devServerHandler_server Examples.sample_v1 failed
                Examples.sample_entropy (Types.ReadFails None "Unexpected token")
                (Examples.get "/api/hello") Http.fresh) as (_ & _ & Hidle & _).
    destruct Hidle as [H _]; [discriminate|exact H].
Defined.

(** X11: a request that is no hard refresh never reaches the builder:
    the earlier server answers it the same whatever [executeBuild]
    would do, and its assets are the ones of before. *)
Theorem v1_without_refresh_no_build (ext : DevServerV1.Collaborators)
  (srv : DevServerV1.DevServer) (entropy : Shared.Entropy)
  (file : Types.ReadResult Types.NowConfig)
  (req : Http.IncomingMessage) (res : Http.ServerResponse)
  (build : Types.NowConfig -> Types.BuilderOutputs -> Types.BuilderOutput ->
           Exc string Types.BuilderOutputs) :
  Shared.shouldRebuild req = false ->
  DevServerV1.devServerHandler (Props.with_executeBuild ext build) srv entropy file
    req res
  = DevServerV1.devServerHandler ext srv entropy file req res /\
  DevServerV1.assets
    (fst (DevServerV1.devServerHandler ext srv entropy file req res))
  = DevServerV1.assets srv.
Proof.
  intros Hreb.
  assert (Hsame : forall nowRequestId nowJson,
            DevServerV1.serveProjectAsNowV2 (Props.with_executeBuild ext build) srv
              req res nowRequestId nowJson
            = DevServerV1.serveProjectAsNowV2 ext srv req res nowRequestId nowJson).
  { intros nowRequestId nowJson. unfold DevServerV1.serveProjectAsNowV2.
    rewrite Hreb. reflexivity. }
  assert (Hkeep : forall nowRequestId nowJson,
            match
              DevServerV1.serveProjectAsNowV2 ext srv req res nowRequestId nowJson
            with
            | Ok (srv', _) => srv' = srv
            | Throw t => DevServerV1.thrown_server t = srv
            end).
  { intros nowRequestId nowJson.
    pose proof (v1_serveProjectAsNowV2_server ext srv req res nowRequestId nowJson)
      as Hrun. cbv zeta in Hrun.
    destruct (DevServerV1.serveProjectAsNowV2 ext srv req res nowRequestId nowJson)
      as [[srv' out]|t].
    - destruct Hrun as [_ [H|(a & rb & Ht & _)]]; [exact H|congruence].
    - destruct Hrun as [H|(a & rb & Ht & _)]; [exact H|congruence]. }
  unfold DevServerV1.devServerHandler.
  destruct (DevServerV1.status srv); try (split; reflexivity);
    destruct (DevServerV1.getNowJson file) as [[nowJson|]|message]; simpl;
    try (split; reflexivity);
    rewrite Hsame;
    pose proof (Hkeep (Shared.generateRequestId entropy) nowJson) as Hrun;
    destruct (DevServerV1.serveProjectAsNowV2 ext srv req res
                (Shared.generateRequestId entropy) nowJson)
      as [[srv' out]|[message res0 srv0]]; simpl in Hrun |- *;
    rewrite Hrun; split; reflexivity.
Qed.

Lemma v1_without_refresh_no_build_witness :
  DevServerV1.devServerHandler
    (Props.with_executeBuild Examples.sample_v1 (fun _ _ _ => Throw "no builder"))
    Examples.sample_server_v1 Examples.sample_entropy
    (Types.ReadOk Examples.sample_config) (Examples.get "/blog") Http.fresh
  = DevServerV1.devServerHandler Examples.sample_v1
      Examples.sample_server_v1 Examples.sample_entropy
      (Types.ReadOk Examples.sample_config) (Examples.get "/blog") Http.fresh.
Proof.
  apply (v1_without_refresh_no_build Examples.sample_v1 Examples.sample_server_v1
           Examples.sample_entropy (Types.ReadOk Examples.sample_config)
           (Examples.get "/blog") Http.fresh (fun _ _ _ => Throw "no builder")).
  reflexivity.
Defined.

(** ** The earlier server: what the assets answer *)

Lemma send404_response res nowRequestId :
  let res' := Shared.send404 res nowRequestId in
  Http.statusCode res' = 404%Z /\
  Http.finished res' = true /\
  Http.body res'
  = Http.BodyText
      ("404: The page could not be found" ++ JS.nl ++ "Code: FILE_NOT_FOUND" ++ JS.nl) /\
  Spec.carries_now_headers res' nowRequestId.
Proof.
  intros res'. unfold res', Shared.send404.
  split; [apply writeResponseHeaders_statusCode|].
  split; [reflexivity|]. split; [reflexivity|apply sendError_now].
Qed.

(** X12: on a project with builds, a request that is neither proxied nor
    redirected and whose destination [resolveDest] finds no asset for
    (no entry of the map, no index entry, no member the map inherits),
    or only an asset stored under the empty key, gets the 404
    [FILE_NOT_FOUND] response with the Now headers; the server is left
    as it is, and no build is run even on a hard refresh. *)
Theorem v1_unresolved_is_404 (ext : DevServerV1.Collaborators)
  (srv : DevServerV1.DevServer) (req : Http.IncomingMessage)
  (res : Http.ServerResponse) (nowRequestId : string) (nowJson : Types.NowConfig) :
  let r := DevServerV1.devRouter ext (Http.url req) (Types.routes nowJson) in
  Props.routed_to_assets ext req nowJson ->
  fst (Shared.resolveDest (DevServerV1.assets srv) (Types.dest r)) = None \/
  snd (Shared.resolveDest (DevServerV1.assets srv) (Types.dest r)) = EmptyString ->
  exists res',
    DevServerV1.serveProjectAsNowV2 ext srv req res nowRequestId nowJson
    = Ok (srv, Http.Ended res') /\
    res' = Shared.send404 res nowRequestId /\
    Http.statusCode res' = 404%Z /\
    Http.body res'
    = Http.BodyText
        ("404: The page could not be found" ++ JS.nl
         ++ "Code: FILE_NOT_FOUND" ++ JS.nl) /\
    Spec.carries_now_headers res' nowRequestId.
Proof.
  intros r (Hurl & Hred & Hb) Hmiss.
  destruct (send404_response res nowRequestId) as (Hcode & _ & Hbody & Hnow).
  exists (Shared.send404 res nowRequestId).
  split; [|split; [reflexivity|split; [exact Hcode|split; [exact Hbody|exact Hnow]]]].
  subst r. unfold DevServerV1.serveProjectAsNowV2. rewrite Hurl, Hred.
  destruct (Types.builds nowJson) as [bs|]; [|now destruct Hb].
  destruct (Shared.resolveDest (DevServerV1.assets srv) _)
    as [[asset|] assetKey]; [|reflexivity].
  simpl in Hmiss. destruct Hmiss as [Hmiss| ->]; [discriminate|reflexivity].
Qed.

Lemma v1_unresolved_is_404_witness :
  exists res',
    DevServerV1.serveProjectAsNowV2 Examples.sample_v1 Examples.sample_server_v1
      (Examples.refresh "/api/missing") Http.fresh "a-1-b" Examples.sample_config
    = Ok (Examples.sample_server_v1, Http.Ended res') /\
    Http.statusCode res' = 404%Z.
Proof.
  destruct (v1_unresolved_is_404 Examples.sample_v1 Examples.sample_server_v1
              (Examples.refresh "/api/missing") Http.fresh "a-1-b"
              Examples.sample_config)
    as (res' & Hrun & _ & Hcode & _).
  - split; [reflexivity|split; [reflexivity|discriminate]].
  - left. reflexivity.
  - exists res'. split; assumption.
Defined.

(** ** Response headers, further *)

Lemma existsb_key_set {V} (p : string -> bool) (o : JS.obj V) k v :
  existsb (fun kv => p (fst kv)) (JS.obj_set o k v)
  = existsb (fun kv => p (fst kv)) o || p k.
Proof.
  induction o as [|[k0 v0] o IH]; simpl; [now rewrite orb_false_r|].
  destruct (String.eqb_spec k0 k) as [->|]; simpl.
  - destruct (p k), (existsb _ o); reflexivity.
  - rewrite IH. now rewrite orb_assoc.
Qed.

Lemma existsb_key_assign {V} (p : string -> bool) (src : JS.obj V) : forall acc,
  existsb (fun kv => p (fst kv)) (JS.obj_assign acc src)
  = existsb (fun kv => p (fst kv)) acc || existsb (fun kv => p (fst kv)) src.
Proof.
  unfold JS.obj_assign.
  induction src as [|[k v] src IH]; intros acc; simpl; [now rewrite orb_false_r|].
  rewrite IH, existsb_key_set. simpl. now rewrite orb_assoc.
Qed.

Lemma writeResponseHeaders_keeps res nowRequestId hs n :
  Spec.is_now_header n = false ->
  existsb (fun kv => String.eqb (JS.toLowerCase (fst kv)) (JS.toLowerCase n))
    (match hs with Some h => h | None => [] end) = false ->
  Http.getHeader (Shared.writeResponseHeaders res nowRequestId hs) n
  = Http.getHeader res n.
Proof.
  intros Hn Hhs. unfold Shared.writeResponseHeaders, Shared.allHeaders.
  rewrite getHeader_setHeaders. rewrite last_named_none; [reflexivity|].
  rewrite (existsb_key_assign (fun k => String.eqb (JS.toLowerCase k) (JS.toLowerCase n))).
  rewrite (existsb_key_assign (fun k => String.eqb (JS.toLowerCase k) (JS.toLowerCase n))).
  cbv beta. unfold Spec.is_now_header in Hn.
  apply orb_false_iff in Hn as [Hn Hc]. apply orb_false_iff in Hn as [Ht Hi].
  destruct hs as [h|]; cbn [existsb fst] in Hhs |- *; rewrite ?Hhs;
    change (JS.toLowerCase "x-now-trace") with "x-now-trace";
    change (JS.toLowerCase "x-now-id") with "x-now-id";
    change (JS.toLowerCase "x-now-cache") with "x-now-cache";
    rewrite (String.eqb_sym "x-now-trace" (JS.toLowerCase n)), Ht;
    rewrite (String.eqb_sym "x-now-id" (JS.toLowerCase n)), Hi;
    rewrite (String.eqb_sym "x-now-cache" (JS.toLowerCase n)), Hc; reflexivity.
Qed.

Lemma setHeaders_rest hs : forall res,
  Http.finished (Http.setHeaders res hs) = Http.finished res /\
  Http.body (Http.setHeaders res hs) = Http.body res.
Proof.
  induction hs as [|[k v] hs IH]; intros res; [auto|].
  change (Http.setHeaders res ((k, v) :: hs))
    with (Http.setHeaders (Http.setHeader res k v) hs).
  destruct (IH (Http.setHeader res k v)) as [-> ->]. auto.
Qed.

(** X13: writing the response headers touches nothing but the headers it
    names: the status code, the body and the finished flag stay, and so
    does every header already on the response whose name, letter case
    apart, is neither a Now header nor among the headers given.  An
    error response likewise keeps the headers set before it, whatever
    its code and message. *)
Theorem writeResponseHeaders_frame (res : Http.ServerResponse)
  (nowRequestId : string) (hs : option (JS.obj Http.HeaderValue)) :
  let res' := Shared.writeResponseHeaders res nowRequestId hs in
  Http.statusCode res' = Http.statusCode res /\
  Http.finished res' = Http.finished res /\
  Http.body res' = Http.body res /\
  (forall n,
     Spec.is_now_header n = false ->
     existsb (fun kv => String.eqb (JS.toLowerCase (fst kv)) (JS.toLowerCase n))
       (match hs with Some h => h | None => [] end) = false ->
     Http.getHeader res' n = Http.getHeader res n) /\
  (forall n code message statusCode,
     Spec.is_now_header n = false ->
     Http.getHeader (Shared.sendError res nowRequestId code message statusCode) n
     = Http.getHeader res n).
Proof.
  intros res'. unfold res'.
  split; [apply writeResponseHeaders_statusCode|].
  split; [apply setHeaders_rest|]. split; [apply setHeaders_rest|].
  split; [intros n; apply writeResponseHeaders_keeps|].
  intros n code message statusCode Hn. unfold Shared.sendError.
  change (Http.getHeader
            (Shared.writeResponseHeaders (Http.setStatusCode res statusCode)
               nowRequestId None) n
          = Http.getHeader res n).
  now rewrite writeResponseHeaders_keeps.
Qed.

Lemma writeResponseHeaders_frame_witness :
  let res := Http.setHeader Http.fresh "Set-Cookie" (Http.HStr "a=1") in
  Http.getHeader
    (Shared.writeResponseHeaders res "a-1-b"
       (Some [("Content-Type", Http.HStr "text/html")])) "set-cookie"
  = Some (Http.HStr "a=1") /\
  Http.getHeader
    (Shared.sendError res "a-1-b" "FILE_NOT_FOUND" "The page could not be found" 404)
    "SET-COOKIE"
  = Some (Http.HStr "a=1").
Proof.
  intros res. split.
  - destruct (writeResponseHeaders_frame res "a-1-b"
                (Some [("Content-Type", Http.HStr "text/html")]))
      as (_ & _ & _ & Hkeep & _).
    rewrite Hkeep; reflexivity.
  - destruct (writeResponseHeaders_frame res "a-1-b" None) as (_ & _ & _ & _ & Herr).
    rewrite Herr; reflexivity.
Defined.

(** ** The earlier server: in-memory files and function payloads *)

Lemma v1_serve_resolved ext srv req res nowRequestId nowJson asset assetKey :
  Props.routed_to_assets ext req nowJson ->
  Shared.resolveDest (DevServerV1.assets srv)
    (Types.dest (DevServerV1.devRouter ext (Http.url req) (Types.routes nowJson)))
  = (Some asset, assetKey) ->
  assetKey <> EmptyString ->
  Shared.shouldRebuild req = false \/ Types.buildEntry asset = None ->
  DevServerV1.serveProjectAsNowV2 ext srv req res nowRequestId nowJson
  = DevServerV1.serveResolved ext srv req res nowRequestId
      (DevServerV1.devRouter ext (Http.url req) (Types.routes nowJson))
      asset assetKey.
Proof.
  intros (Hurl & Hred & Hb) Hres Hkey Hno.
  unfold DevServerV1.serveProjectAsNowV2. cbv zeta. rewrite Hurl, Hred, Hres.
  destruct (Types.builds nowJson) as [bs|]; [|now destruct Hb].
  apply String.eqb_neq in Hkey. rewrite Hkey.
  destruct Hno as [-> | ->]; [reflexivity|].
  destruct (Shared.shouldRebuild req); reflexivity.
Qed.

(** X14: an in-memory file is sent as it is.  For a request routed to a
    [FileBlob] asset, without a rebuild, the body is the data of the
    asset, [Content-Length] is its number of bytes, the status code is
    the one the response had, and the Now headers are set;
    [Content-Type] is what [lookupMimeType] knows for the key of the
    asset, and is left as it was when it knows nothing. *)
Theorem v1_blob_response (ext : DevServerV1.Collaborators)
  (srv : DevServerV1.DevServer) (req : Http.IncomingMessage)
  (res : Http.ServerResponse) (nowRequestId : string) (nowJson : Types.NowConfig)
  (asset : Types.BuilderOutput) (assetKey : string) (data : list byte) :
  Props.routed_to_assets ext req nowJson ->
  Shared.resolveDest (DevServerV1.assets srv)
    (Types.dest (DevServerV1.devRouter ext (Http.url req) (Types.routes nowJson)))
  = (Some asset, assetKey) ->
  assetKey <> EmptyString ->
  Types.asset_body asset = Types.FileBlob data ->
  Shared.shouldRebuild req = false \/ Types.buildEntry asset = None ->
  exists res',
    DevServerV1.serveProjectAsNowV2 ext srv req res nowRequestId nowJson
    = Ok (srv, Http.Ended res') /\
    Http.body res' = Http.BodyBytes data /\
    Http.finished res' = true /\
    Http.statusCode res' = Http.statusCode res /\
    Http.getHeader res' "Content-Length"
    = Some (Http.HNum (Z.of_nat (length data))) /\
    Spec.carries_now_headers res' nowRequestId /\
    (forall contentType,
       DevServerV1.lookupMimeType ext assetKey = Some contentType ->
       contentType <> EmptyString ->
       Http.getHeader res' "Content-Type" = Some (Http.HStr contentType)) /\
    (DevServerV1.lookupMimeType ext assetKey = None \/
     DevServerV1.lookupMimeType ext assetKey = Some EmptyString ->
     Http.getHeader res' "Content-Type" = Http.getHeader res "Content-Type").
Proof.
  intros Hrouted Hres Hkey Hblob Hno.
  rewrite (v1_serve_resolved _ _ _ _ _ _ _ _ Hrouted Hres Hkey Hno).
  unfold DevServerV1.serveResolved, DevServerV1.serveAsset. rewrite Hblob.
  eexists. split; [reflexivity|]. split; [reflexivity|]. split; [reflexivity|].
  split; [apply writeResponseHeaders_statusCode|].
  pose proof (blob_headers_distinct (Z.of_nat (length data))
                (DevServerV1.lookupMimeType ext assetKey)) as Hd.
  split; [|split; [|split]].
  - apply writeResponseHeaders_other; [exact Hd| |reflexivity].
    destruct (DevServerV1.lookupMimeType ext assetKey) as [c|];
      [destruct (String.eqb c EmptyString)|]; simpl; auto.
  - apply writeResponseHeaders_now. exact Hd.
  - intros contentType Hm Hne.
    change (Http.getHeader
              (Shared.writeResponseHeaders res nowRequestId
                 (Some
                    match DevServerV1.lookupMimeType ext assetKey with
                    | Some contentType0 =>
                        if String.eqb contentType0 EmptyString
                        then [("Content-Length", Http.HNum (Z.of_nat (length data)))]
                        else JS.obj_set
                               [("Content-Length", Http.HNum (Z.of_nat (length data)))]
                               "Content-Type" (Http.HStr contentType0)
                    | None => [("Content-Length", Http.HNum (Z.of_nat (length data)))]
                    end)) "Content-Type"
            = Some (Http.HStr contentType)).
    apply writeResponseHeaders_other; [exact Hd| |reflexivity].
    rewrite Hm. apply String.eqb_neq in Hne. rewrite Hne. simpl. auto.
  - intros Hnone.
    change (Http.getHeader
              (Shared.writeResponseHeaders res nowRequestId
                 (Some
                    match DevServerV1.lookupMimeType ext assetKey with
                    | Some contentType0 =>
                        if String.eqb contentType0 EmptyString
                        then [("Content-Length", Http.HNum (Z.of_nat (length data)))]
                        else JS.obj_set
                               [("Content-Length", Http.HNum (Z.of_nat (length data)))]
                               "Content-Type" (Http.HStr contentType0)
                    | None => [("Content-Length", Http.HNum (Z.of_nat (length data)))]
                    end)) "Content-Type"
            = Http.getHeader res "Content-Type").
    apply writeResponseHeaders_keeps; [reflexivity|].
    destruct Hnone as [-> | ->]; reflexivity.
Qed.

Lemma v1_blob_response_witness :
  exists res',
    DevServerV1.serveProjectAsNowV2 Examples.sample_v1 Examples.sample_server_v1
      (Examples.refresh "/blog/") Http.fresh "a-1-b" Examples.sample_config
    = Ok (Examples.sample_server_v1, Http.Ended res') /\
    Http.body res' = Http.BodyBytes [x68; x69] /\
    Http.getHeader res' "content-length" = Some (Http.HNum 2) /\
    Http.getHeader res' "Content-Type" = None.
Proof.
  destruct (v1_blob_response Examples.sample_v1 Examples.sample_server_v1
              (Examples.refresh "/blog/") Http.fresh "a-1-b" Examples.sample_config
              (Types.mkOutput (Types.FileBlob [x68; x69]) None None)
              "blog/index.html" [x68; x69])
    as (res' & Hrun & Hbody & _ & _ & Hlen & _ & _ & Htype).
  - split; [reflexivity|split; [reflexivity|discriminate]].
  - reflexivity.
  - discriminate.
  - reflexivity.
  - right. reflexivity.
  - exists res'. split; [exact Hrun|]. split; [exact Hbody|]. split; [exact Hlen|].
    rewrite Htype; [reflexivity|]. left. reflexivity.
Defined.

(** X15: the payload handed to a function.  Its body is the body of the
    request in base64, which decodes back to the bytes received; its
    encoding is [base64]; its method is the one of the request, [GET]
    when the request has none; its headers are the proxy headers built
    from the headers of the request.  Hence a function that echoes the
    body of its payload, with the encoding [base64], makes the server
    answer with the very bytes of the request, under the status code
    the function gave, when that status code is one Node accepts (100
    to 999) and Node accepts the headers written. *)
Theorem invokePayload_round_trip (ext : DevServerV1.Collaborators)
  (req : Http.IncomingMessage) (nowRequestId : string) (r : Types.RouteResult) :
  let payload := DevServerV1.invokePayload ext req nowRequestId r in
  Buffer.from_base64 (Types.payload_body payload) = Http.rawBody req /\
  Types.payload_encoding payload = "base64" /\
  Types.payload_method payload <> EmptyString /\
  (Http.method req = None -> Types.payload_method payload = "GET") /\
  Types.payload_headers payload
  = DevServerV1.getNowProxyHeaders req nowRequestId (Http.req_headers req) /\
  (forall res asset assetKey fn statusCode headers,
     Types.asset_body asset = Types.Lambda (Some fn) ->
     DevServerV1.invoke ext fn payload
     = Types.FnReturns
         (Types.mkResult statusCode headers (Some "base64")
            (Types.ResultString (Types.payload_body payload))) ->
     Http.accepted (Shared.allHeaders nowRequestId headers) = true ->
     Http.valid_status statusCode = true ->
     exists res',
       DevServerV1.serveAsset ext req res nowRequestId r asset assetKey
       = Ok (Http.Ended res') /\
       Http.body res' = Http.BodyBytes (Http.rawBody req) /\
       Http.statusCode res' = statusCode).
Proof.
  intros payload. unfold payload.
  split; [apply from_base64_toString_base64|]. split; [reflexivity|].
  split; [|split; [|split; [reflexivity|]]].
  - unfold DevServerV1.invokePayload. simpl.
    destruct (Http.method req) as [m|]; [|discriminate].
    destruct (String.eqb_spec m EmptyString); [discriminate|assumption].
  - intros Hm. unfold DevServerV1.invokePayload. simpl. now rewrite Hm.
  - intros res asset assetKey fn statusCode headers Ha Hinv Hacc Hst.
    rewrite (serveAsset_result _ _ _ _ _ _ _ _ _ Ha Hinv Hacc).
    cbn [Types.result_statusCode]. rewrite Hst.
    eexists. split; [reflexivity|]. split.
    + cbn [Http.body Http.end_].
      rewrite (resultBody_decoded _ (Buffer.toString_base64 (Http.rawBody req)))
        by reflexivity.
      f_equal. apply from_base64_toString_base64.
    + apply writeResponseHeaders_statusCode.
Qed.

Lemma invokePayload_round_trip_witness :
  let echo : DevServerV1.Collaborators :=
    DevServerV1.mkCollaborators
      (fun url _ => Examples.sample_router url) Examples.sample_isURL (fun _ => false)
      (fun _ assets _ => Ok assets) (fun _ assets => Ok assets) (fun _ => None)
      (fun _ payload =>
         Types.FnReturns
           (Types.mkResult 201 None (Some "base64")
              (Types.ResultString (Types.payload_body payload))))
      (fun url _ => url) (fun path => path) (fun path => path) in
  let req :=
    Http.mkRequest (Some "POST") "/api/echo" [("host", "localhost:3000")] None
      [x00; xff; x68; x69] in
  exists res',
    DevServerV1.serveAsset echo req Http.fresh "a-1-b"
      (Examples.sample_router "/api/echo")
      (Types.mkOutput (Types.Lambda (Some "echo")) None None) "api/echo"
    = Ok (Http.Ended res') /\
    Http.body res' = Http.BodyBytes [x00; xff; x68; x69] /\
    Http.statusCode res' = 201%Z.
Proof.
  intros echo req.
  destruct (invokePayload_round_trip echo req "a-1-b"
              (Examples.sample_router "/api/echo")) as (_ & _ & _ & _ & _ & Hecho).
  apply (Hecho Http.fresh (Types.mkOutput (Types.Lambda (Some "echo")) None None)
           "api/echo" "echo" 201%Z None); reflexivity.
Defined.

(** ** The later server: starting *)

Lemma prepare_frame srv dotenv dotenvBuild file matches srv' :
  DevServer.prepare srv dotenv dotenvBuild file matches = Ok srv' ->
  DevServer.getLocalEnv dotenv = Ok (DevServer.env srv') /\
  DevServer.getLocalEnv dotenvBuild = Ok (DevServer.buildEnv srv') /\
  DevServer.cwd srv' = DevServer.cwd srv /\
  DevServer.assets srv' = DevServer.assets srv /\
  DevServer.stopping srv' = DevServer.stopping srv /\
  DevServer.originalEnv srv' = DevServer.originalEnv srv.
Proof.
  unfold DevServer.prepare.
  destruct (DevServer.getLocalEnv dotenv) as [e|err]; [|discriminate].
  destruct (DevServer.getLocalEnv dotenvBuild) as [be|err]; [|discriminate]. simpl.
  destruct (DevServer.getNowJson _ file) as [[nowJson|]|err]; [| |discriminate]; simpl.
  - destruct matches as [ms|err]; [|discriminate]. simpl. intros [= <-]. auto 10.
  - intros [= <-]. auto 10.
Qed.

(** X16: [start] of the later server settles the configuration before it
    asks for the port.  Whatever fails while the local env files and
    [now.json] are read and checked is thrown as it is, and no answer to
    a listen attempt matters then.  The env sections are checked
    against the files just read, not against what the server held
    before: a reference that [.env] leaves unresolved, all of them when
    the file does not exist, makes [start] throw the
    [MissingDotenvVarsError] that names them.  A server that has
    started holds the two local env files as they were read, and its
    assets, its stopping flag and its snapshot of the process
    environment are the ones of before. *)
Theorem start_settles_configuration_first (srv : DevServer.DevServer)
  (port : option Z) (dotenv dotenvBuild : Types.ReadResult Types.EnvConfig)
  (file : Types.ReadResult Types.NowConfig)
  (matches : Exc DevServer.Err (list DevServer.BuildMatch))
  (answers : list Shared.ListenAnswer) :
  (forall e,
     DevServer.prepare srv dotenv dotenvBuild file matches = Throw e ->
     DevServer.start srv port dotenv dotenvBuild file matches answers
     = DevServer.StartThrows e) /\
  (forall localEnv localBuildEnv config,
     DevServer.getLocalEnv dotenv = Ok localEnv ->
     DevServer.getLocalEnv dotenvBuild = Ok localBuildEnv ->
     file = Types.ReadOk config ->
     Types.version config = Some (JS.JNum 2) ->
     (exists name, Spec.unresolved (Spec.section (Types.env config)) localEnv name) ->
     exists missing,
       DevServer.start srv port dotenv dotenvBuild file matches answers
       = DevServer.StartThrows (DevServer.MissingDotenvVarsError ".env" missing) /\
       forall name,
         In name missing
         <-> Spec.unresolved (Spec.section (Types.env config)) localEnv name) /\
  (forall srv' p address,
     DevServer.start srv port dotenv dotenvBuild file matches answers
     = DevServer.Started srv' p address ->
     DevServer.getLocalEnv dotenv = Ok (DevServer.env srv') /\
     DevServer.getLocalEnv dotenvBuild = Ok (DevServer.buildEnv srv') /\
     DevServer.assets srv' = DevServer.assets srv /\
     DevServer.stopping srv' = DevServer.stopping srv /\
     DevServer.originalEnv srv' = DevServer.originalEnv srv).
Proof.
  split; [|split].
  - intros e He. unfold DevServer.start. now rewrite He.
  - intros localEnv localBuildEnv config He Hbe -> Hv Hu.
    destruct (validateEnvConfig_throws ".env" _ _ Hu) as (missing & Hthrow & Hm).
    exists missing. split; [|exact Hm].
    unfold DevServer.start, DevServer.prepare. rewrite He, Hbe. simpl.
    unfold DevServer.validateNowConfig. rewrite Hv. simpl.
    rewrite validateEnvConfig_default, Hthrow. reflexivity.
  - intros srv' p address. unfold DevServer.start.
    destruct (DevServer.prepare srv dotenv dotenvBuild file matches)
      as [srv1|e] eqn:Hp; [|discriminate].
    destruct (Shared.listenLoop _ answers); try discriminate.
    intros [= <- _ _].
    destruct (prepare_frame _ _ _ _ _ _ Hp) as (H1 & H2 & _ & H3 & H4 & H5). auto.
Qed.

Lemma start_settles_configuration_first_witness :
  let cfg :=
    Types.mkNowConfig (Some (JS.JNum 2))
      (Some [("API_KEY", JS.JStr "@api-key"); ("MODE", JS.JStr "dev");
             ("TOKEN", JS.JStr "@token")]) None None None in
  let defined :=
    DevServer.setLocalEnv Examples.sample_server
      [("API_KEY", JS.JStr "k"); ("TOKEN", JS.JStr "t")] [] in
  DevServer.start defined None (Types.ReadFails (Some "ENOENT") "no such file")
    (Types.ReadOk []) (Types.ReadOk cfg) (Ok [])
    [Shared.Listening "http://[::]:3000"]
  = DevServer.StartThrows
      (DevServer.MissingDotenvVarsError ".env" ["API_KEY"; "TOKEN"]) /\
  DevServer.env
    match
      DevServer.start Examples.sample_server None
        (Types.ReadOk [("API_KEY", JS.JStr "k"); ("TOKEN", JS.JStr "t")])
        (Types.ReadOk []) (Types.ReadOk cfg) (Ok [])
        [Shared.Listening "http://[::]:3000"]
    with
    | DevServer.Started srv' _ _ => srv'
    | _ => Examples.sample_server
    end
  = [("API_KEY", JS.JStr "k"); ("TOKEN", JS.JStr "t")].
Proof.
  intros cfg defined. split.
  - destruct (start_settles_configuration_first defined None
                (Types.ReadFails (Some "ENOENT") "no such file")
                (Types.ReadOk []) (Types.ReadOk cfg) (Ok [])
                [Shared.Listening "http://[::]:3000"]) as (Hfirst & _ & _).
    apply Hfirst. reflexivity.
  - destruct (start_settles_configuration_first Examples.sample_server None
                (Types.ReadOk [("API_KEY", JS.JStr "k"); ("TOKEN", JS.JStr "t")])
                (Types.ReadOk []) (Types.ReadOk cfg) (Ok [])
                [Shared.Listening "http://[::]:3000"]) as (_ & _ & Hstarted).
    destruct (Hstarted
                (DevServer.setLocalEnv Examples.sample_server
                   [("API_KEY", JS.JStr "k"); ("TOKEN", JS.JStr "t")] [])
                3000%Z "http://[::]:3000" eq_refl) as (Henv & _).
    reflexivity.
Defined.

(** ** The build environment, further *)





(** ** The later server: what a run never changes *)

Lemma nth_error_replace {A} (x : A) : forall (ts : list A) (i j : nat) (t : A),
  nth_error ts i = Some t ->
  nth_error (firstn i ts ++ x :: skipn (S i) ts)%list j
  = if Nat.eqb j i then Some x else nth_error ts j.
Proof.
  induction ts as [|t0 ts IH]; intros i j t Hi.
  - destruct i; discriminate.
  - destruct i as [|i]; simpl.
    + destruct j; reflexivity.
    + destruct j as [|j]; [reflexivity|]. simpl in Hi. simpl. now apply (IH i j t).
Qed.

Lemma length_replace {A} (x : A) : forall (ts : list A) (i : nat) (t : A),
  nth_error ts i = Some t ->
  length (firstn i ts ++ x :: skipn (S i) ts)%list = length ts.
Proof.
  induction ts as [|t0 ts IH]; intros i t Hi.
  - destruct i; discriminate.
  - destruct i as [|i]; simpl; [reflexivity|]. f_equal. now apply (IH i t).
Qed.

Lemma resume_server ext srv t c :
  let srv' := fst (DevServer.resume ext srv t c) in
  DevServer.cwd srv' = DevServer.cwd srv /\
  DevServer.env srv' = DevServer.env srv /\
  DevServer.buildEnv srv' = DevServer.buildEnv srv /\
  DevServer.originalEnv srv' = DevServer.originalEnv srv /\
  DevServer.stopping srv' = DevServer.stopping srv.
Proof.
  destruct t as [req res nowRequestId|req res nowJson|req res nowJson|out];
    destruct c as [file| |matches]; simpl; auto 10.
  - destruct (DevServer.getNowJson srv file) as [[nowJson|]|e]; simpl; auto 10.
  - unfold DevServer.serveProjectAsNowV2. destruct matches as [ms|e]; simpl; auto 10.
    destruct (DevServer.route ext _ req res nowJson) as [out|[e res0]]; simpl; auto 10.
Qed.

Lemma resume_finished ext srv out c :
  DevServer.resume ext srv (DevServer.Finished out) c = (srv, DevServer.Finished out).
Proof. destruct c; reflexivity. Qed.

Lemma step_invariants ext s s' :
  DevServer.step ext s s' ->
  DevServer.cwd (DevServer.server s') = DevServer.cwd (DevServer.server s) /\
  DevServer.env (DevServer.server s') = DevServer.env (DevServer.server s) /\
  DevServer.buildEnv (DevServer.server s') = DevServer.buildEnv (DevServer.server s) /\
  DevServer.originalEnv (DevServer.server s')
  = DevServer.originalEnv (DevServer.server s) /\
  (DevServer.stopping (DevServer.server s) = true ->
   DevServer.stopping (DevServer.server s') = true) /\
  length (DevServer.tasks s) <= length (DevServer.tasks s') /\
  (forall i out,
     nth_error (DevServer.tasks s) i = Some (DevServer.Finished out) ->
     nth_error (DevServer.tasks s') i = Some (DevServer.Finished out)).
Proof.
  intros [srv ts entropy req res|srv ts i t c Hi|srv ts]; simpl.
  - repeat split; auto.
    + rewrite length_app. simpl. lia.
    + intros i out Hi. rewrite nth_error_app1; [exact Hi|].
      apply nth_error_Some. congruence.
  - destruct (resume_server ext srv t c) as (H1 & H2 & H3 & H4 & H5).
    repeat split; auto.
    + intros Hs. now rewrite H5.
    + rewrite (length_replace _ ts i t Hi). lia.
    + intros j out Hj. rewrite (nth_error_replace _ ts i j t Hi).
      destruct (Nat.eqb_spec j i) as [->|]; [|exact Hj].
      rewrite Hi in Hj. injection Hj as ->. now rewrite resume_finished.
  - unfold DevServer.stop. destruct (DevServer.stopping srv) eqn:Hs; simpl; auto 10.
Qed.

(** X18: along any run of the later server, however requests are
    accepted, resumed and interleaved with calls of [stop]: the working
    directory, the two local env mappings and the snapshot of the
    process environment stay as they are; the stopping flag, once
    raised, stays raised; no request under way is dropped; and a
    request that has been answered keeps its answer. *)
Theorem later_run_invariants (ext : DevServer.Collaborators)
  (s s' : DevServer.System) :
  DevServer.reachable ext s s' ->
  DevServer.cwd (DevServer.server s') = DevServer.cwd (DevServer.server s) /\
  DevServer.env (DevServer.server s') = DevServer.env (DevServer.server s) /\
  DevServer.buildEnv (DevServer.server s') = DevServer.buildEnv (DevServer.server s) /\
  DevServer.originalEnv (DevServer.server s')
  = DevServer.originalEnv (DevServer.server s) /\
  (DevServer.stopping (DevServer.server s) = true ->
   DevServer.stopping (DevServer.server s') = true) /\
  length (DevServer.tasks s) <= length (DevServer.tasks s') /\
  (forall i out,
     nth_error (DevServer.tasks s) i = Some (DevServer.Finished out) ->
     nth_error (DevServer.tasks s') i = Some (DevServer.Finished out)).
Proof.
  induction 1 as [s|s1 s2 s3 _ IH Hstep]; [repeat split; auto|].
  destruct IH as (H1 & H2 & H3 & H4 & H5 & H6 & H7).
  destruct (step_invariants ext s2 s3 Hstep) as (G1 & G2 & G3 & G4 & G5 & G6 & G7).
  repeat split; try congruence; auto. lia.
Qed.

Lemma later_run_invariants_witness :
  let answered :=
    DevServer.Finished
      (Http.Ended
         (Shared.send404 (Http.setHeader Http.fresh "Connection" (Http.HStr "close"))
            (Shared.generateRequestId Examples.sample_entropy))) in
  let stopped := fst (DevServer.stop Examples.sample_server) in
  DevServer.reachable Examples.sample_ext
    (DevServer.mkSystem stopped [answered])
    (DevServer.mkSystem stopped [answered; answered]) /\
  DevServer.stopping stopped = true /\
  nth_error [answered; answered] 0 = Some answered.
Proof.
  intros answered stopped.
  assert (Hrun : DevServer.reachable Examples.sample_ext
                   (DevServer.mkSystem stopped [answered])
                   (DevServer.mkSystem stopped [answered; answered])).
  { apply (DevServer.reach_step _ _ (DevServer.mkSystem stopped [answered]));
      [apply DevServer.reach_refl|].
    exact (DevServer.step_accept Examples.sample_ext stopped [answered]
             Examples.sample_entropy (Examples.get "/") Http.fresh). }
  destruct (later_run_invariants Examples.sample_ext _ _ Hrun)
    as (_ & _ & _ & _ & Hstop & _ & Hkeep).
  split; [exact Hrun|]. split; [apply Hstop; reflexivity|].
  apply (Hkeep 0%nat). reflexivity.
Defined.

(** ** The reporting of an error *)

Lemma lookupScope_failure {E} (w : ReportError.World E) apiUrl :
  (exists e, ReportError.readAuthConfigFile w = Throw e) \/
  (exists e, ReportError.readConfigFile w = Throw e) \/
  (exists token currentTeam e,
     ReportError.readAuthConfigFile w = Ok token /\
     ReportError.readConfigFile w = Ok currentTeam /\
     ReportError.getScope w apiUrl token currentTeam = Throw e) ->
  ReportError.lookupScope w apiUrl = ReportError.mkScope None None.
Proof.
  unfold ReportError.lookupScope.
  intros [[e ->]|[[e He]|(token & currentTeam & e & -> & -> & ->)]]; try reflexivity.
  destruct (ReportError.readAuthConfigFile w); [|reflexivity]. now rewrite He.
Qed.

(** X19: [reportError] hands the error to Sentry exactly once, whatever
    the configuration files and the scope lookup do.  When reading the
    token, reading the current team or the lookup itself fails, the
    error is captured bare, with no user and no team attached.  When
    user or team are known they are set inside the scope before the
    error is captured there, the user under their e-mail address and id,
    the team under the tag [currentTeam].  The client is closed, after
    the capture, exactly when the hub has one. *)
Theorem reportError_captures_once {E} (w : ReportError.World E)
  (error apiUrl : string) :
  let calls := ReportError.reportError w error apiUrl in
  Props.captures error calls = 1%nat /\
  (exists captured,
     calls = captured :: (if ReportError.hasClient w
                          then [ReportError.CloseClient] else []) /\
     captured <> ReportError.CloseClient) /\
  ((exists e, ReportError.readAuthConfigFile w = Throw e) \/
   (exists e, ReportError.readConfigFile w = Throw e) \/
   (exists token currentTeam e,
      ReportError.readAuthConfigFile w = Ok token /\
      ReportError.readConfigFile w = Ok currentTeam /\
      ReportError.getScope w apiUrl token currentTeam = Throw e) ->
   hd_error calls = Some (ReportError.Capture error)) /\
  (forall inner,
     In (ReportError.WithScope inner) calls ->
     exists token currentTeam scope,
       ReportError.readAuthConfigFile w = Ok token /\
       ReportError.readConfigFile w = Ok currentTeam /\
       ReportError.getScope w apiUrl token currentTeam = Ok scope /\
       inner
       = (match ReportError.user scope with
          | Some u => [ReportError.SetUser (ReportError.email u) (ReportError.uid u)]
          | None => []
          end
          ++ match ReportError.team scope with
             | Some t => [ReportError.SetTag "currentTeam" (ReportError.team_id t)]
             | None => []
             end
          ++ [ReportError.CaptureException error])%list).
Proof.
  intros calls. unfold calls, ReportError.reportError.
  split; [|split; [|split]].
  - unfold Props.captures.
    destruct (ReportError.lookupScope w apiUrl) as [[u|] [t|]];
      destruct (ReportError.hasClient w); simpl; rewrite String.eqb_refl; reflexivity.
  - eexists. split; [reflexivity|].
    destruct (ReportError.user _), (ReportError.team _); discriminate.
  - intros Hfail. now rewrite (lookupScope_failure w apiUrl Hfail).
  - intros inner Hin.
    assert (Hscope : ReportError.lookupScope w apiUrl = ReportError.mkScope None None \/
                     exists token currentTeam scope,
                       ReportError.readAuthConfigFile w = Ok token /\
                       ReportError.readConfigFile w = Ok currentTeam /\
                       ReportError.getScope w apiUrl token currentTeam = Ok scope /\
                       ReportError.lookupScope w apiUrl = scope).
    { unfold ReportError.lookupScope.
      destruct (ReportError.readAuthConfigFile w) as [token|]; [|now left].
      destruct (ReportError.readConfigFile w) as [currentTeam|]; [|now left].
      destruct (ReportError.getScope w apiUrl token currentTeam) as [scope|] eqn:G;
        [|now left].
      right. exists token, currentTeam, scope. rewrite G. auto. }
    destruct Hscope as [Hnone|(token & currentTeam & scope & Ht & Hc & Hg & Hs)].
    + rewrite Hnone in Hin. simpl in Hin.
      destruct Hin as [Hin|Hin]; [discriminate|].
      destruct (ReportError.hasClient w); [destruct Hin as [Hin|[]]; discriminate|].
      destruct Hin.
    + exists token, currentTeam, scope. rewrite Hs in Hin.
      split; [exact Ht|]. split; [exact Hc|]. split; [exact Hg|].
      destruct Hin as [Hin|Hin].
      * destruct (ReportError.user scope) as [u|], (ReportError.team scope) as [t|];
          try discriminate; now injection Hin as <-.
      * destruct (ReportError.hasClient w); [destruct Hin as [Hin|[]]; discriminate|].
        destruct Hin.
Qed.

Lemma reportError_captures_once_witness :
  let offline : ReportError.World string :=
    ReportError.mkWorld string (Ok (Some "t0k3n")) (Ok None)
      (fun _ _ _ => Throw "network") true in
  ReportError.reportError offline "boom" "https://api.zeit.co"
  = [ReportError.Capture "boom"; ReportError.CloseClient].
Proof.
  intros offline.
  destruct (reportError_captures_once offline "boom" "https://api.zeit.co")
    as (_ & (captured & Hcalls & _) & Hbare & _).
  rewrite Hcalls in Hbare |- *. simpl in Hbare.
  assert (Hc : Some captured = Some (ReportError.Capture "boom")).
  { apply Hbare. right. right. exists (Some "t0k3n"), None, "network". auto. }
  injection Hc as ->. reflexivity.
Defined.

(** ** Shutting down *)

Lemma destroy_of_built asset :
  EarlierMethods.destroy_of asset
  = map DevServer.Destroy
      match Types.asset_body asset with
      | Types.Lambda (Some fn) => [fn]
      | _ => []
      end.
Proof.
  unfold EarlierMethods.destroy_of.
  destruct (Types.asset_body asset) as [| |[fn|]|]; reflexivity.
Qed.

Lemma destroy_ops_of asset :
  DevServer.destroy_ops asset = map DevServer.Start (EarlierMethods.destroy_of asset).
Proof.
  unfold DevServer.destroy_ops, EarlierMethods.destroy_of.
  destruct (Types.asset_body asset) as [| |[fn|]|]; reflexivity.
Qed.

Lemma flat_map_map {A B C} (f : A -> list B) (g : B -> C) (l : list A) :
  flat_map (fun x => map g (f x)) l = map g (flat_map f l).
Proof.
  induction l as [|x l IH]; simpl; [reflexivity|]. now rewrite IH, map_app.
Qed.

Lemma built_functions_In (assets : Types.BuilderOutputs) fn :
  In fn (Props.built_functions assets)
  <-> exists key asset,
        In (key, asset) assets /\ Types.asset_body asset = Types.Lambda (Some fn).
Proof.
  unfold Props.built_functions. rewrite in_flat_map. split.
  - intros (asset & Hin & Hfn). unfold JS.obj_values in Hin.
    apply in_map_iff in Hin as ([key a] & <- & Hin). simpl in Hfn.
    exists key, a. split; [exact Hin|].
    destruct (Types.asset_body a) as [| |[fn'|]|]; simpl in Hfn; try contradiction.
    destruct Hfn as [->|[]]. reflexivity.
  - intros (key & asset & Hin & Hbody). exists asset. split.
    + unfold JS.obj_values. now apply (in_map snd) in Hin.
    + rewrite Hbody. now left.
Qed.

(** X20: what [stop] tears down.  The earlier server starts [destroy()]
    for the function of a Lambda asset exactly when the asset is among
    its assets and has been built, in the order of the assets, and
    closes the socket once, after them.  The later server, holding the
    same assets, starts the same operations after it has raised its
    flag, and none once the flag is up. *)
Theorem stop_operations (srv : DevServerV1.DevServer) :
  EarlierMethods.stop srv
  = (map DevServer.Destroy (Props.built_functions (DevServerV1.assets srv))
     ++ [DevServer.Close])%list /\
  (forall fn,
     In (DevServer.Destroy fn) (EarlierMethods.stop srv)
     <-> exists key asset,
           In (key, asset) (DevServerV1.assets srv) /\
           Types.asset_body asset = Types.Lambda (Some fn)) /\
  snd (DevServer.stop (Props.later_of srv))
  = DevServer.SetStopping :: map DevServer.Start (EarlierMethods.stop srv) /\
  snd (DevServer.stop (fst (DevServer.stop (Props.later_of srv)))) = [].
Proof.
  assert (Hops : EarlierMethods.stop srv
                 = (map DevServer.Destroy
                      (Props.built_functions (DevServerV1.assets srv))
                    ++ [DevServer.Close])%list).
  { unfold EarlierMethods.stop, Props.built_functions. f_equal.
    rewrite <- flat_map_map. apply flat_map_ext. intros a. apply destroy_of_built. }
  split; [exact Hops|]. split; [|split].
  - intros fn. rewrite Hops, <- built_functions_In, in_app_iff, in_map_iff. split.
    + intros [(fn' & [= ->] & Hin)|[H|[]]]; [exact Hin|discriminate].
    + intros Hin. left. exists fn. auto.
  - unfold DevServer.stop, EarlierMethods.stop. simpl.
    rewrite map_app. simpl. do 2 f_equal.
    rewrite <- flat_map_map. apply flat_map_ext. intros a. apply destroy_ops_of.
  - reflexivity.
Qed.

(** ** Reading [now.json] *)

(** X21: what [getNowJson] answers.  A configuration it returns is the
    one read from the file and has passed the check of the server, so
    its version is 2; it answers [null] exactly when the file does not
    exist, in both servers; and any other failure of the read is thrown
    as it is, with its code and message. *)
Theorem getNowJson_inversion (srv : DevServer.DevServer)
  (file : Types.ReadResult Types.NowConfig) :
  (forall config,
     DevServer.getNowJson srv file = Ok (Some config) ->
     file = Types.ReadOk config /\
     DevServer.validateNowConfig srv config = Ok tt /\
     Types.version config = Some (JS.JNum 2)) /\
  (forall config,
     DevServerV1.getNowJson file = Ok (Some config) ->
     file = Types.ReadOk config /\
     DevServerV1.validateNowConfig config = Ok tt /\
     Types.version config = Some (JS.JNum 2)) /\
  (DevServer.getNowJson srv file = Ok None
   <-> exists message, file = Types.ReadFails (Some "ENOENT") message) /\
  (DevServerV1.getNowJson file = Ok None
   <-> exists message, file = Types.ReadFails (Some "ENOENT") message) /\
  (forall code message,
     file = Types.ReadFails code message ->
     code <> Some "ENOENT" ->
     DevServer.getNowJson srv file = Throw (DevServer.Error code message) /\
     DevServerV1.getNowJson file = Throw message).
Proof.
  assert (Hv2 : forall config, DevServer.validateNowConfig srv config = Ok tt ->
                               Types.version config = Some (JS.JNum 2)).
  { intros config. unfold DevServer.validateNowConfig.
    destruct (Types.version config) as [[| |n| | |]|]; try discriminate.
    destruct n as [|[[]|[]|]|]; try discriminate. reflexivity. }
  assert (Hv1 : forall config, DevServerV1.validateNowConfig config = Ok tt ->
                               Types.version config = Some (JS.JNum 2)).
  { intros config. unfold DevServerV1.validateNowConfig.
    destruct (Types.version config) as [[| |n| | |]|]; try discriminate.
    destruct n as [|[[]|[]|]|]; try discriminate. reflexivity. }
  split; [|split; [|split; [|split]]].
  - intros config. unfold DevServer.getNowJson.
    destruct file as [c|[code|] message].
    + destruct (DevServer.validateNowConfig srv c) as [[]|e] eqn:Hval; [|discriminate].
      simpl. intros [= <-]. auto.
    + destruct (String.eqb code "ENOENT"); discriminate.
    + discriminate.
  - intros config. unfold DevServerV1.getNowJson.
    destruct file as [c|[code|] message].
    + destruct (DevServerV1.validateNowConfig c) as [[]|e] eqn:Hval; [|discriminate].
      simpl. intros [= <-]. auto.
    + destruct (String.eqb code "ENOENT"); discriminate.
    + discriminate.
  - unfold DevServer.getNowJson. destruct file as [c|[code|] message].
    + split; [|intros [m Hm]; discriminate].
      destruct (DevServer.validateNowConfig srv c); discriminate.
    + destruct (String.eqb_spec code "ENOENT") as [->|Hne].
      * split; eauto.
      * split; [discriminate|]. intros [m [= Hc _]]. contradiction.
    + split; [discriminate|]. intros [m Hm]. discriminate.
  - unfold DevServerV1.getNowJson. destruct file as [c|[code|] message].
    + split; [|intros [m Hm]; discriminate].
      destruct (DevServerV1.validateNowConfig c); discriminate.
    + destruct (String.eqb_spec code "ENOENT") as [->|Hne].
      * split; eauto.
      * split; [discriminate|]. intros [m [= Hc _]]. contradiction.
    + split; [discriminate|]. intros [m Hm]. discriminate.
  - intros code message -> Hne. simpl. destruct code as [c|]; [|auto].
    destruct (String.eqb_spec c "ENOENT") as [->|]; [now destruct Hne|auto].
Qed.

Lemma getNowJson_inversion_witness :
  DevServer.getNowJson Examples.sample_server
    (Types.ReadFails (Some "EACCES") "permission denied")
  = Throw (DevServer.Error (Some "EACCES") "permission denied") /\
  DevServerV1.getNowJson (Types.ReadFails None "Unexpected token } in JSON")
  = Throw "Unexpected token } in JSON" /\
  Types.version Examples.sample_config = Some (JS.JNum 2).
Proof.
  split; [|split].
  - destruct (getNowJson_inversion Examples.sample_server
                (Types.ReadFails (Some "EACCES") "permission denied"))
      as (_ & _ & _ & _ & H).
    apply (H (Some "EACCES") "permission denied"); [reflexivity|discriminate].
  - destruct (getNowJson_inversion Examples.sample_server
                (Types.ReadFails None "Unexpected token } in JSON"))
      as (_ & _ & _ & _ & H).
    apply (H None "Unexpected token } in JSON"); [reflexivity|discriminate].
  - destruct (getNowJson_inversion Examples.sample_server
                (Types.ReadOk Examples.sample_config)) as (H & _).
    apply (H Examples.sample_config). reflexivity.
Defined.

(** ** A project without [now.json] *)

(** X22: a project that has no [now.json] is served as static files
    from its working directory, under the URL asked for and with the
    Now headers.  The later server does so for every request and stays
    as it is.  The earlier server, when it is not busy, refuses with
    the 404 response a path its ignore list names, never the root, and
    otherwise answers as the later one does. *)
Theorem absent_config_serves_static (ext1 : DevServerV1.Collaborators)
  (ext2 : DevServer.Collaborators) (srv : DevServerV1.DevServer)
  (entropy : Shared.Entropy) (message : string)
  (matches : Exc DevServer.Err (list DevServer.BuildMatch))
  (req : Http.IncomingMessage) (res : Http.ServerResponse) :
  let file := Types.ReadFails (Some "ENOENT") message in
  let nowRequestId := Shared.generateRequestId entropy in
  let later :=
    DevServer.devServerHandler ext2 (Props.later_of srv) entropy file matches req res in
  let earlier := DevServerV1.devServerHandler ext1 srv entropy file req res in
  let filePath := JS.strip_leading_slash (Http.url req) in
  later
  = (Props.later_of srv,
     Http.ServeStatic (Shared.writeResponseHeaders res nowRequestId None)
       (Http.url req) (DevServerV1.cwd srv)) /\
  Spec.carries_now_headers (Http.response_of (snd later)) nowRequestId /\
  (DevServerV1.status srv <> DevServerV1.busy ->
   (filePath = EmptyString \/ DevServerV1.ignores ext1 filePath = false ->
    snd earlier = snd later) /\
   (filePath <> EmptyString -> DevServerV1.ignores ext1 filePath = true ->
    snd earlier = Http.Ended (Shared.send404 res nowRequestId))).
Proof.
  intros file nowRequestId later earlier filePath.
  assert (Hlater : later
                   = (Props.later_of srv,
                      Http.ServeStatic
                        (Shared.writeResponseHeaders res nowRequestId None)
                        (Http.url req) (DevServerV1.cwd srv))) by reflexivity.
  split; [exact Hlater|]. rewrite Hlater.
  split; [apply writeResponseHeaders_default|].
  intros Hbusy.
  assert (Hearlier : snd earlier
                     = DevServerV1.serveProjectAsStatic ext1 srv req res nowRequestId).
  { unfold earlier, DevServerV1.devServerHandler.
    destruct (DevServerV1.status srv); [reflexivity|now destruct Hbusy|reflexivity]. }
  rewrite Hearlier. unfold DevServerV1.serveProjectAsStatic. fold filePath. split.
  - intros [-> | ->]; [reflexivity|]. now rewrite andb_false_r.
  - intros Hne Hig. apply String.eqb_neq in Hne. now rewrite Hne, Hig.
Qed.

Lemma absent_config_serves_static_witness :
  snd (DevServerV1.devServerHandler Examples.sample_v1 Examples.sample_server_v1
         Examples.sample_entropy (Types.ReadFails (Some "ENOENT") "no such file")
         (Examples.get "/logo.svg") Http.fresh)
  = snd (DevServer.devServerHandler Examples.sample_ext
           (Props.later_of Examples.sample_server_v1) Examples.sample_entropy
           (Types.ReadFails (Some "ENOENT") "no such file") (Ok [])
           (Examples.get "/logo.svg") Http.fresh).
Proof.
  destruct (absent_config_serves_static Examples.sample_v1 Examples.sample_ext
              Examples.sample_server_v1 Examples.sample_entropy "no such file"
              (Ok []) (Examples.get "/logo.svg") Http.fresh) as (_ & _ & H).
  destruct H as [H _]; [discriminate|]. apply H. right. reflexivity.
Defined.

(** ** The later server: a failure while a request is handled *)

(** X23: when reading or checking [now.json] fails, or the build matches
    cannot be computed, the later server answers with status 500 and
    the message of the error as the body, on the headers the response
    already had (no Now header is added), and stays as it is; a
    response that was finished already is left alone. *)
Theorem later_failure_is_bare_500 (ext : DevServer.Collaborators)
  (srv : DevServer.DevServer) (entropy : Shared.Entropy)
  (file : Types.ReadResult Types.NowConfig)
  (matches : Exc DevServer.Err (list DevServer.BuildMatch))
  (req : Http.IncomingMessage) (res : Http.ServerResponse) (e : DevServer.Err) :
  DevServer.stopping srv = false ->
  DevServer.getNowJson srv file = Throw e \/
  (exists config,
     DevServer.getNowJson srv file = Ok (Some config) /\ matches = Throw e) ->
  exists res',
    DevServer.devServerHandler ext srv entropy file matches req res
    = (srv, Http.Ended res') /\
    (Http.finished res = false ->
     Http.statusCode res' = 500%Z /\
     Http.body res' = Http.BodyText (DevServer.message_of ext e) /\
     Http.headers res' = Http.headers res /\
     Http.finished res' = true) /\
    (Http.finished res = true -> res' = res).
Proof.
  intros Hs Hfail.
  exists (if Http.finished res then res
          else Http.end_ (Http.setStatusCode res 500%Z)
                 (Http.BodyText (DevServer.message_of ext e))).
  split.
  - unfold DevServer.devServerHandler. rewrite Hs.
    destruct Hfail as [-> |(config & -> & ->)]; reflexivity.
  - split; intros ->; auto.
Qed.

Lemma later_failure_is_bare_500_witness :
  let cfg :=
    Types.mkNowConfig (Some (JS.JNum 2)) (Some [("TOKEN", JS.JStr "@token")])
      None None None in
  exists res',
    DevServer.devServerHandler Examples.sample_ext Examples.sample_server
      Examples.sample_entropy (Types.ReadOk cfg) (Ok []) (Examples.get "/") Http.fresh
    = (Examples.sample_server, Http.Ended res') /\
    Http.statusCode res' = 500%Z /\
    Http.body res' = Http.BodyText "Missing env vars in .env" /\
    Http.getHeader res' "x-now-id" = None.
Proof.
  intros cfg.
  destruct (later_failure_is_bare_500 Examples.sample_ext Examples.sample_server
              Examples.sample_entropy (Types.ReadOk cfg) (Ok []) (Examples.get "/")
              Http.fresh (DevServer.MissingDotenvVarsError ".env" ["TOKEN"]))
    as (res' & Hrun & Hopen & _).
  - reflexivity.
  - left. reflexivity.
  - destruct (Hopen eq_refl) as (Hcode & Hbody & Hheaders & _).
    exists res'. split; [exact Hrun|]. split; [exact Hcode|]. split; [exact Hbody|].
    unfold Http.getHeader. rewrite Hheaders. reflexivity.
Defined.

(** ** The earlier server: starting *)

(** X24: [start] of the earlier server.  A configuration that cannot be
    read or is refused makes it throw before it asks for a port.  When
    it has started, the port is bound, the server is idle with an empty
    status message, and its assets are the ones of before or, for a
    configuration with builds, what the initial build made of them; a
    failure of that initial build is thrown although the port is bound
    already. *)
Theorem v1_start_outcomes (ext : DevServerV1.Collaborators)
  (srv : DevServerV1.DevServer) (port : option Z)
  (file : Types.ReadResult Types.NowConfig) (answers : list Shared.ListenAnswer) :
  let first := match port with Some p => p | None => 3000%Z end in
  (forall message,
     DevServerV1.getNowJson file = Throw message ->
     DevServerV1.start ext srv port file answers
     = DevServerV1.StartThrows None message) /\
  (forall srv' p address,
     DevServerV1.start ext srv port file answers = DevServerV1.Started srv' p address ->
     Shared.listenLoop first answers = Shared.Bound p address /\
     DevServerV1.status srv' = DevServerV1.idle /\
     DevServerV1.statusMessage srv' = EmptyString /\
     DevServerV1.cwd srv' = DevServerV1.cwd srv /\
     (DevServerV1.assets srv' = DevServerV1.assets srv \/
      exists config bs,
        file = Types.ReadOk config /\
        Types.builds config = Some bs /\
        DevServerV1.buildUserProject ext config (DevServerV1.assets srv)
        = Ok (DevServerV1.assets srv'))) /\
  (forall config bs p address message,
     DevServerV1.getNowJson file = Ok (Some config) ->
     Types.builds config = Some bs ->
     Shared.listenLoop first answers = Shared.Bound p address ->
     DevServerV1.buildUserProject ext config (DevServerV1.assets srv) = Throw message ->
     DevServerV1.start ext srv port file answers
     = DevServerV1.StartThrows None message).
Proof.
  intros first. split; [|split].
  - intros message Hcfg. unfold DevServerV1.start. now rewrite Hcfg.
  - intros srv' p address. unfold DevServerV1.start. fold first.
    destruct (DevServerV1.getNowJson file) as [nowJson|message] eqn:Hcfg;
      [|discriminate].
    destruct (Shared.listenLoop first answers) as [p0 a0| |]; try discriminate.
    destruct nowJson as [config|].
    + assert (Hfile : file = Types.ReadOk config).
      { unfold DevServerV1.getNowJson in Hcfg. destruct file as [c|[code|] msg].
        - destruct (DevServerV1.validateNowConfig c); [|discriminate].
          simpl in Hcfg. congruence.
        - destruct (String.eqb code "ENOENT"); discriminate.
        - discriminate. }
      destruct (Types.builds config) as [bs|] eqn:Hb.
      * destruct (DevServerV1.buildUserProject ext config (DevServerV1.assets srv))
          as [built|message] eqn:Hbuild; [|discriminate].
        intros [= <- <- <-]. repeat split; auto.
        right. exists config, bs. auto.
      * intros [= <- <- <-]. repeat split; auto.
    + intros [= <- <- <-]. repeat split; auto.
  - intros config bs p address message Hcfg Hb Hl Hbuild.
    unfold DevServerV1.start. fold first. now rewrite Hcfg, Hl, Hb, Hbuild.
Qed.

Lemma v1_start_outcomes_witness :
  DevServerV1.start Examples.sample_v1 (DevServerV1.constructor "/project") None
    (Types.ReadOk
       (Types.mkNowConfig (Some (JS.JNum 1)) None None None None))
    [Shared.Listening "http://[::]:3000"]
  = DevServerV1.StartThrows None "Only `version: 2` is supported by `now dev`".
Proof.
  destruct (v1_start_outcomes Examples.sample_v1 (DevServerV1.constructor "/project")
              None
              (Types.ReadOk
                 (Types.mkNowConfig (Some (JS.JNum 1)) None None None None))
              [Shared.Listening "http://[::]:3000"]) as (H & _).
  apply H. reflexivity.
Defined.

(** ** The later server: a routed request *)

(** X25: a request the later server routes.  The server keeps its
    state but for the build matches, which are reconciled first.  When
    Node accepts the headers of the matched route, they are set on the
    response in every case, the last entry winning when a name is
    listed twice, letter case apart, and no other header is touched; a
    destination that is a URL is proxied to, whatever the status of the
    route; otherwise a status that is no redirect is dropped: the
    response is ended with the status code it had and without a body.
    When Node refuses one of the headers, the request is answered by
    the 500 of the [catch] block, whose body is the message of Node's
    error, on the headers set before the refused one. *)
Theorem later_routed_outcome (ext : DevServer.Collaborators)
  (srv : DevServer.DevServer) (entropy : Shared.Entropy)
  (file : Types.ReadResult Types.NowConfig) (nowJson : Types.NowConfig)
  (ms : list DevServer.BuildMatch)
  (req : Http.IncomingMessage) (res : Http.ServerResponse) :
  DevServer.stopping srv = false ->
  DevServer.getNowJson srv file = Ok (Some nowJson) ->
  let srv1 := DevServer.updateBuildMatches srv ms in
  let r :=
    DevServer.devRouter ext (Http.url req) (Types.routes nowJson)
      (DevServer.hasFilesystem srv1) in
  let hs := match Types.route_headers r with Some h => h | None => [] end in
  let status := match Types.status r with Some s => s | None => 200%Z end in
  let run := DevServer.devServerHandler ext srv entropy file (Ok ms) req res in
  fst run = srv1 /\
  (Http.accepted (DevServer.routeHeaders r) = true ->
   (forall name,
      Http.getHeader (Http.response_of (snd run)) name
      = match Spec.last_named hs name with
        | Some v => Some (Http.HStr v)
        | None => Http.getHeader res name
        end) /\
   (DevServer.isURL ext (Types.dest r) = true ->
    exists res',
      snd run = Http.ProxyPass res' (Types.dest r) /\
      Http.statusCode res' = Http.statusCode res /\
      Http.finished res' = Http.finished res /\
      Http.body res' = Http.body res) /\
   (DevServer.isURL ext (Types.dest r) = false ->
    DevServer.is_redirect status = false ->
    exists res',
      snd run = Http.Ended res' /\
      Http.statusCode res' = Http.statusCode res /\
      Http.finished res' = true /\
      Http.body res' = Http.BodyNone)) /\
  (Http.accepted (DevServer.routeHeaders r) = false ->
   Http.finished res = false ->
   exists res' e before name value after,
     DevServer.routeHeaders r = (before ++ (name, value) :: after)%list /\
     Http.accepted before = true /\
     Http.refuses name value = Some e /\
     snd run = Http.Ended res' /\
     Http.statusCode res' = 500%Z /\
     Http.finished res' = true /\
     Http.body res' = Http.BodyText (Http.refusal_message e) /\
     Http.headers res' = Http.headers (Http.setHeaders res before)).
Proof.
  intros Hs Hg srv1 r hs status run.
  assert (Hrun : run
                 = (srv1,
                    match DevServer.respond ext r res with
                    | Ok out => out
                    | Throw (e, res0) => DevServer.internalError ext res0 e
                    end)).
  { unfold run. apply later_handler_routes; assumption. }
  rewrite Hrun. cbn [fst snd]. split; [reflexivity|]. split.
  - intros Hacc. rewrite (respond_accepted ext r res Hacc). cbv zeta. fold status.
    assert (Hget : forall name,
              Http.getHeader (Http.setHeaders res (DevServer.routeHeaders r)) name
              = match Spec.last_named hs name with
                | Some v => Some (Http.HStr v)
                | None => Http.getHeader res name
                end).
    { intros name. apply route_headers_set. }
    split; [|split].
    + intros name.
      destruct (DevServer.isURL ext (Types.dest r)); [apply Hget|].
      destruct (DevServer.is_redirect status); apply Hget.
    + intros ->. eexists. split; [reflexivity|]. apply setHeaders_headers_frame.
    + intros -> ->. eexists. split; [reflexivity|].
      split; [apply setHeaders_statusCode|]. split; reflexivity.
  - intros Hacc Hf.
    destruct (respond_refused ext r res Hacc)
      as (before & name & value & after & e & Hsplit & Hb & He & Hthrow).
    rewrite Hthrow. unfold DevServer.internalError.
    assert (Hfin : Http.finished (Http.setHeaders res before) = false).
    { destruct (setHeaders_headers_frame before res) as (_ & -> & _). exact Hf. }
    rewrite Hfin. eexists. exists e, before, name, value, after.
    repeat split; try reflexivity; assumption.
Qed.

Lemma later_routed_outcome_witness :
  let run :=
    DevServer.devServerHandler Examples.sample_ext Examples.sample_server
      Examples.sample_entropy (Types.ReadOk Examples.sample_config) (Ok [])
      (Examples.get "/api/upstream") Http.fresh in
  exists res',
    snd run = Http.ProxyPass res' "https://example.com/api" /\
    Http.statusCode res' = 200%Z.
Proof.
  intros run.
  destruct (later_routed_outcome Examples.sample_ext Examples.sample_server
              Examples.sample_entropy (Types.ReadOk Examples.sample_config)
              Examples.sample_config [] (Examples.get "/api/upstream") Http.fresh)
    as (_ & Hok & _); [reflexivity|reflexivity|].
  destruct (Hok eq_refl) as (_ & Hproxy & _).
  destruct Hproxy as (res' & Hrun & Hcode & _); [reflexivity|].
  exists res'. split; [exact Hrun|exact Hcode].
Defined.

(** A rule of [now.json] whose header name is no token: the later
    server answers its requests with the 500 of the [catch] block. *)
Example later_refused_route_header :
  let ext :=
    DevServer.mkCollaborators
      (fun _ _ _ =>
         Types.mkRouteResult "/page" None
           (Some [("X-Frame-Options", "DENY"); ("bad name", "v")]) None None)
      (fun _ => false) (fun _ _ => EmptyString) in
  snd (DevServer.devServerHandler ext Examples.sample_server Examples.sample_entropy
         (Types.ReadOk Examples.sample_config) (Ok []) (Examples.get "/page")
         Http.fresh)
  = Http.Ended
      (Http.mkResponse 500
         [("x-frame-options", ("X-Frame-Options", Http.HStr "DENY"))] true
         (Http.BodyText
            ("Header name must be a valid HTTP token [" ++ JS.quote ++ "bad name"
             ++ JS.quote ++ "]"))).
Proof. reflexivity. Qed.

(** ** The earlier server: the headers of the matched route *)

(** X26: the earlier server reads the headers of the matched route and
    never uses them: it answers every request as it would if the router
    had answered none.  A redirect is therefore ended on the headers
    the response already had, and its body names the [location] header
    found there, [undefined] when there is none; a proxied request is
    handed over with the response untouched. *)
Theorem v1_ignores_route_headers (ext : DevServerV1.Collaborators)
  (srv : DevServerV1.DevServer) (entropy : Shared.Entropy)
  (file : Types.ReadResult Types.NowConfig)
  (req : Http.IncomingMessage) (res : Http.ServerResponse) :
  DevServerV1.devServerHandler (Props.without_route_headers ext) srv entropy file
    req res
  = DevServerV1.devServerHandler ext srv entropy file req res /\
  (forall nowRequestId nowJson,
     let r := DevServerV1.devRouter ext (Http.url req) (Types.routes nowJson) in
     let status := match Types.status r with Some s => s | None => 200%Z end in
     (DevServerV1.isURL ext (Types.dest r) = true ->
      DevServerV1.serveProjectAsNowV2 ext srv req res nowRequestId nowJson
      = Ok (srv, Http.ProxyPass res (Types.dest r))) /\
     (DevServerV1.isURL ext (Types.dest r) = false ->
      DevServerV1.is_redirect status = true ->
      exists res',
        DevServerV1.serveProjectAsNowV2 ext srv req res nowRequestId nowJson
        = Ok (srv, Http.Ended res') /\
        Http.statusCode res' = status /\
        Http.headers res' = Http.headers res /\
        Http.body res'
        = Http.BodyText
            ("Redirecting (" ++ JS.string_of_Z status ++ ") to "
             ++ Http.render (Http.getHeader res "location")) /\
        (Http.getHeader res "location" = None ->
         Http.body res'
         = Http.BodyText
             ("Redirecting (" ++ JS.string_of_Z status ++ ") to undefined")))).
Proof.
  split; [reflexivity|].
  intros nowRequestId nowJson r status. split.
  - intros Hurl. subst r. unfold DevServerV1.serveProjectAsNowV2. cbv zeta.
    now rewrite Hurl.
  - intros Hurl Hred. subst status r. unfold DevServerV1.serveProjectAsNowV2.
    cbv zeta. rewrite Hurl, Hred. eexists. split; [reflexivity|].
    split; [reflexivity|]. split; [reflexivity|]. split; [reflexivity|].
    intros Hnone. cbn [Http.body Http.end_].
    change (Http.getHeader (Http.setStatusCode res ?s) "location")
      with (Http.getHeader res "location").
    rewrite Hnone. reflexivity.
Qed.

Lemma v1_ignores_route_headers_witness :
  exists res',
    DevServerV1.serveProjectAsNowV2 Examples.sample_v1 Examples.sample_server_v1
      (Examples.get "/old/page") Http.fresh "a-1-b" Examples.sample_config
    = Ok (Examples.sample_server_v1, Http.Ended res') /\
    Http.statusCode res' = 301%Z /\
    Http.body res' = Http.BodyText "Redirecting (301) to undefined".
Proof.
  destruct (v1_ignores_route_headers Examples.sample_v1 Examples.sample_server_v1
              Examples.sample_entropy (Types.ReadOk Examples.sample_config)
              (Examples.get "/old/page") Http.fresh) as [_ H].
  destruct (H "a-1-b" Examples.sample_config) as [_ Hred].
  destruct Hred as (res' & Hrun & Hcode & _ & _ & Hbody); [reflexivity|reflexivity|].
  exists res'. split; [exact Hrun|]. split; [exact Hcode|].
  apply Hbody. reflexivity.
Defined.
